(** * SoulCypher avatar SDK (packages/web): session controller, session
    registry and gateway error mapping.

    The development embeds three source files and the error classes of a
    fourth:
    - [types.ts]      the error classes                (Module [Err]);
    - [session.ts]    class [AvatarSessionManager]     (Module [Session]);
    - [api-client.ts] class [APIClient]                (Module [Api]);
    - [sdk.ts]        class [SoulCypherSDK]            (Module [SDK]).
    Module [JSON] models [JSON.parse] and the values it yields, Module
    [Eff] the effects of the code.  Module [Reentrant] has the event
    dispatch for callbacks that register and remove handlers while they
    are called.  The statements and their proofs follow in the modules
    whose names end in [Facts] or [More].

    A JavaScript string is kept as the bytes of its UTF-8 form, and so is
    the byte array of a data-channel payload; [TextDecoder] is what leads
    from the second to the first.

    Conventions.  A JavaScript object that is mutated in place is a state
    threaded through a small state/exception/trace monad.  What the code
    does to the outside world (calls into the transport provider, calls of
    registered handlers, console output, gateway calls) is recorded in the
    trace, in program order.  What the outside world answers (does a
    promise of the provider fulfil or reject, what does the gateway return)
    is an explicit argument of the operation that asks.

    The transport provider (livekit-client) is not part of the sources.
    Its room is used through [connect], [disconnect], [publishData], [on]
    and [state]; the first three are asynchronous methods, which report a
    failure by rejecting the promise they return. *)

From Stdlib Require Import ZArith NArith String Ascii List Bool Lia.
From stdpp Require Import base option list gmap strings pretty.

Local Open Scope string_scope.
Local Open Scope list_scope.
Local Set Warnings "-register-all".

(** ** JavaScript values obtained from [JSON.parse] *)

Module JSON.

(** A number keeps the text it was written with: IEEE rounding is not part
    of the model. *)
Inductive json : Type :=
| JNull
| JBool (b : bool)
| JNumber (lexeme : string)
| JString (s : string)
| JArray (items : list json)
| JObject (members : list (string * json)).

Definition dquote : ascii := ascii_of_nat 34.
Definition backslash : ascii := ascii_of_nat 92.

Definition is_ws (c : ascii) : bool :=
  let n := nat_of_ascii c in
  Nat.eqb n 32 || Nat.eqb n 9 || Nat.eqb n 10 || Nat.eqb n 13.

Definition is_digit (c : ascii) : bool :=
  let n := nat_of_ascii c in Nat.leb 48 n && Nat.leb n 57.

Fixpoint skip_ws (cs : list ascii) : list ascii :=
  match cs with
  | c :: r => if is_ws c then skip_ws r else cs
  | [] => []
  end.

Fixpoint take_digits (cs : list ascii) : list ascii * list ascii :=
  match cs with
  | c :: r =>
      if is_digit c then let '(d, r') := take_digits r in (c :: d, r')
      else ([], cs)
  | [] => ([], [])
  end.

Definition hex_digit (c : ascii) : option nat :=
  let n := nat_of_ascii c in
  if Nat.leb 48 n && Nat.leb n 57 then Some (n - 48)
  else if Nat.leb 65 n && Nat.leb n 70 then Some (n - 55)
  else if Nat.leb 97 n && Nat.leb n 102 then Some (n - 87)
  else None.

(** A text is kept as its UTF-8 bytes.  UTF-8 bytes of one UTF-16 code
    unit; a surrogate that an escape writes without its partner has no
    UTF-8 form and is kept as a three-byte unit of its own. *)
Definition utf8_of_unit (u : N) : list ascii :=
  if (u <? 128)%N then [ascii_of_N u]
  else if (u <? 2048)%N then
    [ascii_of_N (192 + u / 64); ascii_of_N (128 + u mod 64)]
  else
    [ascii_of_N (224 + u / 4096); ascii_of_N (128 + (u / 64) mod 64);
     ascii_of_N (128 + u mod 64)].

Definition is_high_surrogate (u : N) : bool :=
  (55296 <=? u)%N && (u <=? 56319)%N.

Definition is_low_surrogate (u : N) : bool :=
  (56320 <=? u)%N && (u <=? 57343)%N.

(** UTF-8 bytes of the code point that a surrogate pair stands for. *)
Definition utf8_of_pair (hi lo : N) : list ascii :=
  let p := (65536 + (hi - 55296) * 1024 + (lo - 56320))%N in
  [ascii_of_N (240 + p / 262144); ascii_of_N (128 + (p / 4096) mod 64);
   ascii_of_N (128 + (p / 64) mod 64); ascii_of_N (128 + p mod 64)].

Definition hex4 (h1 h2 h3 h4 : ascii) : option N :=
  match hex_digit h1, hex_digit h2, hex_digit h3, hex_digit h4 with
  | Some a, Some b, Some c, Some d =>
      Some (((N.of_nat a * 16 + N.of_nat b) * 16 + N.of_nat c) * 16 + N.of_nat d)%N
  | _, _, _, _ => None
  end.

Definition unescape (c : ascii) : option ascii :=
  let n := nat_of_ascii c in
  if Nat.eqb n 34 then Some dquote
  else if Nat.eqb n 92 then Some backslash
  else if Nat.eqb n 47 then Some (ascii_of_nat 47)
  else if Nat.eqb n 98 then Some (ascii_of_nat 8)
  else if Nat.eqb n 102 then Some (ascii_of_nat 12)
  else if Nat.eqb n 110 then Some (ascii_of_nat 10)
  else if Nat.eqb n 114 then Some (ascii_of_nat 13)
  else if Nat.eqb n 116 then Some (ascii_of_nat 9)
  else None.

(** The low surrogate that an escape directly after a high surrogate
    writes, with what follows it. *)
Definition low_escape (cs : list ascii) : option (N * list ascii) :=
  match cs with
  | b :: u :: l1 :: l2 :: l3 :: l4 :: r =>
      if Nat.eqb (nat_of_ascii b) 92 && Nat.eqb (nat_of_ascii u) 117 then
        match hex4 l1 l2 l3 l4 with
        | Some lo => if is_low_surrogate lo then Some (lo, r) else None
        | None => None
        end
      else None
  | _ => None
  end.

(** The characters of a string literal, after its opening quote.  Two
    escapes that write a surrogate pair give one code point. *)
Fixpoint parse_chars (cs : list ascii) (acc : list ascii)
  : option (string * list ascii) :=
  match cs with
  | [] => None
  | c :: r =>
      if Nat.eqb (nat_of_ascii c) 34 then
        Some (string_of_list_ascii (rev acc), r)
      else if Nat.eqb (nat_of_ascii c) 92 then
        match r with
        | e :: r' =>
            match unescape e with
            | Some c' => parse_chars r' (c' :: acc)
            | None =>
                if Nat.eqb (nat_of_ascii e) 117 then
                  match r' with
                  | h1 :: h2 :: h3 :: h4 :: r'' =>
                      match hex4 h1 h2 h3 h4 with
                      | Some hi =>
                          if is_high_surrogate hi then
                            match r'' with
                            | b :: u :: l1 :: l2 :: l3 :: l4 :: r3 =>
                                match low_escape (b :: u :: l1 :: l2 :: l3 :: l4 :: r3)
                                with
                                | Some (lo, _) =>
                                    parse_chars r3 (rev (utf8_of_pair hi lo) ++ acc)
                                | None =>
                                    parse_chars r'' (rev (utf8_of_unit hi) ++ acc)
                                end
                            | _ => parse_chars r'' (rev (utf8_of_unit hi) ++ acc)
                            end
                          else parse_chars r'' (rev (utf8_of_unit hi) ++ acc)
                      | None => None
                      end
                  | _ => None
                  end
                else None
            end
        | [] => None
        end
      else if Nat.ltb (nat_of_ascii c) 32 then None
      else parse_chars r (c :: acc)
  end.

(** A number: optional minus, an integer part without leading zero, an
    optional fraction, an optional exponent. *)
Definition parse_number (cs : list ascii) : option (string * list ascii) :=
  let '(sign, r0) :=
    match cs with
    | c :: r => if Nat.eqb (nat_of_ascii c) 45 then ([c], r) else ([], cs)
    | [] => ([], [])
    end in
  let '(int, r1) := take_digits r0 in
  match int with
  | [] => None
  | d :: ds =>
      if Nat.eqb (nat_of_ascii d) 48 && negb (Nat.eqb (length ds) 0) then None
      else
        let frac :=
          match r1 with
          | c :: r =>
              if Nat.eqb (nat_of_ascii c) 46 then
                let '(f, r') := take_digits r in
                match f with [] => None | _ => Some (c :: f, r') end
              else Some ([], r1)
          | [] => Some ([], [])
          end in
        match frac with
        | None => None
        | Some (f, r2) =>
            let expo :=
              match r2 with
              | c :: r =>
                  if Nat.eqb (nat_of_ascii c) 101 || Nat.eqb (nat_of_ascii c) 69 then
                    let '(sg, r') :=
                      match r with
                      | s :: t =>
                          if Nat.eqb (nat_of_ascii s) 43 || Nat.eqb (nat_of_ascii s) 45
                          then ([s], t) else ([], r)
                      | [] => ([], [])
                      end in
                    let '(e, r'') := take_digits r' in
                    match e with [] => None | _ => Some (c :: sg ++ e, r'') end
                  else Some ([], r2)
              | [] => Some ([], [])
              end in
            match expo with
            | None => None
            | Some (e, r3) =>
                Some (string_of_list_ascii (sign ++ int ++ f ++ e), r3)
            end
        end
  end.

Fixpoint strip_prefix (p cs : list ascii) : option (list ascii) :=
  match p, cs with
  | [], _ => Some cs
  | a :: p', c :: r => if Ascii.eqb a c then strip_prefix p' r else None
  | _ :: _, [] => None
  end.

Fixpoint parse_value (fuel : nat) (cs : list ascii) {struct fuel}
  : option (json * list ascii) :=
  match fuel with
  | O => None
  | S f =>
      match skip_ws cs with
      | [] => None
      | c :: r =>
          let n := nat_of_ascii c in
          if Nat.eqb n 34 then
            match parse_chars r [] with
            | Some (s, r') => Some (JString s, r')
            | None => None
            end
          else if Nat.eqb n 91 then
            match skip_ws r with
            | c' :: r' =>
                if Nat.eqb (nat_of_ascii c') 93 then Some (JArray [], r')
                else parse_items f (c' :: r') []
            | [] => None
            end
          else if Nat.eqb n 123 then
            match skip_ws r with
            | c' :: r' =>
                if Nat.eqb (nat_of_ascii c') 125 then Some (JObject [], r')
                else parse_members f (c' :: r') []
            | [] => None
            end
          else if Nat.eqb n 116 then
            match strip_prefix (list_ascii_of_string "true") (c :: r) with
            | Some r' => Some (JBool true, r') | None => None end
          else if Nat.eqb n 102 then
            match strip_prefix (list_ascii_of_string "false") (c :: r) with
            | Some r' => Some (JBool false, r') | None => None end
          else if Nat.eqb n 110 then
            match strip_prefix (list_ascii_of_string "null") (c :: r) with
            | Some r' => Some (JNull, r') | None => None end
          else
            match parse_number (c :: r) with
            | Some (l, r') => Some (JNumber l, r')
            | None => None
            end
      end
  end
with parse_items (fuel : nat) (cs : list ascii) (acc : list json) {struct fuel}
  : option (json * list ascii) :=
  match fuel with
  | O => None
  | S f =>
      match parse_value f cs with
      | Some (v, r) =>
          match skip_ws r with
          | c :: r' =>
              if Nat.eqb (nat_of_ascii c) 44 then parse_items f r' (v :: acc)
              else if Nat.eqb (nat_of_ascii c) 93 then
                Some (JArray (rev (v :: acc)), r')
              else None
          | [] => None
          end
      | None => None
      end
  end
with parse_members (fuel : nat) (cs : list ascii) (acc : list (string * json))
  {struct fuel} : option (json * list ascii) :=
  match fuel with
  | O => None
  | S f =>
      match skip_ws cs with
      | q :: r =>
          if Nat.eqb (nat_of_ascii q) 34 then
            match parse_chars r [] with
            | Some (k, r1) =>
                match skip_ws r1 with
                | c :: r2 =>
                    if Nat.eqb (nat_of_ascii c) 58 then
                      match parse_value f r2 with
                      | Some (v, r3) =>
                          match skip_ws r3 with
                          | d :: r4 =>
                              if Nat.eqb (nat_of_ascii d) 44 then
                                parse_members f r4 ((k, v) :: acc)
                              else if Nat.eqb (nat_of_ascii d) 125 then
                                Some (JObject (rev ((k, v) :: acc)), r4)
                              else None
                          | [] => None
                          end
                      | None => None
                      end
                    else None
                | [] => None
                end
            | None => None
            end
          else None
      | [] => None
      end
  end.

(** [JSON.parse(text)]: [None] stands for the [SyntaxError] it throws. *)
Definition JSON_parse (text : string) : option json :=
  let cs := list_ascii_of_string text in
  match parse_value (2 * length cs + 2) cs with
  | Some (v, r) => match skip_ws r with [] => Some v | _ => None end
  | None => None
  end.

(** Property access [v.key] on a parsed value.  The outer [None] is the
    [TypeError] of reading a property of [null]; [Some None] is
    [undefined].  None of the keys read by the SDK ([type], [text],
    [status], [message]) exists on the prototypes of strings, numbers,
    booleans or arrays.  For a repeated key the last member wins. *)
Fixpoint lookup_member (key : string) (ms : list (string * json)) : option json :=
  match ms with
  | [] => None
  | (k, v) :: r =>
      match lookup_member key r with
      | Some w => Some w
      | None => if String.eqb k key then Some v else None
      end
  end.

Definition get_prop (v : json) (key : string) : option (option json) :=
  match v with
  | JNull => None
  | JObject ms => Some (lookup_member key ms)
  | _ => Some None
  end.

(** The digits of the mantissa (everything before an exponent mark). *)
Fixpoint mantissa_digits (cs : list ascii) : list ascii :=
  match cs with
  | [] => []
  | c :: r =>
      if Nat.eqb (nat_of_ascii c) 101 || Nat.eqb (nat_of_ascii c) 69 then []
      else if is_digit c then c :: mantissa_digits r
      else mantissa_digits r
  end.

Definition all_zero_digits (l : string) : bool :=
  forallb (fun c => Nat.eqb (nat_of_ascii c) 48)
    (mantissa_digits (list_ascii_of_string l)).

(** JavaScript truthiness of a value that may be [undefined].  A number is
    falsy when its mantissa is zero (underflow to zero is not modelled). *)
Definition truthy (o : option json) : bool :=
  match o with
  | None => false
  | Some JNull => false
  | Some (JBool b) => b
  | Some (JNumber l) => negb (all_zero_digits l)
  | Some (JString s) => negb (String.eqb s EmptyString)
  | Some (JArray _) => true
  | Some (JObject _) => true
  end.

(** [String(v)], as applied by the [Error] constructor to its argument;
    [None] is the [TypeError] of a value that has no primitive form.  An
    object is rendered by [Object.prototype.toString] unless it has a
    member named [toString] of its own: no member of a parsed object is
    callable, and [valueOf] does not yield a primitive, so the conversion
    then throws.  An array is rendered by [join], which converts its
    items.  A number is rendered by its lexeme. *)
Fixpoint to_string (v : json) : option string :=
  match v with
  | JNull => Some "null"
  | JBool true => Some "true"
  | JBool false => Some "false"
  | JNumber l => Some l
  | JString s => Some s
  | JArray items =>
      (fix join (l : list json) : option string :=
         match l with
         | [] => Some EmptyString
         | x :: r =>
             match (match x with JNull => Some EmptyString | _ => to_string x end),
                   join r with
             | Some a, Some b =>
                 Some (String.append a
                         (match r with [] => EmptyString | _ => String.append "," b end))
             | _, _ => None
             end
         end) items
  | JObject ms =>
      match lookup_member "toString" ms with
      | Some _ => None
      | None => Some "[object Object]"
      end
  end.

End JSON.

(** ** Thrown values and the error classes of [types.ts] *)

Module Err.

Inductive error_class : Type :=
| SoulCypherErrorClass
| AuthenticationErrorClass
| RateLimitErrorClass
| SessionErrorClass
| ConnectionErrorClass.

(** [class SoulCypherError extends Error]: [message], [code], [statusCode];
    [name] is fixed by the class. *)
Record SoulCypherError : Type := {
  class : error_class;
  message : string;
  code : option string;
  statusCode : option Z
}.

Definition name (e : SoulCypherError) : string :=
  match class e with
  | SoulCypherErrorClass => "SoulCypherError"
  | AuthenticationErrorClass => "AuthenticationError"
  | RateLimitErrorClass => "RateLimitError"
  | SessionErrorClass => "SessionError"
  | ConnectionErrorClass => "ConnectionError"
  end.

Definition new_SoulCypherError (msg : string) (c : option string)
  (sc : option Z) : SoulCypherError :=
  {| class := SoulCypherErrorClass; message := msg; code := c; statusCode := sc |}.

Definition new_AuthenticationError (msg : string) : SoulCypherError :=
  {| class := AuthenticationErrorClass; message := msg;
     code := Some "AUTHENTICATION_ERROR"; statusCode := Some 401%Z |}.

Definition new_RateLimitError (msg : string) : SoulCypherError :=
  {| class := RateLimitErrorClass; message := msg;
     code := Some "RATE_LIMIT_ERROR"; statusCode := Some 429%Z |}.

(** [super(message, code || 'SESSION_ERROR')] *)
Definition new_SessionError (msg : string) (c : option string) : SoulCypherError :=
  {| class := SessionErrorClass; message := msg;
     code := Some (match c with
                   | Some s => if String.eqb s EmptyString then "SESSION_ERROR" else s
                   | None => "SESSION_ERROR"
                   end);
     statusCode := None |}.

Definition new_ConnectionError (msg : string) : SoulCypherError :=
  {| class := ConnectionErrorClass; message := msg;
     code := Some "CONNECTION_ERROR"; statusCode := None |}.

(** Anything a [catch] clause may receive. *)
Inductive thrown : Type :=
| SDKError (e : SoulCypherError)
| JsError (errname : string) (msg : string)
| NonError.

(** [error instanceof Error ? error.message : fallback] *)
Definition message_or (fallback : string) (t : thrown) : string :=
  match t with
  | SDKError e => message e
  | JsError _ m => m
  | NonError => fallback
  end.

(** [error instanceof SoulCypherError] *)
Definition instanceof_SoulCypherError (t : thrown) : bool :=
  match t with SDKError _ => true | _ => false end.

End Err.

(** ** Mutable state, exceptions and the trace of outside calls *)

Module Eff.
Import Err.

Inductive outcome (A : Type) : Type :=
| Returned (a : A)
| Threw (t : thrown).
Arguments Returned {A} a.
Arguments Threw {A} t.

Section Monad.
Context {S E : Type}.

(** A computation over a mutable object of type [S], logging effects of
    type [E].  A mutation made before a [throw] stays made. *)
Definition M (A : Type) : Type := S -> outcome A * S * list E.

Definition ret {A} (a : A) : M A := fun s => (Returned a, s, []).

Definition throw {A} (t : thrown) : M A := fun s => (Threw t, s, []).

Definition bind {A B} (c : M A) (k : A -> M B) : M B :=
  fun s =>
    match c s with
    | (Returned a, s1, tr1) =>
        let '(r, s2, tr2) := k a s1 in (r, s2, tr1 ++ tr2)
    | (Threw t, s1, tr1) => (Threw t, s1, tr1)
    end.

(** [try { c } catch (t) { h t }] *)
Definition try_catch {A} (c : M A) (h : thrown -> M A) : M A :=
  fun s =>
    match c s with
    | (Returned a, s1, tr1) => (Returned a, s1, tr1)
    | (Threw t, s1, tr1) =>
        let '(r, s2, tr2) := h t s1 in (r, s2, tr1 ++ tr2)
    end.

Definition get : M S := fun s => (Returned s, s, []).
Definition put (s' : S) : M unit := fun _ => (Returned tt, s', []).
Definition log (e : E) : M unit := fun s => (Returned tt, s, [e]).

(** [xs.forEach(f)] *)
Fixpoint forEach {A} (xs : list A) (f : A -> M unit) : M unit :=
  match xs with
  | [] => ret tt
  | x :: r => bind (f x) (fun _ => forEach r f)
  end.
End Monad.

Arguments M : clear implicits.

Definition result {S E A} (r : outcome A * S * list E) : outcome A := r.1.1.
Definition final {S E A} (r : outcome A * S * list E) : S := r.1.2.
Definition trace {S E A} (r : outcome A * S * list E) : list E := r.2.

End Eff.

Declare Scope eff_scope.
Delimit Scope eff_scope with eff.
Notation "'let*' x ':=' c 'in' k" := (Eff.bind c (fun x => k))
  (at level 10, x name, c at level 100, k at level 200) : eff_scope.
Notation "c ';;' k" := (Eff.bind c (fun _ => k))
  (at level 100, k at level 200, right associativity) : eff_scope.

(** ** [session.ts]: class [AvatarSessionManager] *)

Module Session.
Import JSON Err Eff.
Local Open Scope eff_scope.

(** Modelled from the spec: [constants.ts] is not among the sources.  The
    event names are the emitted public event vocabulary, the message types
    are the [type] discriminators of the data-channel wire format. *)
Definition SESSION_EVENTS_STARTED : string := "session.started".
Definition SESSION_EVENTS_ENDED : string := "session.ended".
Definition AVATAR_EVENTS_VIDEO : string := "avatar.video".
Definition AVATAR_EVENTS_AUDIO : string := "avatar.audio".
Definition AVATAR_EVENTS_RESPONSE : string := "avatar.response".
Definition AVATAR_EVENTS_STATUS : string := "avatar.status".
Definition AVATAR_EVENTS_ERROR : string := "avatar.error".
Definition CONNECTION_EVENTS_QUALITY : string := "connection.quality".
Definition MESSAGE_TYPES_CHAT : string := "chat".
Definition MESSAGE_TYPES_STATUS : string := "status".
Definition MESSAGE_TYPES_RESPONSE : string := "response".
Definition MESSAGE_TYPES_ERROR : string := "error".

(** [interface AvatarSession].  The object comes unchecked from the
    gateway's JSON, so the two credentials may be missing. *)
Record AvatarSession : Type := {
  id : string;
  sessionId : string;
  provider : string;
  roomName : string;
  liveKitToken : option string;
  liveKitUrl : option string;
  avatar_id : string;
  avatar_name : string;
  expiresAt : string
}.

(** [!s] is false exactly for a present, non-empty string. *)
Definition present (s : option string) : bool :=
  match s with
  | Some v => negb (String.eqb v EmptyString)
  | None => false
  end.

Inductive track_class : Type := RemoteVideoTrack | RemoteAudioTrack | OtherTrack.

Record Track : Type := {
  kind : string;
  instance_of : track_class;
  track_sid : string
}.

(** The [data] member of an emitted event. *)
Inductive payload : Type :=
| DataSession (s : AvatarSession)
| DataTrack (track : Track) (participant : string)
| DataStatus (status text : option json) (participant : string)
| DataText (text : option json) (participant : string)
| DataQuality (quality participant : string).

(** [interface SessionEventData], without the wall-clock [timestamp]. *)
Record SessionEventData : Type := {
  type : string;
  ev_session : AvatarSession;
  data : payload
}.

(** A registered callback: [hid] is its identity as a function object (what
    [indexOf] compares), [run] tells how a call of it ends: it returns
    ([None]) or throws.  The operations of this module are those of a
    controller whose callbacks do not call it back while they run; Module
    [Reentrant] has the dispatch for callbacks that do. *)
Record Handler : Type := {
  hid : nat;
  run : SessionEventData -> option thrown
}.

(** The transport provider's room, as far as the controller sees it. *)
Inductive RoomEvent : Type :=
| TrackSubscribed
| TrackUnsubscribed
| DataReceived
| Disconnected
| ConnectionQualityChanged.

(** The closures that the controller hands to [room.on]. *)
Inductive Listener : Type :=
| EmitTrack
| EmitData
| EmitEnded
| EmitQuality
| AttachTrack (videoElement audioElement : option string)
| DetachTrack.

Record Room : Type := {
  state : string;
  listeners : list (RoomEvent * Listener)
}.

(** [new Room()]: not connected, no listener. *)
Definition new_Room : Room := {| state := "disconnected"; listeners := [] |}.

Record AvatarSessionManager : Type := {
  room : option Room;
  session : AvatarSession;
  eventHandlers : gmap string (list Handler)
}.

(** [new AvatarSessionManager(session)] *)
Definition new_AvatarSessionManager (s : AvatarSession) : AvatarSessionManager :=
  {| room := None; session := s; eventHandlers := ∅ |}.

Definition set_room (o : option Room) (m : AvatarSessionManager) : AvatarSessionManager :=
  {| room := o; session := session m; eventHandlers := eventHandlers m |}.

Definition set_eventHandlers (h : gmap string (list Handler))
  (m : AvatarSessionManager) : AvatarSessionManager :=
  {| room := room m; session := session m; eventHandlers := h |}.

(** What the controller does to the outside world. *)
Inductive effect : Type :=
| RoomConnect (url token : string)
| RoomDisconnect
| DroppedRejection (t : thrown)
| PublishData (message : json) (reliable : bool)
| Invoke (h : nat) (ev : SessionEventData)
| ConsoleError (t : thrown)
| ConsoleWarn (t : thrown)
| TrackAttach (t : Track) (element : string)
| TrackDetach (t : Track).

Abbreviation Ctl := (M AvatarSessionManager effect).

(** What the provider answers to [room.connect]: the promise fulfils
    ([None]) or rejects, and the state the room reports from then on. *)
Record connect_reply : Type := {
  rejects_with : option thrown;
  state_after : string
}.

(** *** Event dispatch *)

(** One iteration of [handlers.forEach]: the call sits in its own
    [try]/[catch]. *)
Definition call_handler (ev : SessionEventData) (h : Handler) : Ctl unit :=
  try_catch
    (log (Invoke (hid h) ev) ;;
     match run h ev with
     | Some t => throw t
     | None => ret tt
     end)
    (fun error => log (ConsoleError error)).

(** With callbacks that do not call the controller back, the array is the
    same from the first call of [forEach] to the last. *)
Definition emitEvent (ty : string) (d : payload) : Ctl unit :=
  let* this := get in
  match eventHandlers this !! ty with
  | Some handlers =>
      forEach handlers
        (call_handler {| type := ty; ev_session := session this; data := d |})
  | None => ret tt
  end.

(** *** [on] / [off] *)

Definition on (event : string) (handler : Handler) : Ctl unit :=
  let* this := get in
  let hs := match eventHandlers this !! event with Some l => l | None => [] end in
  put (set_eventHandlers (<[event := hs ++ [handler]]> (eventHandlers this)) this).

(** [handlers.indexOf(handler)]: first position holding that function. *)
Fixpoint indexOf (handler : Handler) (hs : list Handler) : option nat :=
  match hs with
  | [] => None
  | h :: r =>
      if Nat.eqb (hid h) (hid handler) then Some 0
      else match indexOf handler r with Some i => Some (S i) | None => None end
  end.

Definition off (event : string) (handler : Handler) : Ctl unit :=
  let* this := get in
  match eventHandlers this !! event with
  | Some handlers =>
      match indexOf handler handlers with
      | Some index =>
          put (set_eventHandlers
                 (<[event := delete index handlers]> (eventHandlers this)) this)
      | None => ret tt
      end
  | None => ret tt
  end.

(** *** Listeners put on the room *)

Definition room_on (ev : RoomEvent) (l : Listener) : Ctl unit :=
  let* this := get in
  match room this with
  | Some r =>
      put (set_room (Some {| state := state r;
                             listeners := listeners r ++ [(ev, l)] |}) this)
  | None => throw (JsError "TypeError" "Cannot read properties of null (reading 'on')")
  end.

Definition setupRoomEventHandlers : Ctl unit :=
  let* this := get in
  match room this with
  | None => ret tt
  | Some _ =>
      room_on TrackSubscribed EmitTrack ;;
      room_on DataReceived EmitData ;;
      room_on Disconnected EmitEnded ;;
      room_on ConnectionQualityChanged EmitQuality
  end.

Definition setupMediaElements (videoElement audioElement : option string) : Ctl unit :=
  let* this := get in
  match room this with
  | None => ret tt
  | Some _ =>
      room_on TrackSubscribed (AttachTrack videoElement audioElement) ;;
      room_on TrackUnsubscribed DetachTrack
  end.

(** *** [new TextDecoder().decode(payload)]

    The default decoder is UTF-8, not fatal, and does not keep the byte
    order mark: it never throws, it puts the replacement character U+FFFD
    in the place of every ill-formed sequence, and it drops a leading byte
    order mark.  A text is kept as its UTF-8 bytes, so a well-formed
    sequence is copied. *)

(** A sequence that has begun: the bytes seen, the number of bytes still
    needed, and the bounds of the next byte. *)
Record pending : Type := {
  seen : list ascii;
  needed : nat;
  lower : nat;
  upper : nat
}.

(** U+FFFD *)
Definition replacement : list ascii :=
  [ascii_of_nat 239; ascii_of_nat 191; ascii_of_nat 189].

(** A byte that arrives when no sequence has begun. *)
Definition lead (b : ascii) : list ascii * option pending :=
  let n := nat_of_ascii b in
  if Nat.ltb n 128 then ([b], None)
  else if Nat.leb 194 n && Nat.leb n 223 then
    ([], Some {| seen := [b]; needed := 1; lower := 128; upper := 191 |})
  else if Nat.leb 224 n && Nat.leb n 239 then
    ([], Some {| seen := [b]; needed := 2;
                 lower := if Nat.eqb n 224 then 160 else 128;
                 upper := if Nat.eqb n 237 then 159 else 191 |})
  else if Nat.leb 240 n && Nat.leb n 244 then
    ([], Some {| seen := [b]; needed := 3;
                 lower := if Nat.eqb n 240 then 144 else 128;
                 upper := if Nat.eqb n 244 then 143 else 191 |})
  else (replacement, None).

(** The decoder's loop.  A byte that cannot continue the sequence ends it
    with the replacement character and is then read again as a first
    byte; so is the end of the input inside a sequence. *)
Fixpoint utf8_decode (bs : list ascii) (p : option pending) : list ascii :=
  match bs with
  | [] => match p with Some _ => replacement | None => [] end
  | b :: r =>
      match p with
      | None => let '(out, p') := lead b in out ++ utf8_decode r p'
      | Some q =>
          if Nat.leb (lower q) (nat_of_ascii b) && Nat.leb (nat_of_ascii b) (upper q)
          then
            match needed q with
            | 0 | 1 => (seen q ++ [b]) ++ utf8_decode r None
            | S n =>
                utf8_decode r
                  (Some {| seen := seen q ++ [b]; needed := n;
                           lower := 128; upper := 191 |})
            end
          else
            replacement ++ (let '(out, p') := lead b in out ++ utf8_decode r p')
      end
  end.

(** A leading byte order mark is dropped, once. *)
Definition strip_bom (bs : list ascii) : list ascii :=
  match bs with
  | b1 :: b2 :: b3 :: r =>
      if Nat.eqb (nat_of_ascii b1) 239 && Nat.eqb (nat_of_ascii b2) 187
         && Nat.eqb (nat_of_ascii b3) 191
      then r else bs
  | _ => bs
  end.

Definition TextDecoder_decode (payload : string) : string :=
  string_of_list_ascii (utf8_decode (strip_bom (list_ascii_of_string payload)) None).

(** A text that the decoder leaves as it is: well-formed UTF-8. *)
Definition well_formed (text : string) : Prop :=
  utf8_decode (list_ascii_of_string text) None = list_ascii_of_string text.

Definition parse (text : string) : Ctl json :=
  match JSON_parse text with
  | Some v => ret v
  | None => throw (JsError "SyntaxError" "Unexpected token in JSON")
  end.

(** First read of a member of [data]: throws on [null]. *)
Definition read (v : json) (key : string) : Ctl (option json) :=
  match get_prop v key with
  | Some o => ret o
  | None => throw (JsError "TypeError" "Cannot read properties of null")
  end.

(** A later read of the same object, which is then known not to be [null]. *)
Definition member (v : json) (key : string) : option json :=
  match get_prop v key with Some o => o | None => None end.

(** [x === s] for a string constant [s]. *)
Definition strict_eq (x : option json) (s : string) : bool :=
  match x with
  | Some (JString t) => String.eqb t s
  | _ => false
  end.

(** The [RoomEvent.DataReceived] listener. *)
Definition on_data_received (payload participant : string) : Ctl unit :=
  try_catch
    (let* d := parse (TextDecoder_decode payload) in
     let* ty := read d "type" in
     if strict_eq ty MESSAGE_TYPES_STATUS then
       emitEvent AVATAR_EVENTS_STATUS
         (DataStatus (member d "status") (member d "text") participant)
     else if strict_eq ty MESSAGE_TYPES_RESPONSE then
       emitEvent AVATAR_EVENTS_RESPONSE (DataText (member d "text") participant)
     else if strict_eq ty MESSAGE_TYPES_ERROR then
       emitEvent AVATAR_EVENTS_ERROR (DataText (member d "text") participant)
     else ret tt)
    (fun error => log (ConsoleWarn error)).

(** The first [RoomEvent.TrackSubscribed] listener. *)
Definition on_track_subscribed (track : Track) (participant : string) : Ctl unit :=
  if String.eqb (kind track) "video" then
    emitEvent AVATAR_EVENTS_VIDEO (DataTrack track participant)
  else if String.eqb (kind track) "audio" then
    emitEvent AVATAR_EVENTS_AUDIO (DataTrack track participant)
  else ret tt.

(** The [RoomEvent.Disconnected] listener. *)
Definition on_disconnected : Ctl unit :=
  let* this := get in
  emitEvent SESSION_EVENTS_ENDED (DataSession (session this)).

(** The [RoomEvent.ConnectionQualityChanged] listener. *)
Definition on_quality_changed (quality participant : string) : Ctl unit :=
  emitEvent CONNECTION_EVENTS_QUALITY (DataQuality quality participant).

(** The listeners of [setupMediaElements]. *)
Definition on_track_attach (videoElement audioElement : option string)
  (track : Track) : Ctl unit :=
  match instance_of track, videoElement, audioElement with
  | RemoteVideoTrack, Some v, _ => log (TrackAttach track v)
  | RemoteVideoTrack, None, _ => ret tt
  | RemoteAudioTrack, _, Some a => log (TrackAttach track a)
  | _, _, _ => ret tt
  end.

(** A notification of the provider, delivered to the listeners of a room. *)
Inductive notification : Type :=
| NTrackSubscribed (track : Track) (participant : string)
| NTrackUnsubscribed (track : Track)
| NDataReceived (payload participant : string)
| NDisconnected
| NConnectionQualityChanged (quality participant : string).

Definition run_listener (n : notification) (l : RoomEvent * Listener) : Ctl unit :=
  match n, l with
  | NTrackSubscribed t p, (TrackSubscribed, EmitTrack) => on_track_subscribed t p
  | NTrackSubscribed t _, (TrackSubscribed, AttachTrack v a) => on_track_attach v a t
  | NTrackUnsubscribed t, (TrackUnsubscribed, DetachTrack) => log (TrackDetach t)
  | NDataReceived b p, (DataReceived, EmitData) => on_data_received b p
  | NDisconnected, (Disconnected, EmitEnded) => on_disconnected
  | NConnectionQualityChanged q p, (ConnectionQualityChanged, EmitQuality) =>
      on_quality_changed q p
  | _, _ => ret tt
  end.

(** The room [r] fires [n]: its listeners run in the order of their
    registration.  The listeners close over the controller, not over the
    room, so [r] need not be the controller's current room. *)
Definition notify (r : Room) (n : notification) : Ctl unit :=
  forEach (listeners r) (run_listener n).

(** *** The public operations *)

(** Truthiness of an optional media element. *)
Definition given (element : option string) : bool :=
  match element with Some _ => true | None => false end.

(** [await this.room.connect(url, token)].  The provider moves the room to
    the state it reports afterwards, then its promise settles. *)
Definition room_connect (url token : string) (reply : connect_reply) : Ctl unit :=
  let* this := get in
  match room this with
  | Some r =>
      log (RoomConnect url token) ;;
      put (set_room (Some {| state := state_after reply;
                             listeners := listeners r |}) this) ;;
      match rejects_with reply with
      | Some t => throw t
      | None => ret tt
      end
  | None => throw (JsError "TypeError" "Cannot read properties of null (reading 'connect')")
  end.

Definition connect (videoElement audioElement : option string)
  (reply : connect_reply) : Ctl unit :=
  let* this := get in
  if negb (present (liveKitToken (session this)))
     || negb (present (liveKitUrl (session this)))
  then throw (SDKError (new_ConnectionError "LiveKit connection details not available"))
  else
    try_catch
      (put (set_room (Some new_Room) this) ;;
       setupRoomEventHandlers ;;
       room_connect (default EmptyString (liveKitUrl (session this)))
                    (default EmptyString (liveKitToken (session this))) reply ;;
       (if given videoElement || given audioElement
        then setupMediaElements videoElement audioElement
        else ret tt) ;;
       emitEvent SESSION_EVENTS_STARTED (DataSession (session this)))
      (fun error =>
         throw (SDKError (new_ConnectionError
           (String.append "Failed to connect to LiveKit: "
              (message_or "Unknown error" error))))).

(** [this.room.disconnect()] returns a promise ([Room.disconnect] is an
    asynchronous method of the provider) and the controller does not await
    it: whether that promise fulfils ([None]) or rejects, the statement
    completes.  A rejection is dropped. *)
Definition room_disconnect (reply : option thrown) : Ctl unit :=
  log RoomDisconnect ;;
  match reply with
  | Some t => log (DroppedRejection t)
  | None => ret tt
  end.

Definition disconnect (reply : option thrown) : Ctl unit :=
  let* this := get in
  (match room this with
   | Some _ => room_disconnect reply ;; put (set_room None this)
   | None => ret tt
   end) ;;
  emitEvent SESSION_EVENTS_ENDED (DataSession (session this)).

(** The chat envelope handed to [JSON.stringify]. *)
Definition chat_envelope (message : string) : json :=
  JObject [("type", JString MESSAGE_TYPES_CHAT); ("text", JString message)].

(** [reply] is what the provider answers to [publishData]: [None] when the
    send succeeds, the thrown value otherwise. *)
Definition sendMessage (message : string) (reply : option thrown) : Ctl unit :=
  let* this := get in
  match room this with
  | None => throw (SDKError (new_SessionError "Not connected to session" None))
  | Some _ =>
      try_catch
        (log (PublishData (chat_envelope message) true) ;;
         match reply with
         | Some t => throw t
         | None => ret tt
         end)
        (fun error =>
           throw (SDKError (new_SessionError
             (String.append "Failed to send message: "
                (message_or "Unknown error" error)) None)))
  end.

Inductive status : Type := connected | connecting | disconnected | error.

Definition getStatus (this : AvatarSessionManager) : status :=
  match room this with
  | None => disconnected
  | Some r =>
      if String.eqb (state r) "connected" then connected
      else if String.eqb (state r) "connecting" then connecting
      else if String.eqb (state r) "disconnected" then disconnected
      else error
  end.

(** *** Vocabulary a trace *)

(** The events delivered to handlers, in order. *)
Fixpoint deliveries (tr : list effect) : list (nat * SessionEventData) :=
  match tr with
  | [] => []
  | Invoke h ev :: r => (h, ev) :: deliveries r
  | _ :: r => deliveries r
  end.

(** The calls into the transport provider. *)
Definition is_transport_call (e : effect) : bool :=
  match e with
  | RoomConnect _ _ | RoomDisconnect | PublishData _ _ => true
  | _ => false
  end.

Definition transport_calls (tr : list effect) : list effect :=
  List.filter is_transport_call tr.

(** The handlers registered for an event type. *)
Definition handlers_of (this : AvatarSessionManager) (ty : string) : list Handler :=
  match eventHandlers this !! ty with Some l => l | None => [] end.

(** The event object built by [emitEvent]. *)
Definition event (this : AvatarSessionManager) (ty : string) (d : payload)
  : SessionEventData :=
  {| type := ty; ev_session := session this; data := d |}.

Definition ended_event (this : AvatarSessionManager) : SessionEventData :=
  event this SESSION_EVENTS_ENDED (DataSession (session this)).

End Session.

(** ** [api-client.ts]: class [APIClient] *)

Module Api.
Import JSON Err Eff.
Local Open Scope eff_scope.

Record SDKConfig : Type := {
  cfg_apiKey : string;
  cfg_baseUrl : option string
}.

Record APIClient : Type := {
  baseUrl : string;
  apiKey : string
}.

(** The constructor: [config.baseUrl || 'https://api.soulcypher.ai'], and
    an empty key is refused. *)
Definition new_APIClient (config : SDKConfig) : outcome APIClient :=
  if String.eqb (cfg_apiKey config) EmptyString then
    Threw (SDKError (new_AuthenticationError "API key is required"))
  else
    Returned
      {| apiKey := cfg_apiKey config;
         baseUrl := match cfg_baseUrl config with
                    | Some u => if String.eqb u EmptyString
                                then "https://api.soulcypher.ai" else u
                    | None => "https://api.soulcypher.ai"
                    end |}.

(** Vocabulary the body of a response may itself fail. *)
Inductive body_read : Type :=
| Text (text : string)
| Unreadable (t : thrown).

Record Response : Type := {
  status : Z;
  body : body_read
}.

(** [response.ok] *)
Definition ok (response : Response) : bool :=
  (200 <=? status response)%Z && (status response <=? 299)%Z.

(** What [fetch] answers: no response at all, or a response. *)
Inductive fetch_reply : Type :=
| NoResponse (t : thrown)
| Responds (response : Response).

Inductive effect : Type :=
| Fetch (url method : string) (key : option string).

Abbreviation Client := (M APIClient effect).

(** [super(message)] in the error classes: the [Error] constructor turns
    its argument into a string, which may throw ([None]); [undefined]
    gives the empty message. *)
Definition super_message (message : option json) : option string :=
  match message with
  | Some v => to_string v
  | None => Some EmptyString
  end.

(** What [handleErrorResponse] throws (it never returns). *)
Definition handleErrorResponse (response : Response) : thrown :=
  match body response with
  | Unreadable t => t
  | Text text =>
      let errorData :=
        match JSON_parse text with
        | Some v => v
        | None => JObject [("message", JString text)]
        end in
      match get_prop errorData "message" with
      | None => JsError "TypeError" "Cannot read properties of null (reading 'message')"
      | Some m =>
          let message :=
            if truthy m then m
            else Some (JString (String.append "Request failed with status "
                                  (pretty (status response)))) in
          match super_message message with
          | None => JsError "TypeError" "Cannot convert object to primitive value"
          | Some message =>
              SDKError
                (if (status response =? 401)%Z then new_AuthenticationError message
                 else if (status response =? 429)%Z then new_RateLimitError message
                 else if (status response =? 400)%Z then
                   new_SoulCypherError message (Some "VALIDATION_ERROR") (Some 400%Z)
                 else if (status response =? 404)%Z then
                   new_SoulCypherError message (Some "NOT_FOUND") (Some 404%Z)
                 else if (status response =? 500)%Z then
                   new_SoulCypherError message (Some "INTERNAL_ERROR") (Some 500%Z)
                 else new_SoulCypherError message (Some "API_ERROR")
                        (Some (status response)))
          end
      end
  end.

(** [response.json()] *)
Definition response_json (response : Response) : Client json :=
  match body response with
  | Unreadable t => throw t
  | Text text =>
      match JSON_parse text with
      | Some v => ret v
      | None => throw (JsError "SyntaxError" "Unexpected token in JSON")
      end
  end.

(** [request]: the promise of [response.json()] is returned, not awaited,
    so its rejection does not pass through the [catch] clause. *)
Definition request (endpoint method : string) (reply : fetch_reply) : Client json :=
  let* this := get in
  let* response :=
    try_catch
      (log (Fetch (String.append (baseUrl this) (String.append "/v1" endpoint))
              method (Some (apiKey this))) ;;
       match reply with
       | NoResponse t => throw t
       | Responds response =>
           (if negb (ok response) then throw (handleErrorResponse response)
            else ret tt) ;;
           ret response
       end)
      (fun error =>
         if instanceof_SoulCypherError error then throw error
         else throw (SDKError (new_SoulCypherError
                (String.append "Request failed: " (message_or "Unknown error" error))
                (Some "NETWORK_ERROR") None))) in
  response_json response.

Definition getAvatars := request "/avatars" "GET".
Definition getAvatar (avatarId : string) := request (String.append "/avatars/" avatarId) "GET".
Definition createAvatar := request "/avatars" "POST".
Definition createSession := request "/sessions/create" "POST".
Definition getSession (sessionId : string) :=
  request (String.append "/sessions/" sessionId) "GET".
Definition getSessionStatus (sessionId : string) :=
  request (String.append "/sessions/" (String.append sessionId "/status")) "GET".
Definition endSession (sessionId : string) (reply : fetch_reply) : Client unit :=
  request (String.append "/sessions/" (String.append sessionId "/end")) "POST" reply ;;
  ret tt.

(** The health probe: mounted at the root, no key, its own error kind. *)
Definition ping (reply : fetch_reply) : Client json :=
  let* this := get in
  let* response :=
    try_catch
      (log (Fetch (String.append (baseUrl this) "/health") "GET" None) ;;
       match reply with
       | NoResponse t => throw t
       | Responds response =>
           (if negb (ok response) then
              throw (SDKError (new_SoulCypherError
                (String.append "Health check failed: " (pretty (status response)))
                (Some "HEALTH_CHECK_ERROR") (Some (status response))))
            else ret tt) ;;
           ret response
       end)
      (fun error =>
         if instanceof_SoulCypherError error then throw error
         else throw (SDKError (new_SoulCypherError
                (String.append "Health check failed: " (message_or "Unknown error" error))
                (Some "NETWORK_ERROR") None))) in
  response_json response.

(** The operations of the client: all but the health probe go through
    [request]. *)
Inductive operation : Type :=
| OpGetAvatars
| OpGetAvatar (avatarId : string)
| OpCreateAvatar
| OpCreateSession
| OpGetSession (sessionId : string)
| OpGetSessionStatus (sessionId : string)
| OpEndSession (sessionId : string)
| OpPing.

Definition through_request (op : operation) : bool :=
  match op with
  | OpPing => false
  | _ => true
  end.

(** What a gateway call throws, if it throws. *)
Definition failure_of {A} (r : outcome A * APIClient * list effect) : option thrown :=
  match result r with
  | Threw t => Some t
  | Returned _ => None
  end.

Definition call_failure (op : operation) (reply : fetch_reply) (c : APIClient)
  : option thrown :=
  match op with
  | OpGetAvatars => failure_of (getAvatars reply c)
  | OpGetAvatar a => failure_of (getAvatar a reply c)
  | OpCreateAvatar => failure_of (createAvatar reply c)
  | OpCreateSession => failure_of (createSession reply c)
  | OpGetSession s => failure_of (getSession s reply c)
  | OpGetSessionStatus s => failure_of (getSessionStatus s reply c)
  | OpEndSession s => failure_of (endSession s reply c)
  | OpPing => failure_of (ping reply c)
  end.

End Api.

(** ** [sdk.ts]: class [SoulCypherSDK] *)

Module SDK.
Import Err Eff.
Import Session.
Local Open Scope eff_scope.

(** The SDK object: its gateway client and its registry.  A controller is
    an object shared by the registry and by the callers that were handed
    it, so the registry holds references into [objects], the store of the
    controllers created so far.  A JavaScript [Map] keeps its keys in
    insertion order.  What the gateway answers is an argument of the
    operation that calls it. *)
Record SoulCypherSDK : Type := {
  apiClient : Api.APIClient;
  sessions : list (string * nat);
  objects : list AvatarSessionManager
}.

Inductive gateway_call : Type :=
| CreateSession
| GetSession (sessionId : string)
| EndSession (sessionId : string).

Inductive effect : Type :=
| OfController (ref : nat) (e : Session.effect)
| Gateway (call : gateway_call).

Abbreviation Sdk := (M SoulCypherSDK effect).

(** [Map.prototype.get] *)
Fixpoint Map_get (k : string) (m : list (string * nat)) : option nat :=
  match m with
  | [] => None
  | (k', v) :: r => if String.eqb k' k then Some v else Map_get k r
  end.

(** [Map.prototype.set]: an existing key keeps its place. *)
Fixpoint Map_set (k : string) (v : nat) (m : list (string * nat)) : list (string * nat) :=
  match m with
  | [] => [(k, v)]
  | (k', v') :: r =>
      if String.eqb k' k then (k', v) :: r else (k', v') :: Map_set k v r
  end.

(** [Map.prototype.delete] *)
Fixpoint Map_delete (k : string) (m : list (string * nat)) : list (string * nat) :=
  match m with
  | [] => []
  | (k', v) :: r =>
      if String.eqb k' k then Map_delete k r else (k', v) :: Map_delete k r
  end.

(** [Array.from(map.values())] *)
Definition Map_values (m : list (string * nat)) : list nat := List.map snd m.

Definition set_sessions (m : list (string * nat)) (this : SoulCypherSDK) : SoulCypherSDK :=
  {| apiClient := apiClient this; sessions := m; objects := objects this |}.

Definition set_objects (o : list AvatarSessionManager) (this : SoulCypherSDK)
  : SoulCypherSDK :=
  {| apiClient := apiClient this; sessions := sessions this; objects := o |}.

(** [new AvatarSessionManager(session)]: a fresh object. *)
Definition new_manager (s : AvatarSession) : Sdk nat :=
  let* this := get in
  put (set_objects (objects this ++ [new_AvatarSessionManager s]) this) ;;
  ret (length (objects this)).

(** A method call on the controller behind a reference.  A reference that
    [new_manager] returned always has its object. *)
Definition on_object {A} (ref : nat) (c : Ctl A) : Sdk A :=
  fun this =>
    match objects this !! ref with
    | Some m =>
        let '(r, m', tr) := c m in
        (r, set_objects (<[ref := m']> (objects this)) this,
         List.map (OfController ref) tr)
    | None => (Threw (JsError "ReferenceError" "no such object"), this, [])
    end.

(** [await p] for a promise that has settled. *)
Definition await {A} (p : outcome A) : Sdk A :=
  match p with
  | Returned a => ret a
  | Threw t => throw t
  end.

(** Calling an asynchronous method without awaiting it: its body runs up
    to its first [await] (here: to its end) and the call yields a
    promise. *)
Definition promise_of {A} (c : Sdk A) : Sdk (outcome A) :=
  fun this => let '(r, this', tr) := c this in (Returned r, this', tr).

(** [xs.map(f)] for such calls. *)
Fixpoint map_promises {A} (xs : list nat) (f : nat -> Sdk A) : Sdk (list (outcome A)) :=
  match xs with
  | [] => ret []
  | x :: r =>
      let* p := promise_of (f x) in
      let* ps := map_promises r f in
      ret (p :: ps)
  end.

(** [Promise.all] over settled promises: the first rejection wins. *)
Fixpoint Promise_all {A} (ps : list (outcome A)) : outcome (list A) :=
  match ps with
  | [] => Returned []
  | Returned a :: r =>
      match Promise_all r with
      | Returned l => Returned (a :: l)
      | Threw t => Threw t
      end
  | Threw t :: _ => Threw t
  end.

Definition createSession (reply : outcome AvatarSession) : Sdk nat :=
  log (Gateway CreateSession) ;;
  let* session := await reply in
  let* sessionManager := new_manager session in
  let* this := get in
  put (set_sessions (Map_set (id session) sessionManager (sessions this)) this) ;;
  ret sessionManager.

(** [reply] is what [apiClient.getSession] settles to, if it is called. *)
Definition getSession (sessionId : string) (reply : outcome AvatarSession)
  : Sdk (option nat) :=
  let* this := get in
  match Map_get sessionId (sessions this) with
  | Some existingSession => ret (Some existingSession)
  | None =>
      try_catch
        (log (Gateway (GetSession sessionId)) ;;
         let* session := await reply in
         let* sessionManager := new_manager session in
         let* this1 := get in
         put (set_sessions (Map_set (id session) sessionManager (sessions this1)) this1) ;;
         ret (Some sessionManager))
        (fun _ => ret None)
  end.

(** The part of [endSession] that runs before the gateway is called. *)
Definition endSession_local (sessionId : string) (transport : option thrown) : Sdk unit :=
  let* this := get in
  match Map_get sessionId (sessions this) with
  | Some sessionManager =>
      on_object sessionManager (disconnect transport) ;;
      let* this1 := get in
      put (set_sessions (Map_delete sessionId (sessions this1)) this1)
  | None => ret tt
  end.

(** [transport] answers the controller's [room.disconnect()], [reply] is
    what [apiClient.endSession] settles to. *)
Definition endSession (sessionId : string) (transport : option thrown)
  (reply : outcome unit) : Sdk unit :=
  endSession_local sessionId transport ;;
  log (Gateway (EndSession sessionId)) ;;
  await reply.

Definition getActiveSessions (this : SoulCypherSDK) : list nat :=
  Map_values (sessions this).

(** [transport ref] answers the [room.disconnect()] of the controller
    behind [ref]. *)
Definition cleanup (transport : nat -> option thrown) : Sdk unit :=
  let* this := get in
  let* disconnectPromises :=
    map_promises (Map_values (sessions this))
      (fun session => on_object session (disconnect (transport session))) in
  await (Promise_all disconnectPromises) ;;
  let* this1 := get in
  put (set_sessions [] this1).

(** The registry only holds references to existing controllers, and no
    controller sits under two keys: every entry is made with a controller
    that was just created. *)
Definition registry_ok (this : SoulCypherSDK) : Prop :=
  Forall (fun ref => ref < length (objects this)) (Map_values (sessions this))
  /\ NoDup (Map_values (sessions this)).

(** [new SoulCypherSDK(config)]: the key is required; the registry starts
    empty. *)
Definition new_SoulCypherSDK (config : Api.SDKConfig) : outcome SoulCypherSDK :=
  if String.eqb (Api.cfg_apiKey config) EmptyString then
    Threw (SDKError (new_AuthenticationError "API key is required"))
  else
    match Api.new_APIClient config with
    | Returned c => Returned {| apiClient := c; sessions := []; objects := [] |}
    | Threw t => Threw t
    end.

(** The states that an SDK object goes through: it is constructed, then
    its operations are called, and callers call methods of the controllers
    they were handed. *)
Inductive step : SoulCypherSDK -> SoulCypherSDK -> Prop :=
| step_createSession reply this :
    step this (final (createSession reply this))
| step_getSession sessionId reply this :
    step this (final (getSession sessionId reply this))
| step_endSession sessionId transport reply this :
    step this (final (endSession sessionId transport reply this))
| step_cleanup transport this :
    step this (final (cleanup transport this))
| step_method (A : Type) ref (c : Ctl A) this :
    step this (final (on_object ref c this)).

Inductive reachable : SoulCypherSDK -> Prop :=
| reachable_new config this :
    new_SoulCypherSDK config = Returned this -> reachable this
| reachable_step this this' :
    reachable this -> step this this' -> reachable this'.

(** The transport effects of one controller inside an SDK trace. *)
Fixpoint of_controller (ref : nat) (tr : list effect) : list Session.effect :=
  match tr with
  | [] => []
  | OfController r e :: rest =>
      if Nat.eqb r ref then e :: of_controller ref rest else of_controller ref rest
  | Gateway _ :: rest => of_controller ref rest
  end.

Definition gateway_calls (tr : list effect) : list gateway_call :=
  omap (fun e => match e with Gateway c => Some c | _ => None end) tr.

End SDK.

(** ** Vocabulary of the statements *)

Module Vocabulary.
Import JSON Err Eff Session.

(** What one handler call leaves in the trace. *)
Definition handler_trace (ev : SessionEventData) (h : Handler) : list Session.effect :=
  Invoke (hid h) ev ::
  match run h ev with
  | Some t => [ConsoleError t]
  | None => []
  end.

(** What dispatching [ev] to the handlers [hs] leaves in the trace. *)
Definition dispatch_trace (ev : SessionEventData) (hs : list Handler)
  : list Session.effect :=
  flat_map (handler_trace ev) hs.

(** Each handler of [hs] is handed [ev], once, in the order of [hs]. *)
Definition delivered_to (hs : list Handler) (ev : SessionEventData)
  : list (nat * SessionEventData) :=
  List.map (fun h => (hid h, ev)) hs.

(** The discriminators that the data-channel listener dispatches on. *)
Definition known_discriminator (d : json) : bool :=
  match get_prop d "type" with
  | Some ty =>
      strict_eq ty MESSAGE_TYPES_STATUS || strict_eq ty MESSAGE_TYPES_RESPONSE
      || strict_eq ty MESSAGE_TYPES_ERROR
  | None => false
  end.

(** The two errors of [sendMessage]. *)
Definition not_connected_error : thrown :=
  SDKError (new_SessionError "Not connected to session" None).

Definition messaging_error (cause : thrown) : thrown :=
  SDKError (new_SessionError
    (String.append "Failed to send message: " (message_or "Unknown error" cause)) None).

(** The two errors of [connect]. *)
Definition connection_setup_error : thrown :=
  SDKError (new_ConnectionError "LiveKit connection details not available").

Definition connection_error (cause : thrown) : thrown :=
  SDKError (new_ConnectionError
    (String.append "Failed to connect to LiveKit: " (message_or "Unknown error" cause))).

(** A payload that does not decode, or decodes to a value without one of
    the three discriminators. *)
Definition malformed_or_unknown (payload : string) : bool :=
  match JSON_parse (TextDecoder_decode payload) with
  | None => true
  | Some d => negb (known_discriminator d)
  end.

(** The listeners that [setupRoomEventHandlers] registers. *)
Definition translation_hooks : list (RoomEvent * Listener) :=
  [(TrackSubscribed, EmitTrack); (DataReceived, EmitData);
   (Disconnected, EmitEnded); (ConnectionQualityChanged, EmitQuality)].

(** The listeners that [setupMediaElements] registers. *)
Definition media_hooks (videoElement audioElement : option string)
  : list (RoomEvent * Listener) :=
  [(TrackSubscribed, AttachTrack videoElement audioElement);
   (TrackUnsubscribed, DetachTrack)].

(** Both credentials are there. *)
Definition credentials_ok (s : AvatarSession) : bool :=
  present (liveKitToken s) && present (liveKitUrl s).

(** The room that the controller holds once the provider has answered. *)
Definition attempted_room (reply : connect_reply) (extra : list (RoomEvent * Listener))
  : Room :=
  {| state := state_after reply; listeners := translation_hooks ++ extra |}.

(** Sample data. *)
Definition sample_session : AvatarSession :=
  {| id := "s1"; sessionId := "s1"; provider := "hedra"; roomName := "room-1";
     liveKitToken := Some "tok"; liveKitUrl := Some "wss://x";
     avatar_id := "a1"; avatar_name := "Ava";
     expiresAt := "2030-01-01T00:00:00Z" |}.

Definition session_named (name : string) : AvatarSession :=
  {| id := name; sessionId := name; provider := "hedra"; roomName := name;
     liveKitToken := Some "tok"; liveKitUrl := Some "wss://x";
     avatar_id := "a1"; avatar_name := "Ava";
     expiresAt := "2030-01-01T00:00:00Z" |}.

Definition session_without_token : AvatarSession :=
  {| id := "s1"; sessionId := "s1"; provider := "hedra"; roomName := "room-1";
     liveKitToken := None; liveKitUrl := Some "wss://x";
     avatar_id := "a1"; avatar_name := "Ava";
     expiresAt := "2030-01-01T00:00:00Z" |}.

Definition quiet (n : nat) : Handler := {| hid := n; run := fun _ => None |}.

Definition faulty (n : nat) : Handler :=
  {| hid := n; run := fun _ => Some (JsError "Error" "boom") |}.

Definition transport_down : thrown := JsError "ConnectionError" "could not reach the server".

(** A controller that has connected: it holds a connected room carrying
    the translation hooks. *)
Definition connected_manager (s : AvatarSession) (h : gmap string (list Handler))
  : AvatarSessionManager :=
  {| room := Some {| state := "connected"; listeners := translation_hooks |};
     session := s; eventHandlers := h |}.

Definition sample_client : Api.APIClient :=
  {| Api.baseUrl := "https://api.soulcypher.ai"; Api.apiKey := "key" |}.

(** Three registered controllers; the second one's transport rejects its
    disconnect. *)
Definition ended_listeners : gmap string (list Handler) :=
  <[SESSION_EVENTS_ENDED := [quiet 1]]> ∅.

Definition three_sessions : SDK.SoulCypherSDK :=
  {| SDK.apiClient := sample_client;
     SDK.sessions := [("s1", 0); ("s2", 1); ("s3", 2)];
     SDK.objects :=
       [connected_manager (session_named "s1") ended_listeners;
        connected_manager (session_named "s2") ended_listeners;
        connected_manager (session_named "s3") ended_listeners] |}.

Definition second_rejects (ref : nat) : option thrown :=
  if Nat.eqb ref 1 then Some transport_down else None.

(** A controller with a handler on each of the three avatar events that
    the data channel can produce. *)
Definition listening_manager : AvatarSessionManager :=
  connected_manager sample_session
    (<[AVATAR_EVENTS_STATUS := [quiet 1]]>
       (<[AVATAR_EVENTS_RESPONSE := [quiet 2]]>
          (<[AVATAR_EVENTS_ERROR := [quiet 3]]> ∅))).

(** [s] between double quotes. *)
Definition quoted (s : string) : string :=
  String dquote (String.append s (String dquote EmptyString)).

(** The text of the object with one string member. *)
Definition object_text (key value : string) : string :=
  String.append "{" (String.append (quoted key)
    (String.append ":" (String.append (quoted value) "}"))).

(** A provider whose connect fails, leaving its room disconnected. *)
Definition connect_fails : connect_reply :=
  {| rejects_with := Some transport_down; state_after := "disconnected" |}.

(** C2 in the spec's words, for a controller that holds no room when
    [connect()] is called: whenever the call fails, the controller reports
    [disconnected], nothing of the attempt is retained, and a fresh
    [connect()] that the transport accepts goes through. *)
Definition connect_failure_as_stated : Prop :=
  forall (m : AvatarSessionManager) (v a : option string)
         (reply : connect_reply) (e : thrown),
    room m = None ->
    result (connect v a reply m) = Threw e ->
    getStatus (final (connect v a reply m)) = disconnected
    /\ final (connect v a reply m) = m
    /\ (forall retry : connect_reply,
          credentials_ok (session m) = true ->
          rejects_with retry = None ->
          result (connect v a retry (final (connect v a reply m))) = Returned tt).

(** The controller after a [connect()] that the transport refused. *)
Definition after_failed_connect : AvatarSessionManager :=
  final (connect None None connect_fails (new_AvatarSessionManager sample_session)).

(** C3 in the spec's words, an active connection being what [getStatus]
    reports as [connected]: without one, [sendMessage] fails with the
    not-connected error and makes no transport call. *)
Definition send_requires_connection_as_stated : Prop :=
  forall (m : AvatarSessionManager) (text : string) (reply : option thrown),
    getStatus m <> connected ->
    result (sendMessage text reply m) = Threw not_connected_error
    /\ transport_calls (trace (sendMessage text reply m)) = [].

(** A payload behind a byte order mark. *)
Definition with_bom (text : string) : string :=
  String (ascii_of_nat 239) (String (ascii_of_nat 187) (String (ascii_of_nat 191) text)).

(** *** The gateway *)

(** The message used when the error payload offers none. *)
Definition default_message (status : Z) : string :=
  String.append "Request failed with status " (pretty status).

(** The [switch] of [handleErrorResponse]. *)
Definition error_for (status : Z) (message : string) : SoulCypherError :=
  if (status =? 401)%Z then new_AuthenticationError message
  else if (status =? 429)%Z then new_RateLimitError message
  else if (status =? 400)%Z then
    new_SoulCypherError message (Some "VALIDATION_ERROR") (Some 400%Z)
  else if (status =? 404)%Z then
    new_SoulCypherError message (Some "NOT_FOUND") (Some 404%Z)
  else if (status =? 500)%Z then
    new_SoulCypherError message (Some "INTERNAL_ERROR") (Some 500%Z)
  else new_SoulCypherError message (Some "API_ERROR") (Some status).

(** The message that [handleErrorResponse] picks, given what the body
    decodes to ([None]: it does not decode). *)
Definition picked_message (text : string) (decoded : option json)
  : option json :=
  match decoded with
  | Some v => match get_prop v "message" with Some m => m | None => None end
  | None => Some (JString text)
  end.

(** What [handleErrorResponse] hands to the error class as its message. *)
Definition chosen_message (status : Z) (text : string) : option json :=
  let m := picked_message text (JSON_parse text) in
  if truthy m then m else Some (JString (default_message status)).

(** The message that the body offers can be turned into a string: it is
    not an object with a member named [toString], nor an array that holds
    one. *)
Definition message_converts (text : string) : bool :=
  match Api.super_message (picked_message text (JSON_parse text)) with
  | Some _ => true
  | None => false
  end.

(** What the [catch] clause of [request] makes of a thrown value. *)
Definition surfaced (t : thrown) : thrown :=
  if instanceof_SoulCypherError t then t
  else SDKError (new_SoulCypherError
         (String.append "Request failed: " (message_or "Unknown error" t))
         (Some "NETWORK_ERROR") None).

(** C9 in the spec's words: every gateway call that receives a non-2xx
    response surfaces 429 as a rate-limit error and 401 as an
    authentication error, both with the server-provided message text, and
    when the body cannot be parsed the raw body text is the message. *)
Definition gateway_errors_as_stated : Prop :=
  forall (op : Api.operation) (c : Api.APIClient) (response : Api.Response)
         (text : string),
    Api.ok response = false ->
    Api.body response = Api.Text text ->
    exists e : SoulCypherError,
      Api.call_failure op (Api.Responds response) c = Some (SDKError e)
      /\ (Api.status response = 429%Z -> class e = RateLimitErrorClass)
      /\ (Api.status response = 401%Z -> class e = AuthenticationErrorClass)
      /\ (forall ms msg,
            JSON_parse text = Some (JObject ms) ->
            lookup_member "message" ms = Some (JString msg) ->
            message e = msg)
      /\ (JSON_parse text = None -> message e = text).

End Vocabulary.

(** ** The rest of the three classes *)

Module Extended.
Import JSON Err Eff Session Vocabulary.

(** *** What [sendMessage] puts on the wire *)

Definition hex_char (n : nat) : ascii :=
  if Nat.ltb n 10 then ascii_of_nat (48 + n) else ascii_of_nat (87 + n).

(** One character of a string inside [JSON.stringify]: the quote, the
    backslash and the control characters are escaped. *)
Definition escape_char (c : ascii) : list ascii :=
  let n := nat_of_ascii c in
  if Nat.eqb n 34 then [backslash; dquote]
  else if Nat.eqb n 92 then [backslash; backslash]
  else if Nat.eqb n 8 then [backslash; ascii_of_nat 98]
  else if Nat.eqb n 12 then [backslash; ascii_of_nat 102]
  else if Nat.eqb n 10 then [backslash; ascii_of_nat 110]
  else if Nat.eqb n 13 then [backslash; ascii_of_nat 114]
  else if Nat.eqb n 9 then [backslash; ascii_of_nat 116]
  else if Nat.ltb n 32 then
    [backslash; ascii_of_nat 117; ascii_of_nat 48; ascii_of_nat 48;
     hex_char (n / 16); hex_char (n mod 16)]
  else [c].

Definition escape (cs : list ascii) : list ascii := flat_map escape_char cs.

(** [JSON.stringify({ type: MESSAGE_TYPES.CHAT, text: message })]: the
    members in the order they are written, no white space. *)
Definition stringify_chat (message : string) : list ascii :=
  list_ascii_of_string "{"
  ++ dquote :: list_ascii_of_string "type" ++ dquote :: list_ascii_of_string ":"
  ++ dquote :: escape (list_ascii_of_string MESSAGE_TYPES_CHAT) ++ dquote
  :: list_ascii_of_string ","
  ++ dquote :: list_ascii_of_string "text" ++ dquote :: list_ascii_of_string ":"
  ++ dquote :: escape (list_ascii_of_string message) ++ dquote
  :: list_ascii_of_string "}".

(** A message with a quote, a line feed and a letter outside ASCII. *)
Definition sample_message : string :=
  String (ascii_of_nat 97) (String dquote (String (ascii_of_nat 10)
    (String (ascii_of_nat 195) (String (ascii_of_nat 169) EmptyString)))).

(** What [stringify_chat] writes in front of the message text. *)
Definition wire_prefix : list ascii :=
  list_ascii_of_string "{"
  ++ dquote :: list_ascii_of_string "type" ++ dquote :: list_ascii_of_string ":"
  ++ dquote :: list_ascii_of_string "chat" ++ dquote :: list_ascii_of_string ","
  ++ dquote :: list_ascii_of_string "text" ++ dquote :: list_ascii_of_string ":"
  ++ [dquote].

(** [new TextEncoder().encode(...)]: the bytes that [publishData] is
    handed, a text being kept as its UTF-8 bytes. *)
Definition wire_payload (message : string) : string :=
  string_of_list_ascii (stringify_chat message).

(** A byte outside ASCII. *)
Definition high (c : ascii) : bool := Nat.leb 128 (nat_of_ascii c).

(** The states that the decoder goes through: the next byte of a sequence
    is never an ASCII byte, and neither are the bytes seen. *)
Definition pending_ok (p : option pending) : Prop :=
  match p with
  | Some q => 128 <= lower q /\ Forall (fun c => high c = true) (seen q)
  | None => True
  end.

(** What the decoder emits when the input ends. *)
Definition flush (p : option pending) : list ascii :=
  match p with Some _ => replacement | None => [] end.

(** Decides the character tests of the parser on a known character. *)
Ltac decide_char :=
  repeat match goal with
  | |- context [Nat.eqb (nat_of_ascii ?c) ?n] =>
      let b := eval vm_compute in (Nat.eqb (nat_of_ascii c) n) in
      change (Nat.eqb (nat_of_ascii c) n) with b
  end; cbv beta iota zeta.

(** *** Media effects in a trace *)

Definition is_media_effect (e : Session.effect) : bool :=
  match e with
  | TrackAttach _ _ | TrackDetach _ => true
  | _ => false
  end.

Definition media_effects (tr : list Session.effect) : list Session.effect :=
  List.filter is_media_effect tr.

(** The room that a successful [connect(videoElement, audioElement)]
    leaves in the controller. *)
Definition connected_room (videoElement audioElement : option string)
  (reply : connect_reply) : Room :=
  attempted_room reply
    (if given videoElement || given audioElement
     then media_hooks videoElement audioElement else []).

(** *** The gateway seen from the SDK object *)

(** A call of the SDK object on its gateway client. *)
Definition with_client {A} (c : Api.Client A) (this : SDK.SoulCypherSDK)
  : outcome A * list Api.effect :=
  let '(r, _, tr) := c (SDK.apiClient this) in (r, tr).

(** [SoulCypherSDK.ping]: any failure of the probe becomes [false]. *)
Definition SDK_ping (reply : Api.fetch_reply) (this : SDK.SoulCypherSDK)
  : bool * list Api.effect :=
  match with_client (Api.ping reply) this with
  | (Returned _, tr) => (true, tr)
  | (Threw _, tr) => (false, tr)
  end.

(** [SoulCypherSDK.endSession] with the gateway client in the loop:
    [reply] is what [fetch] answers to the end-session request. *)
Definition SDK_endSession (sessionId : string) (transport : option thrown)
  (reply : Api.fetch_reply) : SDK.Sdk unit :=
  fun this =>
    SDK.endSession sessionId transport
      (result (Api.endSession sessionId reply (SDK.apiClient this))) this.

(** What the health probe must see to report health: a 2xx response whose
    body can be read and decodes. *)
Definition healthy (reply : Api.fetch_reply) : bool :=
  match reply with
  | Api.NoResponse _ => false
  | Api.Responds response =>
      Api.ok response
      && match Api.body response with
         | Api.Text text =>
             match JSON_parse text with Some _ => true | None => false end
         | Api.Unreadable _ => false
         end
  end.

(** The error code that [handleErrorResponse] gives a status. *)
Definition code_of_status (status : Z) : string :=
  if (status =? 401)%Z then "AUTHENTICATION_ERROR"
  else if (status =? 429)%Z then "RATE_LIMIT_ERROR"
  else if (status =? 400)%Z then "VALIDATION_ERROR"
  else if (status =? 404)%Z then "NOT_FOUND"
  else if (status =? 500)%Z then "INTERNAL_ERROR"
  else "API_ERROR".

(** The error that [request] and [ping] make of a failed [fetch]. *)
Definition network_error (op : Api.operation) (cause : thrown) : thrown :=
  if instanceof_SoulCypherError cause then cause
  else SDKError (new_SoulCypherError
         (String.append
            (if Api.through_request op then "Request failed: "
             else "Health check failed: ")
            (message_or "Unknown error" cause))
         (Some "NETWORK_ERROR") None).

(** The HTTP requests that a gateway operation makes. *)
Definition call_trace (op : Api.operation) (reply : Api.fetch_reply)
  (c : Api.APIClient) : list Api.effect :=
  match op with
  | Api.OpGetAvatars => trace (Api.getAvatars reply c)
  | Api.OpGetAvatar a => trace (Api.getAvatar a reply c)
  | Api.OpCreateAvatar => trace (Api.createAvatar reply c)
  | Api.OpCreateSession => trace (Api.createSession reply c)
  | Api.OpGetSession s => trace (Api.getSession s reply c)
  | Api.OpGetSessionStatus s => trace (Api.getSessionStatus s reply c)
  | Api.OpEndSession s => trace (Api.endSession s reply c)
  | Api.OpPing => trace (Api.ping reply c)
  end.

(** The path of an operation, below the root of its mount point. *)
Definition endpoint (op : Api.operation) : string :=
  match op with
  | Api.OpGetAvatars => "/avatars"
  | Api.OpGetAvatar a => String.append "/avatars/" a
  | Api.OpCreateAvatar => "/avatars"
  | Api.OpCreateSession => "/sessions/create"
  | Api.OpGetSession s => String.append "/sessions/" s
  | Api.OpGetSessionStatus s =>
      String.append "/sessions/" (String.append s "/status")
  | Api.OpEndSession s => String.append "/sessions/" (String.append s "/end")
  | Api.OpPing => "/health"
  end.

Definition http_method (op : Api.operation) : string :=
  match op with
  | Api.OpCreateAvatar | Api.OpCreateSession | Api.OpEndSession _ => "POST"
  | _ => "GET"
  end.

(** What a gateway operation settles to. *)
Definition call_result (op : Api.operation) (reply : Api.fetch_reply)
  (c : Api.APIClient) : outcome (option json) :=
  let strip (r : outcome json) : outcome (option json) :=
    match r with Returned v => Returned (Some v) | Threw t => Threw t end in
  match op with
  | Api.OpGetAvatars => strip (result (Api.getAvatars reply c))
  | Api.OpGetAvatar a => strip (result (Api.getAvatar a reply c))
  | Api.OpCreateAvatar => strip (result (Api.createAvatar reply c))
  | Api.OpCreateSession => strip (result (Api.createSession reply c))
  | Api.OpGetSession s => strip (result (Api.getSession s reply c))
  | Api.OpGetSessionStatus s => strip (result (Api.getSessionStatus s reply c))
  | Api.OpEndSession s =>
      match result (Api.endSession s reply c) with
      | Returned _ => Returned None
      | Threw t => Threw t
      end
  | Api.OpPing => strip (result (Api.ping reply c))
  end.

(** What of a decoded body an operation hands back: [endSession] awaits
    the request and returns nothing. *)
Definition handed_back (op : Api.operation) (v : json) : option json :=
  match op with
  | Api.OpEndSession _ => None
  | _ => Some v
  end.

(** The call did not get a 2xx response. *)
Definition failed (reply : Api.fetch_reply) : bool :=
  match reply with
  | Api.NoResponse _ => true
  | Api.Responds response => negb (Api.ok response)
  end.

(** The one HTTP request of an operation. *)
Definition fetch_of (op : Api.operation) (c : Api.APIClient) : Api.effect :=
  Api.Fetch
    (String.append (Api.baseUrl c)
       (if Api.through_request op then String.append "/v1" (endpoint op)
        else endpoint op))
    (http_method op)
    (if Api.through_request op then Some (Api.apiKey c) else None).

(** Unfolds a gateway operation down to [request]. *)
Ltac to_request :=
  unfold call_result, Api.call_failure, call_trace, Api.failure_of, Api.getAvatars,
    Api.getAvatar, Api.createAvatar, Api.createSession, Api.getSession,
    Api.getSessionStatus, Api.endSession, bind.

(** The base URL that a configuration selects. *)
Definition base_url_of (config : Api.SDKConfig) : string :=
  match Api.cfg_baseUrl config with
  | Some u => if String.eqb u EmptyString then "https://api.soulcypher.ai" else u
  | None => "https://api.soulcypher.ai"
  end.

(** An SDK object that was just constructed with a key, on the default
    gateway. *)
Definition fresh_sdk : SDK.SoulCypherSDK :=
  {| SDK.apiClient := sample_client; SDK.sessions := []; SDK.objects := [] |}.

(** The avatar event that a subscribed track is announced with, by its
    [kind]. *)
Definition track_event_type (t : Track) : option string :=
  if String.eqb (kind t) "video" then Some AVATAR_EVENTS_VIDEO
  else if String.eqb (kind t) "audio" then Some AVATAR_EVENTS_AUDIO
  else None.

(** The element that a subscribed track is attached to, by its class. *)
Definition attachment (videoElement audioElement : option string) (t : Track)
  : option string :=
  match instance_of t with
  | RemoteVideoTrack => videoElement
  | RemoteAudioTrack => audioElement
  | OtherTrack => None
  end.

(** The avatar event that a decoded data message is announced with. *)
Definition data_event (d : json) (participant : string)
  : option (string * payload) :=
  if strict_eq (member d "type") MESSAGE_TYPES_STATUS then
    Some (AVATAR_EVENTS_STATUS,
          DataStatus (member d "status") (member d "text") participant)
  else if strict_eq (member d "type") MESSAGE_TYPES_RESPONSE then
    Some (AVATAR_EVENTS_RESPONSE, DataText (member d "text") participant)
  else if strict_eq (member d "type") MESSAGE_TYPES_ERROR then
    Some (AVATAR_EVENTS_ERROR, DataText (member d "text") participant)
  else None.

(** A remote video track. *)
Definition video_track : Track :=
  {| kind := "video"; instance_of := RemoteVideoTrack; track_sid := "TR_v" |}.

End Extended.

(** ** Callbacks that call the controller back *)

Module Reentrant.
Import JSON Err Eff Session Vocabulary.
Local Open Scope eff_scope.

(** A callback is handed its event in the middle of [emitEvent], and the
    controller it is registered on is within its reach.  The calls that
    bear on the dispatch under way are the registration calls. *)
Inductive call : Type :=
| CallOn (event : string) (handler : Handler)
| CallOff (event : string) (handler : Handler).











End Reentrant.

(** ** The event dispatcher and the controller *)

Module SessionFacts.
Import JSON Err Eff Session Vocabulary.

Lemma deliveries_app tr1 tr2 :
  deliveries (tr1 ++ tr2) = deliveries tr1 ++ deliveries tr2.
Proof.
  induction tr1 as [|e tr1 IH]; [reflexivity|].
  destruct e; simpl; rewrite ?IH; reflexivity.
Qed.

Lemma deliveries_dispatch ev hs :
  deliveries (dispatch_trace ev hs) = delivered_to hs ev.
Proof.
  induction hs as [|h hs IH]; [reflexivity|].
  unfold dispatch_trace in *; simpl. rewrite deliveries_app, IH.
  unfold handler_trace; simpl. destruct (run h ev); reflexivity.
Qed.

Lemma transport_calls_dispatch ev hs :
  transport_calls (dispatch_trace ev hs) = [].
Proof.
  induction hs as [|h hs IH]; [reflexivity|].
  unfold dispatch_trace, transport_calls in *; simpl.
  rewrite List.filter_app, IH. unfold handler_trace.
  destruct (run h ev); reflexivity.
Qed.

(** A handler call never throws: it returns, whatever the handler does. *)
Lemma call_handler_run ev h m :
  call_handler ev h m = (Returned tt, m, handler_trace ev h).
Proof.
  unfold call_handler, handler_trace, try_catch, bind, log, throw, ret.
  destruct (run h ev); reflexivity.
Qed.

Lemma forEach_call_handler ev hs m :
  forEach hs (call_handler ev) m = (Returned tt, m, dispatch_trace ev hs).
Proof.
  induction hs as [|h hs IH]; [reflexivity|].
  simpl. unfold bind. rewrite call_handler_run, IH. reflexivity.
Qed.

Lemma emitEvent_run ty d m :
  emitEvent ty d m = (Returned tt, m, dispatch_trace (event m ty d) (handlers_of m ty)).
Proof.
  unfold emitEvent, handlers_of, bind, get, event.
  destruct (eventHandlers m !! ty) as [hs|].
  - rewrite forEach_call_handler. reflexivity.
  - reflexivity.
Qed.

End SessionFacts.

Module ControllerFacts.
Import JSON Err Eff Session Vocabulary SessionFacts.

Lemma set_room_keep m : room m = None -> set_room None m = m.
Proof. destruct m as [r s h]; simpl; intros ->; reflexivity. Qed.

Lemma disconnect_run reply m :
  disconnect reply m =
    (Returned tt, set_room None m,
     match room m with
     | Some _ =>
         RoomDisconnect ::
         match reply with Some t => [DroppedRejection t] | None => [] end
     | None => []
     end ++ dispatch_trace (ended_event m) (handlers_of m SESSION_EVENTS_ENDED)).
Proof.
  unfold disconnect, bind, get.
  destruct (room m) as [r|] eqn:Hr.
  - unfold room_disconnect, bind, log, put.
    destruct reply as [t|]; unfold log, ret; simpl; rewrite emitEvent_run; reflexivity.
  - unfold ret. rewrite emitEvent_run.
    rewrite (set_room_keep m Hr). reflexivity.
Qed.

(** C4.  [disconnect()] returns normally from every state of the
    controller, whatever the transport answers: it calls the transport's
    disconnect exactly when a room is held and leaves the controller
    without a room, and it hands exactly one [session.ended] event to each
    handler registered for that type.  A repeated call finds no room, does
    not touch the transport, returns normally and emits one more
    [session.ended]. *)
Theorem disconnect_total_one_ended (m : AvatarSessionManager)
  (reply again : option thrown) :
  let r := disconnect reply m in
  let r2 := disconnect again (final r) in
  result r = Returned tt
  /\ final r = set_room None m
  /\ transport_calls (trace r)
     = match room m with Some _ => [RoomDisconnect] | None => [] end
  /\ deliveries (trace r)
     = delivered_to (handlers_of m SESSION_EVENTS_ENDED) (ended_event m)
  /\ result r2 = Returned tt
  /\ final r2 = final r
  /\ transport_calls (trace r2) = []
  /\ deliveries (trace r2)
     = delivered_to (handlers_of m SESSION_EVENTS_ENDED) (ended_event m).
Proof.
  cbv zeta. rewrite disconnect_run. unfold result, final, trace; simpl.
  rewrite disconnect_run; simpl.
  repeat split.
  - destruct (room m), reply; unfold transport_calls; simpl;
      fold (transport_calls (dispatch_trace (ended_event m)
              (handlers_of m SESSION_EVENTS_ENDED)));
      rewrite transport_calls_dispatch; reflexivity.
  - rewrite deliveries_app, deliveries_dispatch.
    destruct (room m), reply; reflexivity.
  - apply transport_calls_dispatch.
  - apply deliveries_dispatch.
Qed.

Lemma sendMessage_run text reply m :
  sendMessage text reply m =
    (match room m with
     | None => Threw not_connected_error
     | Some _ =>
         match reply with
         | Some t => Threw (messaging_error t)
         | None => Returned tt
         end
     end, m,
     match room m with
     | None => []
     | Some _ => [PublishData (chat_envelope text) true]
     end).
Proof.
  unfold sendMessage, bind, get.
  destruct (room m); [|reflexivity].
  unfold try_catch, bind, log, throw, ret.
  destruct reply; reflexivity.
Qed.

(** C3, as the code has it.  What [sendMessage(text)] requires is a
    transport room, connected or not.  On a controller that holds no room
    it fails with the not-connected error and performs no transport call.
    On a controller that holds a room it publishes the chat envelope on
    the reliable channel, and a failure of that send is wrapped into the
    messaging error.  In every case the controller, and with it its
    connection, is left as it was. *)
Theorem sendMessage_requires_connection (m : AvatarSessionManager)
  (text : string) (reply : option thrown) :
  let r := sendMessage text reply m in
  final r = m
  /\ getStatus (final r) = getStatus m
  /\ result r
     = match room m with
       | None => Threw not_connected_error
       | Some _ =>
           match reply with
           | Some cause => Threw (messaging_error cause)
           | None => Returned tt
           end
       end
  /\ transport_calls (trace r)
     = match room m with
       | None => []
       | Some _ => [PublishData (chat_envelope text) true]
       end.
Proof.
  cbv zeta. rewrite sendMessage_run. unfold result, final, trace; simpl.
  repeat split. destruct (room m); reflexivity.
Qed.

(** C3 as stated fails.  After a [connect()] that the transport refused
    the controller reports [disconnected], yet it holds the room of the
    attempt: [sendMessage] publishes on it and gives no not-connected
    error. *)
Theorem sendMessage_on_unconnected_room :
  getStatus after_failed_connect = disconnected
  /\ room after_failed_connect
     = Some {| state := "disconnected"; listeners := translation_hooks |}
  /\ sendMessage "hi" None after_failed_connect
     = (Returned tt, after_failed_connect, [PublishData (chat_envelope "hi") true])
  /\ ~ send_requires_connection_as_stated.
Proof.
  assert (Hroom : room after_failed_connect
     = Some {| state := "disconnected"; listeners := translation_hooks |})
    by reflexivity.
  assert (Hsend : sendMessage "hi" None after_failed_connect
     = (Returned tt, after_failed_connect, [PublishData (chat_envelope "hi") true])).
  { rewrite sendMessage_run, Hroom. reflexivity. }
  split; [reflexivity|]. split; [exact Hroom|]. split; [exact Hsend|].
  intros Hsaid.
  destruct (Hsaid after_failed_connect "hi" None) as [Hres _]; [discriminate|].
  rewrite Hsend in Hres. discriminate Hres.
Qed.

(** The scenario of C3: before any [connect()]. *)
Lemma sendMessage_before_connect (s : AvatarSession) (reply : option thrown) :
  sendMessage "hi" reply (new_AvatarSessionManager s)
  = (Threw not_connected_error, new_AvatarSessionManager s, []).
Proof. rewrite sendMessage_run. reflexivity. Qed.

End ControllerFacts.

Module NormalizerFacts.
Import JSON Err Eff Session Vocabulary SessionFacts.

(** The data-channel listener always returns; an event is dispatched only
    under one of the three discriminators. *)
Lemma on_data_received_run payload participant m :
  exists tr,
    on_data_received payload participant m = (Returned tt, m, tr)
    /\ transport_calls tr = []
    /\ (malformed_or_unknown payload = true -> deliveries tr = []).
Proof.
  unfold on_data_received, malformed_or_unknown, known_discriminator,
    parse, read, try_catch, bind.
  destruct (JSON_parse (TextDecoder_decode payload)) as [d|]; simpl.
  2:{ eexists; repeat split; reflexivity. }
  destruct (get_prop d "type") as [ty|]; simpl.
  2:{ eexists; repeat split; reflexivity. }
  destruct (strict_eq ty MESSAGE_TYPES_STATUS) eqn:E1.
  { rewrite emitEvent_run. eexists; split; [reflexivity|]. simpl.
    split; [apply transport_calls_dispatch|discriminate]. }
  destruct (strict_eq ty MESSAGE_TYPES_RESPONSE) eqn:E2.
  { rewrite emitEvent_run. eexists; split; [reflexivity|]. simpl.
    split; [apply transport_calls_dispatch|discriminate]. }
  destruct (strict_eq ty MESSAGE_TYPES_ERROR) eqn:E3.
  { rewrite emitEvent_run. eexists; split; [reflexivity|]. simpl.
    split; [apply transport_calls_dispatch|discriminate]. }
  eexists; repeat split; reflexivity.
Qed.

(** C5.  A data-channel payload that fails to JSON-decode, or whose [type]
    discriminator is none of [status], [response], [error], is dropped by
    the listener: the listener returns normally, no handler is handed any
    event, the controller is unchanged, and nothing reaches the
    transport. *)
Theorem malformed_payload_dropped (m : AvatarSessionManager)
  (payload participant : string) :
  malformed_or_unknown payload = true ->
  let r := on_data_received payload participant m in
  result r = Returned tt
  /\ deliveries (trace r) = []
  /\ final r = m
  /\ transport_calls (trace r) = [].
Proof.
  intros H. cbv zeta.
  destruct (on_data_received_run payload participant m) as (tr & -> & Ht & Hd).
  unfold result, final, trace; simpl. auto.
Qed.

(** The same through the room: the provider fires [DataReceived] on a room
    that carries the translation hooks. *)
Lemma notify_data_dropped m st payload participant :
  malformed_or_unknown payload = true ->
  let r := notify {| state := st; listeners := translation_hooks |}
             (NDataReceived payload participant) m in
  result r = Returned tt /\ deliveries (trace r) = [] /\ final r = m.
Proof.
  intros H. cbv zeta. unfold notify, translation_hooks. simpl.
  unfold bind, ret.
  destruct (on_data_received_run payload participant m) as (tr & -> & _ & Hd).
  unfold result, final, trace; simpl. rewrite app_nil_r. auto.
Qed.

Lemma malformed_payload_dropped_witness :
  malformed_or_unknown "not json" = true
  /\ malformed_or_unknown (object_text "type" "chat") = true
  /\ on_data_received "not json" "agent" listening_manager
     = (Returned tt, listening_manager,
        [ConsoleWarn (JsError "SyntaxError" "Unexpected token in JSON")])
  /\ deliveries (trace (on_data_received (object_text "type" "chat") "agent"
                         listening_manager)) = [].
Proof.
  split; [reflexivity|]. split; [reflexivity|]. split; [reflexivity|].
  destruct (malformed_payload_dropped listening_manager
              (object_text "type" "chat") "agent" eq_refl) as (_ & Hd & _).
  exact Hd.
Defined.

(** The decoder drops a byte order mark: a message behind one is decoded
    and delivered like any other. *)
Lemma bom_prefixed_payload_delivered :
  malformed_or_unknown (with_bom (object_text "type" "response")) = false
  /\ List.map fst
       (deliveries (trace (on_data_received
          (with_bom (object_text "type" "response")) "agent" listening_manager)))
     = [2].
Proof. split; vm_compute; reflexivity. Qed.

(** The decoder puts U+FFFD where the bytes are no UTF-8: a byte that
    cannot begin a sequence, a sequence that the input cuts short. *)
Lemma ill_formed_bytes_replaced :
  utf8_decode [ascii_of_nat 255; ascii_of_nat 65] None
  = replacement ++ [ascii_of_nat 65]
  /\ utf8_decode [ascii_of_nat 65; ascii_of_nat 226; ascii_of_nat 130] None
     = ascii_of_nat 65 :: replacement
  /\ utf8_decode [ascii_of_nat 226; ascii_of_nat 130; ascii_of_nat 172] None
     = [ascii_of_nat 226; ascii_of_nat 130; ascii_of_nat 172].
Proof. repeat split; vm_compute; reflexivity. Qed.

(** Two escapes that write a surrogate pair are one code point, as if the
    character had been written itself. *)
Lemma escaped_pair_is_one_code_point :
  JSON_parse (quoted (String.append (String backslash "uD83D")
                        (String backslash "uDE00")))
  = Some (JString (string_of_list_ascii
            [ascii_of_nat 240; ascii_of_nat 159; ascii_of_nat 152; ascii_of_nat 128]))
  /\ JSON_parse (quoted (string_of_list_ascii
            [ascii_of_nat 240; ascii_of_nat 159; ascii_of_nat 152; ascii_of_nat 128]))
     = JSON_parse (quoted (String.append (String backslash "uD83D")
                             (String backslash "uDE00"))).
Proof. split; vm_compute; reflexivity. Qed.

(** A payload with a known discriminator does reach the handlers. *)
Lemma response_payload_delivered :
  List.map fst
    (deliveries (trace (on_data_received (object_text "type" "response") "agent"
                          listening_manager))) = [2].
Proof. reflexivity. Qed.

End NormalizerFacts.

Module HandlerFacts.
Import JSON Err Eff Session Vocabulary Reentrant SessionFacts.

Lemma on_run ty h m :
  on ty h m
  = (Returned tt,
     set_eventHandlers (<[ty := handlers_of m ty ++ [h]]> (eventHandlers m)) m, []).
Proof. reflexivity. Qed.

Lemma handlers_of_on ty h m :
  handlers_of (final (on ty h m)) ty = handlers_of m ty ++ [h].
Proof.
  rewrite on_run. unfold final, handlers_of at 1; simpl.
  rewrite lookup_insert_eq. reflexivity.
Qed.

Lemma handlers_of_on_other ty ty' h m :
  ty <> ty' -> handlers_of (final (on ty h m)) ty' = handlers_of m ty'.
Proof.
  intros Hne. rewrite on_run. unfold final, handlers_of; simpl.
  rewrite lookup_insert_ne by exact Hne. reflexivity.
Qed.


Lemma off_registered ty h m i :
  indexOf h (handlers_of m ty) = Some i ->
  handlers_of (final (off ty h m)) ty = delete i (handlers_of m ty).
Proof.
  unfold off, handlers_of, bind, get.
  destruct (eventHandlers m !! ty) as [hs|]; [|discriminate].
  intros ->. unfold put, final; simpl. rewrite lookup_insert_eq. reflexivity.
Qed.

(** *** Dispatch to callbacks that call the controller back *)














(** A throwing handler in front does not keep the next one from being
    called: the exception ends in the console. *)
Lemma faulty_handler_does_not_block s d :
  let m := final (on "avatar.response" (quiet 2)
             (final (on "avatar.response" (faulty 1) (new_AvatarSessionManager s)))) in
  emitEvent "avatar.response" d m
  = (Returned tt, m,
     [Invoke 1 (event m "avatar.response" d);
      ConsoleError (JsError "Error" "boom");
      Invoke 2 (event m "avatar.response" d)]).
Proof.
  cbv zeta. rewrite emitEvent_run, handlers_of_on, handlers_of_on.
  reflexivity.
Qed.

End HandlerFacts.

Module ConnectFacts.
Import JSON Err Eff Session Vocabulary SessionFacts ControllerFacts.

Lemma credentials_cases s :
  credentials_ok s = false ->
  negb (present (liveKitToken s)) || negb (present (liveKitUrl s)) = true.
Proof.
  unfold credentials_ok.
  destruct (present (liveKitToken s)), (present (liveKitUrl s)); simpl; congruence.
Qed.

(** Missing credentials: the connection-setup error, and nothing else
    happens. *)
Lemma connect_without_credentials v a reply m :
  credentials_ok (session m) = false ->
  connect v a reply m = (Threw connection_setup_error, m, []).
Proof.
  intros H. unfold connect, bind, get. rewrite (credentials_cases _ H).
  reflexivity.
Qed.

Lemma connect_with_credentials_guard s :
  credentials_ok s = true ->
  negb (present (liveKitToken s)) || negb (present (liveKitUrl s)) = false.
Proof.
  unfold credentials_ok.
  destruct (present (liveKitToken s)), (present (liveKitUrl s)); simpl; congruence.
Qed.

(** The transport's connect rejects: the connection error, and the room
    made for the attempt stays in the controller. *)
Lemma connect_rejected v a reply cause m :
  credentials_ok (session m) = true ->
  rejects_with reply = Some cause ->
  connect v a reply m
  = (Threw (connection_error cause),
     set_room (Some (attempted_room reply [])) m,
     [RoomConnect (default EmptyString (liveKitUrl (session m)))
                  (default EmptyString (liveKitToken (session m)))]).
Proof.
  intros H Hr. unfold connect, bind, get.
  rewrite (connect_with_credentials_guard _ H).
  unfold try_catch, bind, put, setupRoomEventHandlers, room_on, bind, get, put,
    room_connect, bind, get, log, put; simpl.
  rewrite Hr. reflexivity.
Qed.

(** The transport's connect fulfils. *)
Lemma connect_fulfilled v a reply m :
  credentials_ok (session m) = true ->
  rejects_with reply = None ->
  connect v a reply m
  = (Returned tt,
     set_room (Some (attempted_room reply
                 (if given v || given a then media_hooks v a else []))) m,
     RoomConnect (default EmptyString (liveKitUrl (session m)))
                 (default EmptyString (liveKitToken (session m)))
     :: dispatch_trace
          (event m SESSION_EVENTS_STARTED (DataSession (session m)))
          (handlers_of m SESSION_EVENTS_STARTED)).
Proof.
  intros H Hr. unfold connect, bind, get.
  rewrite (connect_with_credentials_guard _ H).
  unfold try_catch, bind, put, setupRoomEventHandlers, room_on, bind, get, put,
    room_connect, bind, get, log, put; simpl.
  rewrite Hr. unfold ret; simpl.
  destruct (given v || given a).
  - unfold setupMediaElements, room_on, bind, get, put; simpl.
    rewrite emitEvent_run. reflexivity.
  - unfold ret. rewrite emitEvent_run. simpl.
    unfold attempted_room. rewrite app_nil_r. reflexivity.
Qed.

(** The provider fires [Disconnected] on a room that carries the hooks of
    [connect]: one [session.ended] goes to the handlers. *)
Lemma notify_disconnected st extra m :
  (forall l, In l extra -> l.1 <> Disconnected) ->
  notify {| state := st; listeners := translation_hooks ++ extra |} NDisconnected m
  = (Returned tt, m,
     dispatch_trace (ended_event m) (handlers_of m SESSION_EVENTS_ENDED)).
Proof.
  intros Hex. unfold notify, translation_hooks. simpl.
  unfold bind, ret, on_disconnected, bind, get. rewrite emitEvent_run.
  assert (Hrest : forEach extra (run_listener NDisconnected) m = (Returned tt, m, [])).
  { induction extra as [|[e l] extra IH]; [reflexivity|].
    cbn [forEach]. unfold bind.
    assert (He : e <> Disconnected) by (apply (Hex (e, l)); left; reflexivity).
    assert (Hl : run_listener NDisconnected (e, l) m = (Returned tt, m, [])).
    { destruct e, l; try reflexivity; congruence. }
    rewrite Hl, IH; [reflexivity|]. intros l' Hin. apply Hex. right. exact Hin. }
  rewrite Hrest. simpl. rewrite app_nil_r. reflexivity.
Qed.

(** C2, as the code has it.  A failing [connect()] is one of two things.
    Without both credentials it fails with the connection-setup error and
    touches nothing: no transport call, the controller as it was, so a
    controller without a room still reports [disconnected].  With both
    credentials it fails because the transport's connect rejected; the
    failure is wrapped into the connection error, and the controller keeps
    the room it made for the attempt, with the four translation hooks:
    [getStatus()] reports what that room reports, [sendMessage] publishes
    on that room.  A fresh [connect()] replaces the room and succeeds when
    the transport accepts it. *)
Theorem connect_failure_outcomes (m : AvatarSessionManager)
  (v a : option string) (reply : connect_reply) (e : thrown) :
  result (connect v a reply m) = Threw e ->
  let r := connect v a reply m in
  if credentials_ok (session m) then
    exists cause : thrown,
      rejects_with reply = Some cause
      /\ e = connection_error cause
      /\ final r = set_room (Some (attempted_room reply [])) m
      /\ transport_calls (trace r)
         = [RoomConnect (default EmptyString (liveKitUrl (session m)))
                        (default EmptyString (liveKitToken (session m)))]
      /\ (state_after reply = "disconnected" -> getStatus (final r) = disconnected)
      /\ (forall text sreply,
            transport_calls (trace (sendMessage text sreply (final r)))
            = [PublishData (chat_envelope text) true])
      /\ (forall retry : connect_reply,
            rejects_with retry = None ->
            result (connect v a retry (final r)) = Returned tt
            /\ room (final (connect v a retry (final r)))
               = Some (attempted_room retry
                         (if given v || given a then media_hooks v a else [])))
  else
    e = connection_setup_error
    /\ final r = m
    /\ trace r = []
    /\ (room m = None -> getStatus (final r) = disconnected).
Proof.
  intros He. cbv zeta.
  destruct (credentials_ok (session m)) eqn:Hc.
  - destruct (rejects_with reply) as [cause|] eqn:Hr.
    + rewrite (connect_rejected v a reply cause m Hc Hr) in *.
      unfold result, final, trace in *; cbn [fst snd] in *.
      exists cause. injection He as <-.
      split; [reflexivity|]. split; [reflexivity|]. split; [reflexivity|].
      split; [reflexivity|].
      split; [intros Hs; unfold getStatus; simpl; rewrite Hs; reflexivity|].
      split; [intros text sreply; rewrite sendMessage_run; reflexivity|].
      intros retry Hretry.
      rewrite (connect_fulfilled v a retry
                 (set_room (Some (attempted_room reply [])) m) Hc Hretry).
      split; reflexivity.
    + rewrite (connect_fulfilled v a reply m Hc Hr) in He. discriminate He.
  - rewrite (connect_without_credentials v a reply m Hc) in *.
    unfold result, final, trace in *; cbn [fst snd] in *.
    injection He as <-.
    repeat split. intros Hroom. unfold getStatus. rewrite Hroom. reflexivity.
Qed.

Lemma connect_failure_outcomes_witness :
  result (connect None None connect_fails (new_AvatarSessionManager sample_session))
  = Threw (connection_error transport_down)
  /\ room (final (connect None None connect_fails
                   (new_AvatarSessionManager sample_session)))
     = Some {| state := "disconnected"; listeners := translation_hooks |}
  /\ result (connect None None {| rejects_with := None; state_after := "connected" |}
               (final (connect None None connect_fails
                         (new_AvatarSessionManager sample_session))))
     = Returned tt.
Proof.
  assert (He : result (connect None None connect_fails
                         (new_AvatarSessionManager sample_session))
               = Threw (connection_error transport_down)) by reflexivity.
  split; [exact He|].
  pose proof (connect_failure_outcomes (new_AvatarSessionManager sample_session)
                None None connect_fails (connection_error transport_down) He) as H.
  cbv zeta in H.
  change (credentials_ok (session (new_AvatarSessionManager sample_session)))
    with true in H. cbv iota in H.
  destruct H as (cause & _ & _ & Hfinal & _ & _ & _ & Hretry).
  split; [rewrite Hfinal; reflexivity|].
  apply (Hretry {| rejects_with := None; state_after := "connected" |} eq_refl).
Defined.

(** C2 as stated fails on a controller with both credentials whose
    transport connect rejects: [connect()] throws the connection error,
    but the controller is not as it was.  It keeps the room of the failed
    attempt, on which [sendMessage] then publishes, and its status is
    whatever that room reports. *)
Theorem connect_failure_keeps_room :
  let m := new_AvatarSessionManager sample_session in
  let r := connect None None connect_fails m in
  result r = Threw (connection_error transport_down)
  /\ room m = None
  /\ room (final r) = Some {| state := "disconnected"; listeners := translation_hooks |}
  /\ final r <> m
  /\ sendMessage "hi" None (final r)
     = (Returned tt, final r, [PublishData (chat_envelope "hi") true])
  /\ sendMessage "hi" None m = (Threw not_connected_error, m, [])
  /\ getStatus (final (connect None None
         {| rejects_with := Some transport_down; state_after := "reconnecting" |} m))
     = error
  /\ ~ connect_failure_as_stated.
Proof.
  cbv zeta.
  rewrite (connect_rejected None None connect_fails transport_down
             (new_AvatarSessionManager sample_session) eq_refl eq_refl).
  unfold result, final; cbn [fst snd].
  split; [reflexivity|]. split; [reflexivity|]. split; [reflexivity|].
  split; [discriminate|].
  split; [rewrite sendMessage_run; reflexivity|].
  split; [rewrite sendMessage_run; reflexivity|].
  split.
  - rewrite (connect_rejected None None
             {| rejects_with := Some transport_down; state_after := "reconnecting" |}
             transport_down (new_AvatarSessionManager sample_session)
             eq_refl eq_refl).
    reflexivity.
  - intros Hsaid.
    destruct (Hsaid (new_AvatarSessionManager sample_session) None None
                connect_fails (connection_error transport_down) eq_refl eq_refl)
      as (_ & Hsame & _).
    discriminate Hsame.
Qed.

(** The other failure of C2: without a credential nothing is touched, and
    a controller that held no room still reports [disconnected]. *)
Lemma connect_without_token_leaves_disconnected v a reply :
  let m := new_AvatarSessionManager session_without_token in
  connect v a reply m = (Threw connection_setup_error, m, [])
  /\ getStatus m = disconnected.
Proof.
  cbv zeta. split; [|reflexivity].
  apply connect_without_credentials. reflexivity.
Qed.

Lemma notify_then_disconnect st extra m dreply :
  (forall l, In l extra -> l.1 <> Disconnected) ->
  let n := notify {| state := st; listeners := translation_hooks ++ extra |}
             NDisconnected m in
  let d := disconnect dreply (final n) in
  result n = Returned tt
  /\ result d = Returned tt
  /\ deliveries (trace n)
     = delivered_to (handlers_of m SESSION_EVENTS_ENDED) (ended_event m)
  /\ deliveries (trace d)
     = delivered_to (handlers_of m SESSION_EVENTS_ENDED) (ended_event m)
  /\ deliveries (trace n ++ trace d)
     = delivered_to (handlers_of m SESSION_EVENTS_ENDED) (ended_event m)
       ++ delivered_to (handlers_of m SESSION_EVENTS_ENDED) (ended_event m).
Proof.
  intros Hex. cbv zeta. rewrite (notify_disconnected st extra m Hex).
  unfold result, final, trace; cbn [fst snd].
  rewrite disconnect_run; cbn [fst snd].
  rewrite !deliveries_app, !deliveries_dispatch.
  assert (Hpre : deliveries
      (match room m with
       | Some _ => RoomDisconnect ::
           match dreply with Some t => [DroppedRejection t] | None => [] end
       | None => []
       end) = []).
  { destruct (room m), dreply; reflexivity. }
  rewrite Hpre. repeat split; reflexivity.
Qed.

(** C10.  [session.ended] is emitted more than once for one controller: a
    controller that connected and whose room then reports [Disconnected]
    hands one [session.ended] to every handler of that type, and the
    [disconnect()] call that follows hands each of them a second one.
    Both the listener and [disconnect()] emit without a condition. *)
Theorem session_ended_emitted_twice (m0 : AvatarSessionManager)
  (v a : option string) (creply : connect_reply) (dreply : option thrown) :
  credentials_ok (session m0) = true ->
  rejects_with creply = None ->
  let m1 := final (connect v a creply m0) in
  exists r : Room,
    room m1 = Some r
    /\ let n := notify r NDisconnected m1 in
       let d := disconnect dreply (final n) in
       result n = Returned tt
       /\ result d = Returned tt
       /\ deliveries (trace n)
          = delivered_to (handlers_of m0 SESSION_EVENTS_ENDED) (ended_event m0)
       /\ deliveries (trace d)
          = delivered_to (handlers_of m0 SESSION_EVENTS_ENDED) (ended_event m0)
       /\ deliveries (trace n ++ trace d)
          = delivered_to (handlers_of m0 SESSION_EVENTS_ENDED) (ended_event m0)
            ++ delivered_to (handlers_of m0 SESSION_EVENTS_ENDED) (ended_event m0).
Proof.
  intros H Hr. cbv zeta. rewrite (connect_fulfilled v a creply m0 H Hr).
  unfold final at 1 2 3 4 5 6; cbn [fst snd].
  eexists. split; [reflexivity|].
  unfold attempted_room.
  apply (notify_then_disconnect (state_after creply)
           (if given v || given a then media_hooks v a else [])
           (set_room (Some {| state := state_after creply;
              listeners := translation_hooks ++
                (if given v || given a then media_hooks v a else []) |}) m0)
           dreply).
  intros l Hin. destruct (given v || given a); [|contradiction].
  destruct Hin as [<-|[<-|[]]]; discriminate.
Qed.

(** The same on a sample controller with one handler: it is called twice. *)
Lemma session_ended_emitted_twice_witness :
  credentials_ok (session (final (on "session.ended" (quiet 7)
     (new_AvatarSessionManager sample_session)))) = true
  /\ exists r : Room,
       room (final (connect None None {| rejects_with := None; state_after := "connected" |}
               (final (on "session.ended" (quiet 7)
                  (new_AvatarSessionManager sample_session))))) = Some r
       /\ List.map fst
            (deliveries
               (trace (notify r NDisconnected
                  (final (connect None None
                     {| rejects_with := None; state_after := "connected" |}
                     (final (on "session.ended" (quiet 7)
                        (new_AvatarSessionManager sample_session))))))
                ++ trace (disconnect None
                  (final (notify r NDisconnected
                     (final (connect None None
                        {| rejects_with := None; state_after := "connected" |}
                        (final (on "session.ended" (quiet 7)
                           (new_AvatarSessionManager sample_session))))))))))
          = [7; 7].
Proof.
  split; [reflexivity|].
  destruct (session_ended_emitted_twice
              (final (on "session.ended" (quiet 7)
                 (new_AvatarSessionManager sample_session)))
              None None {| rejects_with := None; state_after := "connected" |} None
              eq_refl eq_refl) as (r & Hroom & _ & _ & _ & _ & Hboth).
  exists r. split; [exact Hroom|].
  rewrite Hboth. reflexivity.
Defined.

End ConnectFacts.

(** ** The session registry *)

Module RegistryFacts.
Import JSON Err Eff Session Vocabulary SessionFacts ControllerFacts.
Import SDK.

Lemma Map_get_set_eq k v m : Map_get k (Map_set k v m) = Some v.
Proof.
  induction m as [|[k' v'] m IH]; simpl.
  - rewrite String.eqb_refl. reflexivity.
  - destruct (String.eqb k' k) eqn:E; simpl; rewrite E; [reflexivity|exact IH].
Qed.

Lemma Map_get_delete k m : Map_get k (Map_delete k m) = None.
Proof.
  induction m as [|[k' v'] m IH]; [reflexivity|]. simpl.
  destruct (String.eqb k' k) eqn:E; simpl; [exact IH|]. rewrite E. exact IH.
Qed.

(** *** [getSession] *)

(** C8.  [getSession(id)] answers from the registry when the identifier is
    there: the registered controller is returned, nothing changes and the
    gateway is not called.  On a miss it calls the gateway once; when that
    call yields a session, a controller is created for it, stored under the
    session's identifier and returned; when that call fails, the failure is
    swallowed and the result is [null], the registry being left as it
    was. *)
Theorem getSession_cache_then_gateway (this : SoulCypherSDK) (sessionId : string)
  (reply : outcome AvatarSession) :
  let r := getSession sessionId reply this in
  match Map_get sessionId (sessions this) with
  | Some cached =>
      result r = Returned (Some cached) /\ final r = this /\ trace r = []
  | None =>
      trace r = [Gateway (GetSession sessionId)]
      /\ match reply with
         | Returned session =>
             let fresh := length (objects this) in
             result r = Returned (Some fresh)
             /\ objects this !! fresh = None
             /\ objects (final r) = objects this ++ [new_AvatarSessionManager session]
             /\ objects (final r) !! fresh = Some (new_AvatarSessionManager session)
             /\ sessions (final r) = Map_set (id session) fresh (sessions this)
             /\ Map_get (id session) (sessions (final r)) = Some fresh
         | Threw _ =>
             result r = Returned None /\ final r = this
         end
  end.
Proof.
  cbv zeta. unfold getSession, bind, get.
  destruct (Map_get sessionId (sessions this)) as [cached|].
  - unfold ret, result, final, trace; simpl. auto.
  - destruct reply as [session|t].
    + unfold try_catch, bind, log, await, ret, new_manager, bind, get, put, ret,
        result, final, trace; simpl.
      repeat split.
      * apply lookup_ge_None_2. lia.
      * rewrite lookup_app_r by lia. rewrite Nat.sub_diag. reflexivity.
      * apply Map_get_set_eq.
    + unfold try_catch, bind, log, await, throw, ret, result, final, trace; simpl.
      destruct this; auto.
Qed.

(** *** Calls on a registered controller *)

Lemma on_object_disconnect ref t m this :
  objects this !! ref = Some m ->
  on_object ref (disconnect t) this
  = (Returned tt,
     set_objects (<[ref := set_room None m]> (objects this)) this,
     List.map (OfController ref) (trace (disconnect t m))).
Proof.
  intros H. unfold on_object. rewrite H, disconnect_run. reflexivity.
Qed.

Lemma of_controller_app ref tr1 tr2 :
  of_controller ref (tr1 ++ tr2) = of_controller ref tr1 ++ of_controller ref tr2.
Proof.
  induction tr1 as [|e tr1 IH]; [reflexivity|].
  destruct e as [r e|c]; simpl; [|exact IH].
  destruct (Nat.eqb r ref); simpl; rewrite IH; reflexivity.
Qed.

Lemma of_controller_same ref tr :
  of_controller ref (List.map (OfController ref) tr) = tr.
Proof.
  induction tr as [|e tr IH]; [reflexivity|].
  simpl. rewrite Nat.eqb_refl, IH. reflexivity.
Qed.

Lemma of_controller_other ref ref' tr :
  ref' <> ref -> of_controller ref (List.map (OfController ref') tr) = [].
Proof.
  intros Hne. induction tr as [|e tr IH]; [reflexivity|].
  simpl. destruct (Nat.eqb ref' ref) eqn:E; [apply Nat.eqb_eq in E; congruence|].
  exact IH.
Qed.

Lemma gateway_calls_app tr1 tr2 :
  gateway_calls (tr1 ++ tr2) = gateway_calls tr1 ++ gateway_calls tr2.
Proof. unfold gateway_calls. apply omap_app. Qed.

Lemma gateway_calls_of_controller ref tr :
  gateway_calls (List.map (OfController ref) tr) = [].
Proof. induction tr as [|e tr IH]; [reflexivity|exact IH]. Qed.

(** *** [endSession] *)

Lemma endSession_local_run sessionId transport ref m this :
  Map_get sessionId (sessions this) = Some ref ->
  objects this !! ref = Some m ->
  endSession_local sessionId transport this
  = (Returned tt,
     {| apiClient := apiClient this;
        sessions := Map_delete sessionId (sessions this);
        objects := <[ref := set_room None m]> (objects this) |},
     List.map (OfController ref) (trace (disconnect transport m))).
Proof.
  intros Hget Hobj. unfold endSession_local, bind, get. rewrite Hget.
  rewrite (on_object_disconnect ref transport m this Hobj).
  unfold put, set_sessions; simpl. rewrite app_nil_r. reflexivity.
Qed.

(** C7.  When a controller is registered under the identifier,
    [endSession(id)] first disconnects that controller and deletes the
    entry, and only then calls the gateway's end-session operation: the
    registry that exists when the gateway is called, and the one left
    afterwards, no longer have the identifier, whether the gateway call
    fulfils or rejects; a rejection is passed on to the caller and nothing
    is put back. *)
Theorem endSession_removes_before_gateway (this : SoulCypherSDK)
  (sessionId : string) (ref : nat) (m : AvatarSessionManager)
  (transport : option thrown) (reply : outcome unit) :
  Map_get sessionId (sessions this) = Some ref ->
  objects this !! ref = Some m ->
  let before := endSession_local sessionId transport this in
  let r := endSession sessionId transport reply this in
  result before = Returned tt
  /\ Map_get sessionId (sessions (final before)) = None
  /\ objects (final before) !! ref = Some (set_room None m)
  /\ trace r
     = List.map (OfController ref) (trace (disconnect transport m))
       ++ [Gateway (EndSession sessionId)]
  /\ final r = final before
  /\ Map_get sessionId (sessions (final r)) = None
  /\ result r = reply.
Proof.
  intros Hget Hobj. cbv zeta. unfold endSession, bind.
  rewrite (endSession_local_run sessionId transport ref m this Hget Hobj).
  unfold log, await, result, final, trace; cbn [fst snd].
  assert (Href : ref < length (objects this)) by (eapply lookup_lt_Some; eauto).
  split; [reflexivity|]. split; [apply Map_get_delete|].
  split; [apply list_lookup_insert_eq, Href|].
  destruct reply as [[]|t]; unfold ret, throw; cbn [fst snd];
    rewrite ?app_nil_r;
    (split; [reflexivity|]); (split; [reflexivity|]);
    (split; [apply Map_get_delete|reflexivity]).
Qed.

(** *** [cleanup] *)

Lemma Promise_all_fulfilled {A} (xs : list A) :
  Promise_all (List.map (fun _ => Returned tt) xs)
  = Returned (List.map (fun _ => tt) xs).
Proof. induction xs as [|x xs IH]; [reflexivity|]. simpl. rewrite IH. reflexivity. Qed.

(** The [map] of [cleanup]: every call runs, one after the other, each on
    its own controller, and each yields a fulfilled promise. *)
Lemma map_promises_disconnect transport refs :
  forall c sess objs,
    Forall (fun ref => ref < length objs) refs ->
    NoDup refs ->
    exists objs' tr,
      map_promises refs
        (fun session => on_object session (disconnect (transport session)))
        {| apiClient := c; sessions := sess; objects := objs |}
      = (Returned (List.map (fun _ => Returned tt) refs),
         {| apiClient := c; sessions := sess; objects := objs' |}, tr)
      /\ length objs' = length objs
      /\ (forall ref m, objs !! ref = Some m -> ref ∈ refs ->
            objs' !! ref = Some (set_room None m)
            /\ of_controller ref tr = trace (disconnect (transport ref) m))
      /\ (forall ref, ref ∉ refs ->
            objs' !! ref = objs !! ref /\ of_controller ref tr = [])
      /\ gateway_calls tr = [].
Proof.
  induction refs as [|r0 rest IH]; intros c sess objs Hlt Hnd.
  - exists objs, []. simpl. unfold ret.
    split; [reflexivity|]. split; [reflexivity|].
    split; [intros ref m _ Hin; inversion Hin|]. split; [|reflexivity].
    intros ref _. split; reflexivity.
  - inversion Hlt as [|? ? Hr0 Hrest]; subst.
    inversion Hnd as [|? ? Hnotin Hnd']; subst.
    destruct (lookup_lt_is_Some_2 objs r0 Hr0) as [m0 Hm0].
    destruct (IH c sess (<[r0 := set_room None m0]> objs)) as
      (objs' & tr' & Hrun & Hlen & Hin & Hout & Hgw).
    { rewrite length_insert. exact Hrest. }
    { exact Hnd'. }
    exists objs', (List.map (OfController r0) (trace (disconnect (transport r0) m0)) ++ tr').
    split.
    { cbn [map_promises]. unfold bind at 1, promise_of.
      rewrite (on_object_disconnect r0 (transport r0) m0
                 {| apiClient := c; sessions := sess; objects := objs |} Hm0).
      unfold set_objects. cbn [apiClient sessions objects].
      unfold bind at 1. rewrite Hrun.
      unfold ret. cbn [List.map]. rewrite app_nil_r. reflexivity. }
    split; [rewrite Hlen; apply length_insert|].
    split.
    { intros ref m Hm Href. rewrite of_controller_app.
      destruct (Nat.eq_dec ref r0) as [->|Hne].
      - assert (m = m0) by congruence. subst m.
        destruct (Hout r0 Hnotin) as [Ho Ht].
        rewrite Ho, Ht, of_controller_same, app_nil_r.
        split; [apply list_lookup_insert_eq, Hr0|reflexivity].
      - apply elem_of_cons in Href as [Heq|Href]; [congruence|].
        rewrite of_controller_other by congruence.
        apply Hin; [|exact Href].
        rewrite list_lookup_insert_ne by congruence. exact Hm. }
    split.
    { intros ref Hnot.
      apply not_elem_of_cons in Hnot as [Hne Hnot'].
      destruct (Hout ref Hnot') as [Ho Ht].
      rewrite of_controller_app, of_controller_other, Ht by congruence.
      rewrite Ho, list_lookup_insert_ne by congruence. split; reflexivity. }
    rewrite gateway_calls_app, gateway_calls_of_controller, Hgw. reflexivity.
Qed.

(** What [cleanup] does to a registry that satisfies its invariant. *)
Lemma cleanup_run (this : SoulCypherSDK) (transport : nat -> option thrown) :
  registry_ok this ->
  exists objs' tr,
    cleanup transport this
    = (Returned tt,
       {| apiClient := apiClient this; sessions := []; objects := objs' |}, tr)
    /\ length objs' = length (objects this)
    /\ (forall ref m, objects this !! ref = Some m ->
          ref ∈ Map_values (sessions this) ->
          objs' !! ref = Some (set_room None m)
          /\ of_controller ref tr = trace (disconnect (transport ref) m))
    /\ (forall ref, ref ∉ Map_values (sessions this) ->
          objs' !! ref = objects this !! ref /\ of_controller ref tr = [])
    /\ gateway_calls tr = [].
Proof.
  intros [Hlt Hnd]. destruct this as [c sess objs].
  cbn [apiClient sessions objects] in *.
  destruct (map_promises_disconnect transport (Map_values sess) c sess objs Hlt Hnd)
    as (objs' & tr & Hrun & Hlen & Hin & Hout & Hgw).
  exists objs', tr. split; [|auto].
  unfold cleanup, bind, get. cbn beta iota. cbn [sessions].
  rewrite Hrun. rewrite Promise_all_fulfilled.
  unfold await, ret, put, set_sessions; cbn [fst snd apiClient sessions objects].
  rewrite !app_nil_r. reflexivity.
Qed.

(** C1.  [cleanup()] calls [disconnect()] on every registered controller,
    one call per controller and all of them before anything is awaited, so
    no call depends on how another one ends.  Each call tears down the
    controller's transport connection and emits its [session.ended]; the
    promise returned by the transport is not awaited, so a transport
    disconnect that rejects stops nothing.  All the promises fulfil,
    [cleanup()] returns normally and the registry is empty afterwards.
    The gateway is not called. *)
Theorem cleanup_disconnects_all_and_clears (this : SoulCypherSDK)
  (transport : nat -> option thrown) :
  registry_ok this ->
  let r := cleanup transport this in
  result r = Returned tt
  /\ sessions (final r) = []
  /\ length (objects (final r)) = length (objects this)
  /\ (forall k ref m,
        (k, ref) ∈ sessions this -> objects this !! ref = Some m ->
        objects (final r) !! ref = Some (set_room None m)
        /\ of_controller ref (trace r) = trace (disconnect (transport ref) m))
  /\ (forall ref, ref ∉ Map_values (sessions this) ->
        objects (final r) !! ref = objects this !! ref)
  /\ gateway_calls (trace r) = [].
Proof.
  intros Hok. cbv zeta.
  destruct (cleanup_run this transport Hok)
    as (objs' & tr & -> & Hlen & Hin & Hout & Hgw).
  unfold result, final, trace; cbn [fst snd sessions objects].
  split; [reflexivity|]. split; [reflexivity|]. split; [exact Hlen|].
  split; [|split; [|exact Hgw]].
  - intros k ref m Hk Hm. apply Hin; [exact Hm|].
    unfold Map_values. apply (list_elem_of_fmap_2 snd _ _ Hk).
  - intros ref Hnot. apply Hout, Hnot.
Qed.

(** [clear()] sits behind the [await]: were one of the promises rejected,
    [cleanup()] would reject with it and leave the registry as it was.  By
    [cleanup_run] this does not happen with a registry that satisfies its
    invariant. *)
Lemma map_promises_keeps_registry {A} (f : nat -> Ctl A) refs :
  forall this, exists ps this' tr,
    map_promises refs (fun session => on_object session (f session)) this
    = (Returned ps, this', tr)
    /\ sessions this' = sessions this.
Proof.
  induction refs as [|r0 rest IH]; intros this.
  - exists [], this, []. split; reflexivity.
  - cbn [map_promises]. unfold bind at 1, promise_of.
    destruct (on_object r0 (f r0) this) as [[p this1] tr1] eqn:E.
    assert (H1 : sessions this1 = sessions this).
    { unfold on_object in E. destruct (objects this !! r0) as [m|].
      - destruct (f r0 m) as [[r m'] tr0]. injection E as <- <- <-. reflexivity.
      - injection E as <- <- <-. reflexivity. }
    destruct (IH this1) as (ps & this' & tr & Hrun & Hs).
    unfold bind at 1. rewrite Hrun. unfold ret.
    eexists _, _, _. split; [reflexivity|]. congruence.
Qed.

Lemma cleanup_rejection_keeps_registry this transport e :
  result (cleanup transport this) = Threw e ->
  sessions (final (cleanup transport this)) = sessions this.
Proof.
  unfold cleanup, bind, get. cbn beta iota.
  destruct (map_promises_keeps_registry (fun session => disconnect (transport session))
              (Map_values (sessions this)) this) as (ps & this' & tr & Hrun & Hs).
  rewrite Hrun. destruct (Promise_all ps) as [l|t];
    unfold await, ret, throw, put, result, final; cbn [fst snd].
  - discriminate.
  - intros _. exact Hs.
Qed.

Lemma cleanup_disconnects_all_and_clears_witness :
  registry_ok three_sessions
  /\ result (cleanup second_rejects three_sessions) = Returned tt
  /\ sessions (final (cleanup second_rejects three_sessions)) = []
  /\ List.map room (objects (final (cleanup second_rejects three_sessions)))
     = [None; None; None]
  /\ transport_calls (of_controller 0 (trace (cleanup second_rejects three_sessions)))
     = [RoomDisconnect]
  /\ of_controller 1 (trace (cleanup second_rejects three_sessions))
     = [RoomDisconnect; DroppedRejection transport_down;
        Invoke 1 (ended_event (connected_manager (session_named "s2") ended_listeners))]
  /\ transport_calls (of_controller 2 (trace (cleanup second_rejects three_sessions)))
     = [RoomDisconnect].
Proof.
  assert (Hok : registry_ok three_sessions).
  { split.
    - repeat constructor.
    - apply (bool_decide_unpack _). reflexivity. }
  split; [exact Hok|].
  destruct (cleanup_disconnects_all_and_clears three_sessions second_rejects Hok)
    as (Hres & Hclear & _ & _ & _ & _).
  split; [exact Hres|]. split; [exact Hclear|].
  repeat split; reflexivity.
Defined.

Lemma endSession_removes_before_gateway_witness :
  Map_get "s2" (sessions three_sessions) = Some 1
  /\ result (endSession "s2" None (Threw (JsError "TypeError" "Failed to fetch"))
               three_sessions)
     = Threw (JsError "TypeError" "Failed to fetch")
  /\ List.map fst
       (sessions (final (endSession "s2" None
          (Threw (JsError "TypeError" "Failed to fetch")) three_sessions)))
     = ["s1"; "s3"]
  /\ List.map
       (fun e => match e with OfController _ _ => false | Gateway _ => true end)
       (trace (endSession "s2" None
          (Threw (JsError "TypeError" "Failed to fetch")) three_sessions))
     = [false; false; true].
Proof.
  split; [reflexivity|].
  destruct (endSession_removes_before_gateway three_sessions "s2" 1
              (connected_manager (session_named "s2") ended_listeners)
              None (Threw (JsError "TypeError" "Failed to fetch"))
              eq_refl eq_refl)
    as (_ & _ & _ & Htr & _ & _ & Hres).
  split; [exact Hres|]. split; [reflexivity|].
  rewrite Htr. reflexivity.
Defined.

(** *** The registry invariant *)

Lemma Map_values_set k v m ref :
  ref ∈ Map_values (Map_set k v m) -> ref = v \/ ref ∈ Map_values m.
Proof.
  induction m as [|[k' v'] m IH]; simpl.
  - intros H. apply list_elem_of_singleton in H. left. exact H.
  - destruct (String.eqb k' k); simpl; intros H;
      apply elem_of_cons in H as [->|H].
    + left; reflexivity.
    + right. apply elem_of_cons. right. exact H.
    + right. apply elem_of_cons. left. reflexivity.
    + destruct (IH H) as [->|H']; [left; reflexivity|].
      right. apply elem_of_cons. right. exact H'.
Qed.

Lemma Map_values_set_NoDup k v m :
  NoDup (Map_values m) -> v ∉ Map_values m -> NoDup (Map_values (Map_set k v m)).
Proof.
  induction m as [|[k' v'] m IH]; simpl; intros Hnd Hv.
  - apply NoDup_singleton.
  - apply NoDup_cons in Hnd as [Hv' Hnd].
    apply not_elem_of_cons in Hv as [Hne Hv].
    destruct (String.eqb k' k); simpl; apply NoDup_cons.
    + split; assumption.
    + split; [|apply IH; assumption].
      intros H. destruct (Map_values_set k v m v' H) as [->|H']; [congruence|].
      apply Hv', H'.
Qed.

Lemma Map_values_delete k m ref :
  ref ∈ Map_values (Map_delete k m) -> ref ∈ Map_values m.
Proof.
  induction m as [|[k' v'] m IH]; simpl; [auto|].
  destruct (String.eqb k' k); simpl; intros H.
  - apply elem_of_cons. right. apply IH, H.
  - apply elem_of_cons in H as [->|H]; apply elem_of_cons; [left|right]; auto.
Qed.

Lemma Map_values_delete_NoDup k m :
  NoDup (Map_values m) -> NoDup (Map_values (Map_delete k m)).
Proof.
  induction m as [|[k' v'] m IH]; simpl; [auto|]. intros Hnd.
  apply NoDup_cons in Hnd as [Hv' Hnd].
  destruct (String.eqb k' k); simpl; [apply IH, Hnd|].
  apply NoDup_cons. split; [|apply IH, Hnd].
  intros H. apply Hv'. eapply Map_values_delete, H.
Qed.

Lemma registry_ok_new config this :
  new_SoulCypherSDK config = Returned this -> registry_ok this.
Proof.
  unfold new_SoulCypherSDK.
  destruct (String.eqb (Api.cfg_apiKey config) EmptyString); [discriminate|].
  destruct (Api.new_APIClient config); [|discriminate].
  intros [= <-]. split; [constructor|apply NoDup_nil_2].
Qed.

(** Storing a controller that was just created keeps the invariant. *)
Lemma registry_ok_store k s this :
  registry_ok this ->
  registry_ok {| apiClient := apiClient this;
                 sessions := Map_set k (length (objects this)) (sessions this);
                 objects := objects this ++ [new_AvatarSessionManager s] |}.
Proof.
  intros [Hlt Hnd]. split; cbn [sessions objects].
  - apply Forall_forall. intros ref Href. rewrite length_app; simpl.
    destruct (Map_values_set _ _ _ _ Href) as [->|H]; [lia|].
    rewrite Forall_forall in Hlt. specialize (Hlt ref H). lia.
  - apply Map_values_set_NoDup; [exact Hnd|].
    intros H. rewrite Forall_forall in Hlt. specialize (Hlt _ H). lia.
Qed.

Lemma registry_ok_getSession this sessionId reply :
  registry_ok this -> registry_ok (final (getSession sessionId reply this)).
Proof.
  intros Hok. unfold getSession, bind, get.
  destruct (Map_get sessionId (sessions this)); [exact Hok|].
  destruct reply as [s|t]; unfold try_catch, bind, log, await, throw, ret,
    new_manager, bind, get, put, ret, final; cbn [fst snd].
  - apply (registry_ok_store (id s) s this Hok).
  - exact Hok.
Qed.

Lemma registry_ok_createSession this reply :
  registry_ok this -> registry_ok (final (createSession reply this)).
Proof.
  intros Hok. unfold createSession, bind, log.
  destruct reply as [s|t]; unfold await, throw, ret,
    new_manager, bind, get, put, ret, final; cbn [fst snd].
  - apply (registry_ok_store (id s) s this Hok).
  - exact Hok.
Qed.

Lemma registry_ok_endSession this sessionId transport reply :
  registry_ok this ->
  registry_ok (final (endSession sessionId transport reply this)).
Proof.
  intros Hok.
  assert (Hlocal : registry_ok (final (endSession_local sessionId transport this))).
  { unfold endSession_local, bind, get.
    destruct (Map_get sessionId (sessions this)) as [ref|]; [|exact Hok].
    unfold on_object. destruct (objects this !! ref) as [m|]; [|exact Hok].
    rewrite disconnect_run.
    unfold put, set_sessions, set_objects, final; cbn [fst snd sessions objects].
    destruct Hok as [Hlt Hnd]. split; cbn [sessions objects].
    - rewrite length_insert. apply Forall_forall. intros r Hr.
      rewrite Forall_forall in Hlt. apply Hlt. eapply Map_values_delete, Hr.
    - apply Map_values_delete_NoDup, Hnd. }
  unfold endSession, bind.
  destruct (endSession_local sessionId transport this) as [[[[]|t] s1] tr1];
    unfold final in *; cbn [fst snd] in *; [|exact Hlocal].
  unfold log, await. destruct reply; exact Hlocal.
Qed.

Lemma registry_ok_cleanup this transport :
  registry_ok this -> registry_ok (final (cleanup transport this)).
Proof.
  intros Hok.
  destruct (cleanup_run this transport Hok) as (objs' & tr & -> & _).
  split; [constructor|apply NoDup_nil_2].
Qed.

Lemma registry_ok_method {A} ref (c : Ctl A) this :
  registry_ok this -> registry_ok (final (on_object ref c this)).
Proof.
  intros [Hlt Hnd]. unfold on_object.
  destruct (objects this !! ref) as [m|]; [|split; assumption].
  destruct (c m) as [[r m'] tr]. unfold final, set_objects; cbn [fst snd].
  split; cbn [sessions objects]; [|exact Hnd].
  rewrite length_insert. exact Hlt.
Qed.

(** Every state that an SDK object reaches satisfies the invariant. *)
Lemma reachable_registry_ok this : reachable this -> registry_ok this.
Proof.
  induction 1 as [config this Hnew|this this' _ IH Hstep].
  - eapply registry_ok_new, Hnew.
  - destruct Hstep.
    + apply registry_ok_createSession, IH.
    + apply registry_ok_getSession, IH.
    + apply registry_ok_endSession, IH.
    + apply registry_ok_cleanup, IH.
    + apply registry_ok_method, IH.
Qed.

End RegistryFacts.

(** ** The gateway client *)

Module GatewayFacts.
Import JSON Err Eff Vocabulary.
Import Api.

Lemma request_not_ok endpoint method response c :
  ok response = false ->
  request endpoint method (Responds response) c
  = (Threw (surfaced (handleErrorResponse response)), c,
     [Fetch (String.append (baseUrl c) (String.append "/v1" endpoint))
        method (Some (apiKey c))]).
Proof.
  intros Hok. unfold request, bind, get, try_catch, log, throw, ret, surfaced.
  cbn beta iota. rewrite Hok. cbn [negb].
  destruct (instanceof_SoulCypherError (handleErrorResponse response)); reflexivity.
Qed.

Lemma call_failure_not_ok op response c :
  through_request op = true ->
  ok response = false ->
  call_failure op (Responds response) c
  = Some (surfaced (handleErrorResponse response)).
Proof.
  intros Hop Hok.
  destruct op; try discriminate Hop;
    unfold call_failure, failure_of, getAvatars, getAvatar, createAvatar,
      createSession, getSession, getSessionStatus, endSession, bind;
    rewrite (request_not_ok _ _ _ _ Hok); reflexivity.
Qed.

Lemma message_error_for status msg : message (error_for status msg) = msg.
Proof.
  unfold error_for.
  repeat match goal with |- context [if ?b then _ else _] => destruct b end;
    reflexivity.
Qed.

Lemma handleErrorResponse_text response text :
  body response = Text text ->
  JSON_parse text <> Some JNull ->
  handleErrorResponse response
  = match super_message (chosen_message (status response) text) with
    | Some msg => SDKError (error_for (status response) msg)
    | None => JsError "TypeError" "Cannot convert object to primitive value"
    end.
Proof.
  intros Hb Hnull. unfold handleErrorResponse, chosen_message, picked_message,
    error_for, default_message. rewrite Hb.
  destruct (JSON_parse text) as [v|]; [|reflexivity].
  destruct v; try reflexivity. congruence.
Qed.

Lemma chosen_message_converts status text :
  message_converts text = true ->
  exists msg, super_message (chosen_message status text) = Some msg.
Proof.
  unfold message_converts, chosen_message. intros H.
  destruct (truthy (picked_message text (JSON_parse text))).
  - destruct (super_message (picked_message text (JSON_parse text))) as [msg|];
      [exists msg; reflexivity|discriminate].
  - eexists. reflexivity.
Qed.

(** C9, as the code has it.  A gateway call made through [request] (any
    operation but the health probe) that receives a non-2xx response whose
    body can be read and does not decode to [null], and whose message can
    be turned into a string, fails with an SDK error: the rate-limit error
    for 429 and the authentication error for 401.  The message is the
    [message] member of the decoded payload when that is a non-empty
    string, and the raw body text when the body does not decode and is not
    empty; an empty body, and a decoded payload without a truthy
    [message], get the message [Request failed with status N]. *)
Theorem gateway_error_mapping (op : operation) (c : APIClient)
  (response : Response) (text : string) :
  through_request op = true ->
  ok response = false ->
  body response = Text text ->
  JSON_parse text <> Some JNull ->
  message_converts text = true ->
  exists e : SoulCypherError,
    call_failure op (Responds response) c = Some (SDKError e)
    /\ (status response = 429%Z ->
         class e = RateLimitErrorClass /\ code e = Some "RATE_LIMIT_ERROR"
         /\ statusCode e = Some 429%Z)
    /\ (status response = 401%Z ->
         class e = AuthenticationErrorClass /\ code e = Some "AUTHENTICATION_ERROR"
         /\ statusCode e = Some 401%Z)
    /\ (forall ms msg,
          JSON_parse text = Some (JObject ms) ->
          lookup_member "message" ms = Some (JString msg) ->
          msg <> EmptyString ->
          message e = msg)
    /\ (JSON_parse text = None -> text <> EmptyString -> message e = text)
    /\ (JSON_parse text = None -> text = EmptyString ->
         message e = default_message (status response))
    /\ (forall v m,
          JSON_parse text = Some v -> get_prop v "message" = Some m ->
          truthy m = false ->
          message e = default_message (status response)).
Proof.
  intros Hop Hok Hb Hnull Hconv.
  rewrite (call_failure_not_ok op response c Hop Hok).
  rewrite (handleErrorResponse_text response text Hb Hnull).
  destruct (chosen_message_converts (status response) text Hconv) as (chosen & Hch).
  rewrite Hch. unfold surfaced; cbn [instanceof_SoulCypherError].
  eexists. split; [reflexivity|].
  rewrite message_error_for.
  split; [intros ->; repeat split; reflexivity|].
  split; [intros ->; repeat split; reflexivity|].
  unfold chosen_message in Hch.
  split; [|split; [|split]].
  - intros ms msg Hp Hm Hne. revert Hch. rewrite Hp.
    unfold picked_message; cbn [get_prop]. rewrite Hm. cbn [truthy].
    destruct (String.eqb msg EmptyString) eqn:E;
      [apply String.eqb_eq in E; congruence|].
    cbn [negb super_message to_string]. congruence.
  - intros Hp Hne. revert Hch. rewrite Hp. unfold picked_message; cbn [truthy].
    destruct (String.eqb text EmptyString) eqn:E;
      [apply String.eqb_eq in E; congruence|].
    cbn [negb super_message to_string]. congruence.
  - intros Hp ->. revert Hch. rewrite Hp. cbn. congruence.
  - intros v m Hp Hm Ht. revert Hch. rewrite Hp. unfold picked_message.
    rewrite Hm, Ht. cbn [super_message to_string]. congruence.
Qed.

(** The health probe has an error kind of its own for every non-2xx
    status, 429 and 401 included. *)
Lemma ping_not_ok response c :
  ok response = false ->
  ping (Responds response) c
  = (Threw (SDKError (new_SoulCypherError
       (String.append "Health check failed: " (pretty (status response)))
       (Some "HEALTH_CHECK_ERROR") (Some (status response)))), c,
     [Fetch (String.append (baseUrl c) "/health") "GET" None]).
Proof.
  intros Hok. unfold ping, bind, get, try_catch, log, throw, ret.
  cbn beta iota. rewrite Hok. reflexivity.
Qed.

(** C9 as stated fails twice.  A 429 with an empty body gets the default
    message, not the (empty) body text; and the health probe answers a 429
    with its own health-check error, not with the rate-limit error. *)
Lemma rate_limited_empty_body :
  ok {| status := 429; body := Text EmptyString |} = false
  /\ JSON_parse EmptyString = None
  /\ call_failure (OpGetSession "s1")
       (Responds {| status := 429; body := Text EmptyString |}) sample_client
     = Some (SDKError (new_RateLimitError "Request failed with status 429"))
  /\ call_failure OpPing
       (Responds {| status := 429; body := Text EmptyString |}) sample_client
     = Some (SDKError (new_SoulCypherError "Health check failed: 429"
               (Some "HEALTH_CHECK_ERROR") (Some 429%Z)))
  /\ ~ gateway_errors_as_stated.
Proof.
  assert (Hcall : call_failure (OpGetSession "s1")
       (Responds {| status := 429; body := Text EmptyString |}) sample_client
     = Some (SDKError (new_RateLimitError "Request failed with status 429"))).
  { vm_compute. reflexivity. }
  split; [reflexivity|]. split; [reflexivity|]. split; [exact Hcall|].
  split; [vm_compute; reflexivity|].
  intros Hsaid.
  destruct (Hsaid (OpGetSession "s1") sample_client
              {| status := 429; body := Text EmptyString |} EmptyString
              eq_refl eq_refl) as (e & He & _ & _ & _ & Hraw).
  rewrite Hcall in He. injection He as <-.
  specialize (Hraw eq_refl). discriminate Hraw.
Qed.

(** A body that decodes to [null] makes [handleErrorResponse] fail on the
    property read; [request] then reports a network error, whatever the
    status. *)
Lemma null_body_is_network_error :
  call_failure (OpGetSession "s1")
    (Responds {| status := 429; body := Text "null" |}) sample_client
  = Some (SDKError (new_SoulCypherError
      "Request failed: Cannot read properties of null (reading 'message')"
      (Some "NETWORK_ERROR") None)).
Proof. vm_compute. reflexivity. Qed.

(** A message that cannot be turned into a string makes the constructor
    of the error class throw; [request] then reports a network error,
    whatever the status. *)
Lemma unconvertible_message_is_network_error :
  message_converts
    (String.append "{" (String.append (quoted "message")
       (String.append ":{" (String.append (quoted "toString") ":1}}")))) = false
  /\ call_failure (OpGetSession "s1")
       (Responds {| status := 429;
                    body := Text (String.append "{" (String.append (quoted "message")
                              (String.append ":{"
                                 (String.append (quoted "toString") ":1}}")))) |})
       sample_client
     = Some (SDKError (new_SoulCypherError
         "Request failed: Cannot convert object to primitive value"
         (Some "NETWORK_ERROR") None)).
Proof. split; vm_compute; reflexivity. Qed.

Lemma gateway_error_mapping_witness :
  through_request (OpGetSession "s1") = true
  /\ ok {| status := 429; body := Text (object_text "message" "Too many requests") |}
    = false
  /\ message_converts (object_text "message" "Too many requests") = true
  /\ exists e : SoulCypherError,
       call_failure (OpGetSession "s1")
         (Responds {| status := 429;
                      body := Text (object_text "message" "Too many requests") |})
         sample_client = Some (SDKError e)
       /\ class e = RateLimitErrorClass
       /\ message e = "Too many requests".
Proof.
  assert (Hnull : JSON_parse (object_text "message" "Too many requests") <> Some JNull)
    by (vm_compute; discriminate).
  assert (Hconv : message_converts (object_text "message" "Too many requests") = true)
    by (vm_compute; reflexivity).
  split; [reflexivity|]. split; [reflexivity|]. split; [exact Hconv|].
  destruct (gateway_error_mapping (OpGetSession "s1") sample_client
              {| status := 429;
                 body := Text (object_text "message" "Too many requests") |}
              (object_text "message" "Too many requests")
              eq_refl eq_refl eq_refl Hnull Hconv)
    as (e & He & H429 & _ & Hmsg & _).
  exists e. split; [exact He|].
  split; [apply H429; reflexivity|].
  apply (Hmsg [("message", JString "Too many requests")]).
  - vm_compute. reflexivity.
  - reflexivity.
  - discriminate.
Defined.

End GatewayFacts.

(** ** More on the controller *)

Module ControllerMore.
Import JSON Err Eff Session Vocabulary Extended.
Import SessionFacts ControllerFacts NormalizerFacts HandlerFacts ConnectFacts.

Lemma media_effects_app tr1 tr2 :
  media_effects (tr1 ++ tr2) = media_effects tr1 ++ media_effects tr2.
Proof. apply List.filter_app. Qed.

Lemma media_effects_dispatch ev hs : media_effects (dispatch_trace ev hs) = [].
Proof.
  induction hs as [|h hs IH]; [reflexivity|].
  unfold dispatch_trace in *; simpl. rewrite media_effects_app, IH.
  unfold handler_trace. destruct (run h ev); reflexivity.
Qed.

Lemma on_track_subscribed_run t p m :
  on_track_subscribed t p m
  = (Returned tt, m,
     if String.eqb (kind t) "video" then
       dispatch_trace (event m AVATAR_EVENTS_VIDEO (DataTrack t p))
         (handlers_of m AVATAR_EVENTS_VIDEO)
     else if String.eqb (kind t) "audio" then
       dispatch_trace (event m AVATAR_EVENTS_AUDIO (DataTrack t p))
         (handlers_of m AVATAR_EVENTS_AUDIO)
     else []).
Proof.
  unfold on_track_subscribed.
  destruct (String.eqb (kind t) "video"); [apply emitEvent_run|].
  destruct (String.eqb (kind t) "audio"); [apply emitEvent_run|reflexivity].
Qed.

Lemma on_track_attach_run v a t m :
  exists tr, on_track_attach v a t m = (Returned tt, m, tr)
             /\ deliveries tr = [] /\ transport_calls tr = [].
Proof.
  unfold on_track_attach.
  destruct (instance_of t), v, a; eexists; repeat split; reflexivity.
Qed.

(** Every listener returns and leaves the controller as it was. *)
Lemma run_listener_run n l m :
  exists tr, run_listener n l m = (Returned tt, m, tr)
             /\ transport_calls tr = [].
Proof.
  destruct l as [e l].
  destruct n as [t p|t|b p| |q p], e, l as [| | | |v a|]; simpl;
    try (eexists; split; [reflexivity|reflexivity]).
  - rewrite on_track_subscribed_run. eexists; split; [reflexivity|].
    destruct (String.eqb (kind t) "video");
      [apply transport_calls_dispatch|].
    destruct (String.eqb (kind t) "audio");
      [apply transport_calls_dispatch|reflexivity].
  - destruct (on_track_attach_run v a t m) as (tr & -> & _ & Ht). eauto.
  - destruct (on_data_received_run b p m) as (tr & -> & Ht & _).
    eauto.
  - unfold on_disconnected, bind, get. rewrite emitEvent_run.
    eexists; split; [reflexivity|]. apply transport_calls_dispatch.
  - unfold on_quality_changed. rewrite emitEvent_run.
    eexists; split; [reflexivity|]. apply transport_calls_dispatch.
Qed.

Lemma transport_calls_app tr1 tr2 :
  transport_calls (tr1 ++ tr2) = transport_calls tr1 ++ transport_calls tr2.
Proof. apply List.filter_app. Qed.

Lemma forEach_listeners n ls m :
  exists tr, forEach ls (run_listener n) m = (Returned tt, m, tr)
             /\ transport_calls tr = [].
Proof.
  induction ls as [|l ls IH]; [exists []; split; reflexivity|].
  cbn [forEach]. unfold bind.
  destruct (run_listener_run n l m) as (tr1 & -> & H1).
  destruct IH as (tr2 & -> & H2).
  eexists; split; [reflexivity|].
  rewrite transport_calls_app, H1, H2. reflexivity.
Qed.

(** X1.  Whatever the provider reports on whatever room, the listeners of
    the controller return normally whether the registered handlers return
    or throw, leave the controller as it was (room, session, handlers) and
    make no call on the room.  This is for handlers that do not call the
    controller back while they run, and with the track's [attach] and
    [detach], the only calls that a listener makes into the provider,
    taken to return. *)
Theorem notification_is_harmless (r : Room) (n : notification)
  (m : AvatarSessionManager) :
  result (notify r n m) = Returned tt
  /\ final (notify r n m) = m
  /\ transport_calls (trace (notify r n m)) = [].
Proof.
  unfold notify.
  destruct (forEach_listeners n (listeners r) m) as (tr & -> & Ht).
  unfold result, final, trace; cbn [fst snd]. auto.
Qed.

(** X2.  The status getter follows the lifecycle: after a [connect()]
    that the transport accepts, [getStatus()] is [connected] exactly when
    the provider reports the state [connected]; after [disconnect()],
    from any state, it is [disconnected]. *)
Theorem status_through_lifecycle (m : AvatarSessionManager)
  (v a : option string) (creply : connect_reply) (dreply : option thrown) :
  credentials_ok (session m) = true ->
  rejects_with creply = None ->
  let m1 := final (connect v a creply m) in
  (getStatus m1 = connected <-> state_after creply = "connected")
  /\ getStatus (final (disconnect dreply m1)) = disconnected
  /\ getStatus (final (disconnect dreply m)) = disconnected.
Proof.
  intros Hc Hr. cbv zeta. rewrite (connect_fulfilled v a creply m Hc Hr).
  unfold final at 1 2; cbn [fst snd]. rewrite !disconnect_run.
  unfold final; cbn [fst snd].
  split; [|split; reflexivity].
  unfold getStatus, attempted_room; cbn [room set_room state].
  destruct (String.eqb (state_after creply) "connected") eqn:E.
  - apply String.eqb_eq in E. split; auto.
  - split.
    + destruct (String.eqb (state_after creply) "connecting");
        [discriminate|].
      destruct (String.eqb (state_after creply) "disconnected"); discriminate.
    + intros H. rewrite H in E. discriminate E.
Qed.

Lemma status_through_lifecycle_witness :
  credentials_ok (session (new_AvatarSessionManager sample_session)) = true
  /\ getStatus (final (connect None None
         {| rejects_with := None; state_after := "connected" |}
         (new_AvatarSessionManager sample_session))) = connected
  /\ getStatus (final (disconnect None (final (connect None None
         {| rejects_with := None; state_after := "connected" |}
         (new_AvatarSessionManager sample_session))))) = disconnected.
Proof.
  split; [reflexivity|].
  destruct (status_through_lifecycle (new_AvatarSessionManager sample_session)
              None None {| rejects_with := None; state_after := "connected" |}
              None eq_refl eq_refl) as (Hiff & Hdis & _).
  split; [apply Hiff; reflexivity|exact Hdis].
Defined.

(** X3.  [connect], [disconnect], [sendMessage] and the listeners never
    touch the registered handlers or the session: a handler registered
    once stays registered through failed and successful connects,
    disconnects and sends. *)
Theorem operations_keep_handlers (m : AvatarSessionManager)
  (v a : option string) (creply : connect_reply) (dreply sreply : option thrown)
  (text : string) (r : Room) (n : notification) :
  let kept (m' : AvatarSessionManager) :=
    eventHandlers m' = eventHandlers m /\ session m' = session m in
  kept (final (connect v a creply m))
  /\ kept (final (disconnect dreply m))
  /\ kept (final (sendMessage text sreply m))
  /\ kept (final (notify r n m)).
Proof.
  cbv zeta. split; [|split; [|split]].
  - destruct (credentials_ok (session m)) eqn:Hc.
    + destruct (rejects_with creply) as [cause|] eqn:Hr.
      * rewrite (connect_rejected v a creply cause m Hc Hr). split; reflexivity.
      * rewrite (connect_fulfilled v a creply m Hc Hr). split; reflexivity.
    + rewrite (connect_without_credentials v a creply m Hc). split; reflexivity.
  - rewrite disconnect_run. split; reflexivity.
  - rewrite sendMessage_run. split; reflexivity.
  - unfold notify. destruct (forEach_listeners n (listeners r) m) as (tr & -> & _).
    split; reflexivity.
Qed.

(** X4.  An event only reaches the handlers registered for its type:
    registering a handler for another type changes nothing to what an
    emission does, and an emission for a type without handlers does
    nothing at all. *)
Theorem handler_of_other_type_not_called (m : AvatarSessionManager)
  (ty ty' : string) (d : payload) (h : Handler) :
  ty' <> ty ->
  trace (emitEvent ty d (final (on ty' h m))) = trace (emitEvent ty d m)
  /\ (handlers_of m ty = [] -> trace (emitEvent ty d m) = []).
Proof.
  intros Hne. rewrite !emitEvent_run. unfold trace; cbn [snd].
  rewrite (handlers_of_on_other ty' ty h m Hne).
  split; [reflexivity|]. intros ->. reflexivity.
Qed.

Lemma handler_of_other_type_not_called_witness :
  "avatar.audio" <> "avatar.video"
  /\ trace (emitEvent "avatar.video" (DataTrack video_track "agent")
             (final (on "avatar.audio" (quiet 1)
                (new_AvatarSessionManager sample_session)))) = [].
Proof.
  split; [discriminate|].
  destruct (handler_of_other_type_not_called
              (new_AvatarSessionManager sample_session)
              "avatar.video" "avatar.audio" (DataTrack video_track "agent")
              (quiet 1)) as (Hsame & Hnone); [discriminate|].
  rewrite Hsame. apply Hnone. reflexivity.
Defined.

Lemma indexOf_fresh_end h hs :
  indexOf h hs = None -> indexOf h (hs ++ [h]) = Some (length hs).
Proof.
  induction hs as [|x hs IH]; simpl.
  - intros _. rewrite Nat.eqb_refl. reflexivity.
  - destruct (Nat.eqb (hid x) (hid h)); [discriminate|].
    destruct (indexOf h hs); [discriminate|].
    intros _. rewrite IH by reflexivity. reflexivity.
Qed.

Lemma delete_last_added {A} (x : A) (l : list A) :
  delete (length l) (l ++ [x]) = l.
Proof. induction l as [|y l IH]; simpl; [reflexivity|]. f_equal. exact IH. Qed.

Lemma handlers_of_off_other ty ty' h m :
  ty <> ty' -> handlers_of (final (off ty h m)) ty' = handlers_of m ty'.
Proof.
  intros Hne. unfold off, bind, get.
  destruct (eventHandlers m !! ty) as [hs|]; [|reflexivity].
  destruct (indexOf h hs); [|reflexivity].
  unfold put, final, handlers_of; simpl.
  rewrite lookup_insert_ne by exact Hne. reflexivity.
Qed.

Lemma session_off ty h m : session (final (off ty h m)) = session m.
Proof.
  unfold off, bind, get.
  destruct (eventHandlers m !! ty) as [hs|]; [|reflexivity].
  destruct (indexOf h hs); reflexivity.
Qed.

(** X5.  [off] undoes [on]: registering a handler that was not registered
    for the type and removing it again leaves, for every event type, the
    handlers that were there, so every later emission does what it would
    have done. *)
Theorem on_off_round_trip (m : AvatarSessionManager) (ty : string) (h : Handler) :
  indexOf h (handlers_of m ty) = None ->
  let m' := final (off ty h (final (on ty h m))) in
  (forall ty', handlers_of m' ty' = handlers_of m ty')
  /\ (forall ty' d, emitEvent ty' d m' = (Returned tt, m', trace (emitEvent ty' d m))).
Proof.
  intros Hnew. cbv zeta.
  assert (Hall : forall ty',
    handlers_of (final (off ty h (final (on ty h m)))) ty' = handlers_of m ty').
  { intros ty'. destruct (String.eqb_spec ty ty') as [<-|Hne].
    - rewrite (off_registered ty h (final (on ty h m)) (length (handlers_of m ty))).
      + rewrite handlers_of_on. apply delete_last_added.
      + rewrite handlers_of_on. apply indexOf_fresh_end, Hnew.
    - rewrite (handlers_of_off_other ty ty' h _ Hne).
      apply handlers_of_on_other, Hne. }
  split; [exact Hall|].
  intros ty' d. rewrite !emitEvent_run. unfold trace; cbn [snd].
  rewrite Hall. unfold event. rewrite session_off. reflexivity.
Qed.

Lemma on_off_round_trip_witness :
  indexOf (quiet 2)
    (handlers_of (final (on "avatar.response" (quiet 1)
        (new_AvatarSessionManager sample_session))) "avatar.response") = None
  /\ List.map hid
       (handlers_of
          (final (off "avatar.response" (quiet 2)
             (final (on "avatar.response" (quiet 2)
                (final (on "avatar.response" (quiet 1)
                   (new_AvatarSessionManager sample_session))))))) "avatar.response")
     = [1].
Proof.
  split; [reflexivity|].
  destruct (on_off_round_trip
              (final (on "avatar.response" (quiet 1)
                 (new_AvatarSessionManager sample_session)))
              "avatar.response" (quiet 2) eq_refl) as (Hall & _).
  rewrite Hall. reflexivity.
Defined.

Lemma indexOf_fresh_app h hs rest :
  indexOf h hs = None -> indexOf h (hs ++ h :: rest) = Some (length hs).
Proof.
  induction hs as [|x hs IH]; simpl.
  - intros _. rewrite Nat.eqb_refl. reflexivity.
  - destruct (Nat.eqb (hid x) (hid h)); [discriminate|].
    destruct (indexOf h hs); [discriminate|].
    intros _. rewrite IH by reflexivity. reflexivity.
Qed.

Lemma delete_middle_added {A} (x : A) (l rest : list A) :
  delete (length l) (l ++ x :: rest) = l ++ rest.
Proof. induction l as [|y l IH]; simpl; [reflexivity|]. f_equal. exact IH. Qed.

(** X6.  Registrations count: a handler registered twice for a type is
    called twice per event, and one [off] removes one of the two
    registrations only, so it is still called once. *)
Theorem double_registration (m : AvatarSessionManager) (ty : string)
  (d : payload) (h : Handler) :
  indexOf h (handlers_of m ty) = None ->
  let m2 := final (on ty h (final (on ty h m))) in
  let m1 := final (off ty h m2) in
  deliveries (trace (emitEvent ty d m2))
  = delivered_to (handlers_of m ty) (event m ty d)
    ++ [(hid h, event m ty d); (hid h, event m ty d)]
  /\ handlers_of m1 ty = handlers_of m ty ++ [h]
  /\ deliveries (trace (emitEvent ty d m1))
     = delivered_to (handlers_of m ty) (event m ty d) ++ [(hid h, event m ty d)].
Proof.
  intros Hnew. cbv zeta.
  assert (H2 : handlers_of (final (on ty h (final (on ty h m)))) ty
               = handlers_of m ty ++ [h; h]).
  { rewrite !handlers_of_on, <- app_assoc. reflexivity. }
  assert (H1 : handlers_of (final (off ty h (final (on ty h (final (on ty h m)))))) ty
               = handlers_of m ty ++ [h]).
  { rewrite (off_registered ty h _ (length (handlers_of m ty))).
    - rewrite H2. apply delete_middle_added.
    - rewrite H2. apply indexOf_fresh_app, Hnew. }
  rewrite !emitEvent_run. unfold trace; cbn [snd].
  rewrite !deliveries_dispatch, H1, H2. unfold event. rewrite session_off.
  unfold delivered_to. rewrite !List.map_app.
  split; [reflexivity|]. split; reflexivity.
Qed.

Lemma double_registration_witness :
  indexOf (quiet 5)
    (handlers_of (new_AvatarSessionManager sample_session) "session.ended") = None
  /\ List.map fst
       (deliveries (trace (emitEvent "session.ended" (DataSession sample_session)
          (final (off "session.ended" (quiet 5)
             (final (on "session.ended" (quiet 5)
                (final (on "session.ended" (quiet 5)
                   (new_AvatarSessionManager sample_session))))))))))
     = [5].
Proof.
  split; [reflexivity|].
  destruct (double_registration (new_AvatarSessionManager sample_session)
              "session.ended" (DataSession sample_session) (quiet 5) eq_refl)
    as (_ & _ & Hone).
  rewrite Hone. reflexivity.
Defined.

Lemma forEach_app_listeners n l1 l2 m tr1 tr2 :
  forEach l1 (run_listener n) m = (Returned tt, m, tr1) ->
  forEach l2 (run_listener n) m = (Returned tt, m, tr2) ->
  forEach (l1 ++ l2) (run_listener n) m = (Returned tt, m, tr1 ++ tr2).
Proof.
  revert tr1. induction l1 as [|l l1 IH]; intros tr1 H1 H2.
  - simpl in H1. injection H1 as <-. exact H2.
  - cbn [forEach app] in *. unfold bind in *.
    destruct (run_listener_run n l m) as (tr0 & Hl & _). rewrite Hl in *.
    destruct (forEach_listeners n l1 m) as (tr & Htr & _). rewrite Htr in *.
    injection H1 as <-. rewrite (IH tr eq_refl H2).
    rewrite app_assoc. reflexivity.
Qed.

(** What the room of a successful [connect] does with a notification:
    the translation hooks first, then the media hooks if there are any. *)
Lemma notify_connected_room v a reply n m tr1 tr2 :
  forEach translation_hooks (run_listener n) m = (Returned tt, m, tr1) ->
  forEach (media_hooks v a) (run_listener n) m = (Returned tt, m, tr2) ->
  notify (connected_room v a reply) n m
  = (Returned tt, m, tr1 ++ if given v || given a then tr2 else []).
Proof.
  intros H1 H2. unfold notify, connected_room, attempted_room; cbn [listeners].
  destruct (given v || given a).
  - apply forEach_app_listeners; assumption.
  - rewrite !app_nil_r. exact H1.
Qed.

(** X7.  A subscribed track is announced by its [kind] and attached by
    its class: a video track goes to the [avatar.video] handlers, an audio
    track to the [avatar.audio] handlers, any other kind to nobody; and
    the track is attached to the video element if it is a remote video
    track and a video element was given to [connect], to the audio element
    if it is a remote audio track and an audio element was given, and not
    attached otherwise. *)
Theorem track_subscribed_routing (m : AvatarSessionManager)
  (v a : option string) (reply : connect_reply) (t : Track) (p : string) :
  let r := notify (connected_room v a reply) (NTrackSubscribed t p) m in
  deliveries (trace r)
  = match track_event_type t with
    | Some ty => delivered_to (handlers_of m ty) (event m ty (DataTrack t p))
    | None => []
    end
  /\ media_effects (trace r)
     = match attachment v a t with
       | Some element => [TrackAttach t element]
       | None => []
       end.
Proof.
  cbv zeta.
  destruct (on_track_attach_run v a t m) as (tra & Hatt & Hda & _).
  rewrite (notify_connected_room v a reply (NTrackSubscribed t p) m
             (trace (on_track_subscribed t p m)) tra).
  2:{ unfold translation_hooks. simpl. unfold bind, ret.
      rewrite on_track_subscribed_run. unfold trace; cbn [snd].
      rewrite !app_nil_r. reflexivity. }
  2:{ unfold media_hooks. simpl. unfold bind, ret. rewrite Hatt.
      rewrite !app_nil_r. reflexivity. }
  unfold trace at 1 3; cbn [snd].
  rewrite deliveries_app, media_effects_app, on_track_subscribed_run.
  unfold trace; cbn [snd]. unfold track_event_type.
  assert (Hm : media_effects tra
               = match attachment v a t with
                 | Some element => [TrackAttach t element]
                 | None => []
                 end).
  { unfold on_track_attach, attachment in *.
    destruct (instance_of t), v, a; injection Hatt as <-; reflexivity. }
  assert (Hg : (if given v || given a then tra else []) = tra).
  { unfold on_track_attach in Hatt.
    destruct (instance_of t), v, a; injection Hatt as <-; reflexivity. }
  rewrite Hg, Hda, Hm, app_nil_r.
  destruct (String.eqb (kind t) "video").
  { rewrite deliveries_dispatch, media_effects_dispatch. split; reflexivity. }
  destruct (String.eqb (kind t) "audio").
  { rewrite deliveries_dispatch, media_effects_dispatch. split; reflexivity. }
  split; reflexivity.
Qed.

(** X8.  Tracks are detached on unsubscription only when [connect] was
    given a media element; the detach is then issued for every
    unsubscribed track, attached or not.  Nothing is announced to the
    handlers. *)
Theorem track_unsubscribed_detaches (m : AvatarSessionManager)
  (v a : option string) (reply : connect_reply) (t : Track) :
  trace (notify (connected_room v a reply) (NTrackUnsubscribed t) m)
  = if given v || given a then [TrackDetach t] else [].
Proof.
  rewrite (notify_connected_room v a reply (NTrackUnsubscribed t) m [] [TrackDetach t]);
    reflexivity.
Qed.

(** X9.  A data-channel payload that decodes is announced by its [type]
    member: [status] to the [avatar.status] handlers with the [status] and
    [text] members, [response] to the [avatar.response] handlers and
    [error] to the [avatar.error] handlers with the [text] member; a
    member that the message lacks is passed as [undefined].  A payload
    that does not decode, or decodes to anything else, is announced to
    nobody. *)
Theorem data_received_routing (m : AvatarSessionManager)
  (v a : option string) (reply : connect_reply) (b p : string) :
  deliveries (trace (notify (connected_room v a reply) (NDataReceived b p) m))
  = match JSON_parse (TextDecoder_decode b) with
    | Some d =>
        match data_event d p with
        | Some (ty, data) => delivered_to (handlers_of m ty) (event m ty data)
        | None => []
        end
    | None => []
    end.
Proof.
  rewrite (notify_connected_room v a reply (NDataReceived b p) m
             (trace (on_data_received b p m)) []).
  2:{ unfold translation_hooks. simpl. unfold bind, ret.
      destruct (on_data_received_run b p m) as (tr & -> & _).
      unfold trace; cbn [snd]. rewrite !app_nil_r. reflexivity. }
  2:{ reflexivity. }
  unfold trace at 1; cbn [snd].
  assert (Hno : (if given v || given a then @nil Session.effect else []) = [])
    by (destruct (given v || given a); reflexivity).
  rewrite Hno, app_nil_r.
  unfold on_data_received, parse, read, try_catch, bind, data_event, member.
  destruct (JSON_parse (TextDecoder_decode b)) as [d|]; [|reflexivity].
  cbn [ret]. destruct (get_prop d "type") as [ty|] eqn:Hty; cbn [ret throw].
  2:{ reflexivity. }
  destruct (strict_eq ty MESSAGE_TYPES_STATUS).
  { rewrite emitEvent_run. unfold trace; cbn [snd].
    rewrite ?app_nil_r. apply deliveries_dispatch. }
  destruct (strict_eq ty MESSAGE_TYPES_RESPONSE).
  { rewrite emitEvent_run. unfold trace; cbn [snd].
    rewrite ?app_nil_r. apply deliveries_dispatch. }
  destruct (strict_eq ty MESSAGE_TYPES_ERROR).
  { rewrite emitEvent_run. unfold trace; cbn [snd].
    rewrite ?app_nil_r. apply deliveries_dispatch. }
  reflexivity.
Qed.

(** X10.  A [connect()] that gets past the credential check makes one
    call into the transport, the connect with the URL and the token of the
    session, and no other: a room that the controller held before is
    replaced without being told to disconnect.  When the transport
    accepts, the controller holds a new room with the translation hooks
    (and the media hooks if an element was given) and [session.started]
    goes once to each handler of that type; when it rejects, nobody is
    told. *)
Theorem connect_calls_transport_once (m : AvatarSessionManager)
  (v a : option string) (reply : connect_reply) :
  credentials_ok (session m) = true ->
  let r := connect v a reply m in
  transport_calls (trace r)
  = [RoomConnect (default EmptyString (liveKitUrl (session m)))
                 (default EmptyString (liveKitToken (session m)))]
  /\ match rejects_with reply with
     | None =>
         room (final r) = Some (connected_room v a reply)
         /\ deliveries (trace r)
            = delivered_to (handlers_of m SESSION_EVENTS_STARTED)
                (event m SESSION_EVENTS_STARTED (DataSession (session m)))
     | Some _ =>
         room (final r) = Some (attempted_room reply [])
         /\ deliveries (trace r) = []
     end.
Proof.
  intros Hc. cbv zeta.
  destruct (rejects_with reply) as [cause|] eqn:Hr.
  - rewrite (connect_rejected v a reply cause m Hc Hr).
    unfold trace, final; cbn [fst snd]. repeat split; reflexivity.
  - rewrite (connect_fulfilled v a reply m Hc Hr).
    unfold trace, final; cbn [fst snd].
    split; [|split; [reflexivity|]].
    + unfold transport_calls; cbn [List.filter is_transport_call].
      f_equal. apply transport_calls_dispatch.
    + cbn [deliveries]. apply deliveries_dispatch.
Qed.

Lemma connect_calls_transport_once_witness :
  credentials_ok (session (connected_manager sample_session ∅)) = true
  /\ transport_calls (trace (connect (Some "video-el") None
        {| rejects_with := None; state_after := "connected" |}
        (connected_manager sample_session ∅)))
     = [RoomConnect "wss://x" "tok"]
  /\ option_map listeners (room (final (connect (Some "video-el") None
        {| rejects_with := None; state_after := "connected" |}
        (connected_manager sample_session ∅))))
     = Some (translation_hooks ++ media_hooks (Some "video-el") None).
Proof.
  split; [reflexivity|].
  destruct (connect_calls_transport_once (connected_manager sample_session ∅)
              (Some "video-el") None
              {| rejects_with := None; state_after := "connected" |} eq_refl)
    as (Hcalls & Hroom & _).
  split; [exact Hcalls|]. rewrite Hroom. reflexivity.
Defined.

Lemma escape_char_parse c r acc :
  parse_chars (escape_char c ++ r) acc = parse_chars r (c :: acc).
Proof. destruct c as [[] [] [] [] [] [] [] []]; reflexivity. Qed.

(** Reading back an escaped string up to its closing quote. *)
Lemma escape_parse cs r acc :
  parse_chars (escape cs ++ dquote :: r) acc
  = Some (string_of_list_ascii (rev acc ++ cs), r).
Proof.
  revert acc. induction cs as [|c cs IH]; intros acc.
  - simpl. rewrite app_nil_r. reflexivity.
  - unfold escape in *. cbn [flat_map]. rewrite <- app_assoc.
    rewrite escape_char_parse, IH. cbn [rev]. rewrite <- app_assoc. reflexivity.
Qed.

Lemma skip_ws_keep c r : is_ws c = false -> skip_ws (c :: r) = c :: r.
Proof. intros H. simpl. rewrite H. reflexivity. Qed.

Lemma parse_string_value f cs r :
  parse_value (S f) (dquote :: escape cs ++ dquote :: r)
  = Some (JString (string_of_list_ascii cs), r).
Proof.
  cbn [parse_value]. rewrite skip_ws_keep by reflexivity.
  decide_char. rewrite escape_parse. reflexivity.
Qed.

Lemma parse_key key r :
  parse_chars (escape key ++ dquote :: r) [] = Some (string_of_list_ascii key, r).
Proof. apply escape_parse. Qed.

Lemma parse_value_chat k msg :
  parse_value (S (S (S (S k)))) (stringify_chat msg) = Some (chat_envelope msg, []).
Proof.
  unfold stringify_chat, MESSAGE_TYPES_CHAT.
  change (list_ascii_of_string "{") with [ascii_of_nat 123].
  change (list_ascii_of_string "type") with (escape (list_ascii_of_string "type")).
  change (list_ascii_of_string "text") with (escape (list_ascii_of_string "text")).
  change (list_ascii_of_string ":") with [ascii_of_nat 58].
  change (list_ascii_of_string ",") with [ascii_of_nat 44].
  change (list_ascii_of_string "}") with [ascii_of_nat 125].
  cbn [app].
  repeat first
    [ rewrite parse_string_value
    | rewrite parse_key
    | rewrite skip_ws_keep by reflexivity
    | progress decide_char
    | progress cbn [parse_members parse_value] ].
  rewrite !string_of_list_ascii_of_string. reflexivity.
Qed.

Lemma JSON_parse_wire msg : JSON_parse (wire_payload msg) = Some (chat_envelope msg).
Proof.
  unfold JSON_parse, wire_payload. rewrite list_ascii_of_string_of_list_ascii.
  assert (Hf : exists k, 2 * length (stringify_chat msg) + 2 = S (S (S (S k)))).
  { unfold stringify_chat. cbn [app list_ascii_of_string length]. eexists.
    rewrite Nat.add_comm. cbn [Nat.add Nat.mul]. rewrite <- plus_n_Sm. reflexivity. }
  destruct Hf as [k ->]. rewrite parse_value_chat. reflexivity.
Qed.

(** *** The decoder on what the encoder wrote *)

Lemma lead_low c : high c = false -> lead c = ([c], None).
Proof.
  unfold lead, high. intros H. apply Nat.leb_gt in H.
  destruct (Nat.ltb_spec (nat_of_ascii c) 128); [reflexivity|lia].
Qed.

Lemma lead_ok c : pending_ok (lead c).2.
Proof.
  unfold lead.
  destruct (Nat.ltb_spec (nat_of_ascii c) 128) as [Hlt|Hge]; [exact I|].
  assert (Hc : high c = true) by (apply Nat.leb_le; exact Hge).
  repeat match goal with
  | |- context [if ?b then _ else _] => destruct b
  end; cbn [snd pending_ok lower seen]; try exact I;
    (split; [lia|repeat constructor; exact Hc]).
Qed.

Lemma lead_out c :
  high c = true -> (lead c).1 = [] \/ (lead c).1 = replacement.
Proof.
  unfold lead, high. intros H. apply Nat.leb_le in H.
  destruct (Nat.ltb_spec (nat_of_ascii c) 128); [lia|].
  repeat match goal with
  | |- context [if ?b then _ else _] => destruct b
  end; cbn [fst]; auto.
Qed.

Lemma utf8_decode_start b r :
  utf8_decode (b :: r) None = (lead b).1 ++ utf8_decode r (lead b).2.
Proof. cbn [utf8_decode]. destruct (lead b). reflexivity. Qed.

Lemma utf8_decode_low c r p :
  high c = false -> pending_ok p ->
  utf8_decode (c :: r) p = flush p ++ c :: utf8_decode r None.
Proof.
  intros Hc Hp. destruct p as [q|].
  - cbn [utf8_decode flush]. destruct Hp as [Hlow _].
    unfold high in Hc. apply Nat.leb_gt in Hc.
    destruct (Nat.leb_spec (lower q) (nat_of_ascii c)); [lia|].
    cbn [andb]. rewrite (lead_low c) by (apply Nat.leb_gt; exact Hc). reflexivity.
  - rewrite utf8_decode_start, (lead_low c Hc). reflexivity.
Qed.

Lemma pending_ok_next q b n :
  pending_ok (Some q) -> lower q <= nat_of_ascii b ->
  pending_ok (Some {| seen := seen q ++ [b]; needed := n; lower := 128; upper := 191 |}).
Proof.
  intros [Hlow Hseen] Hb. split; [cbn; lia|]. cbn [seen].
  apply Forall_app. split; [exact Hseen|]. repeat constructor.
  apply Nat.leb_le. lia.
Qed.

(** An ASCII byte ends whatever sequence had begun: the decoder reads what
    follows it from its initial state. *)
Lemma utf8_decode_app_low a c b p :
  high c = false -> pending_ok p ->
  utf8_decode (a ++ c :: b) p = utf8_decode a p ++ c :: utf8_decode b None.
Proof.
  intros Hc. revert p. induction a as [|x a IH]; intros p Hp.
  - apply utf8_decode_low; assumption.
  - cbn [app]. destruct p as [q|].
    + cbn [utf8_decode].
      destruct (Nat.leb_spec (lower q) (nat_of_ascii x)) as [Hx|Hx]; cbn [andb].
      * destruct (Nat.leb (nat_of_ascii x) (upper q)).
        -- destruct (needed q) as [|[|n]].
           ++ rewrite IH by exact I. rewrite <- !app_assoc. reflexivity.
           ++ rewrite IH by exact I. rewrite <- !app_assoc. reflexivity.
           ++ apply IH. apply pending_ok_next; assumption.
        -- pose proof (lead_ok x) as Hl. destruct (lead x) as [out p'].
           rewrite IH by exact Hl. rewrite <- !app_assoc. reflexivity.
      * pose proof (lead_ok x) as Hl. destruct (lead x) as [out p'].
        rewrite IH by exact Hl. rewrite <- !app_assoc. reflexivity.
    + rewrite !utf8_decode_start. rewrite IH by apply lead_ok.
      rewrite <- app_assoc. reflexivity.
Qed.

(** ASCII bytes in front are copied. *)
Lemma utf8_decode_low_prefix es b :
  Forall (fun c => high c = false) es ->
  utf8_decode (es ++ b) None = es ++ utf8_decode b None.
Proof.
  induction 1 as [|c es Hc _ IH]; [reflexivity|].
  cbn [app]. rewrite utf8_decode_low by (exact Hc || exact I).
  rewrite IH. reflexivity.
Qed.

Lemma escape_app a b : escape (a ++ b) = escape a ++ escape b.
Proof. unfold escape. apply flat_map_app. Qed.

Lemma escape_char_high c : high c = true -> escape_char c = [c].
Proof.
  unfold high, escape_char. intros H. apply Nat.leb_le in H.
  repeat match goal with
  | |- context [Nat.eqb ?a ?b] =>
      destruct (Nat.eqb_spec a b); [lia|]
  end.
  destruct (Nat.ltb_spec (nat_of_ascii c) 32); [lia|reflexivity].
Qed.

Lemma escape_high l : Forall (fun c => high c = true) l -> escape l = l.
Proof.
  induction 1 as [|c l Hc _ IH]; [reflexivity|].
  unfold escape in *. cbn [flat_map]. rewrite IH, (escape_char_high c Hc). reflexivity.
Qed.

Lemma escape_flush p : escape (flush p) = flush p.
Proof. destruct p; reflexivity. Qed.

(** What an ASCII byte is written as is ASCII, and not empty. *)
Lemma escape_char_low c :
  high c = false ->
  exists e es, escape_char c = e :: es
               /\ Forall (fun c => high c = false) (e :: es).
Proof.
  intros Hc. destruct c as [[] [] [] [] [] [] [] []];
    try discriminate Hc; do 2 eexists; (split; [reflexivity|]);
    repeat constructor.
Qed.

(** Escaping commutes with decoding: the escapes are written in ASCII and
    stand where an ASCII byte stood. *)
Lemma utf8_decode_escape cs p :
  pending_ok p ->
  utf8_decode (escape cs) p = escape (utf8_decode cs p).
Proof.
  revert p. induction cs as [|c cs IH]; intros p Hp.
  - cbn. symmetry. apply (escape_flush p).
  - change (escape (c :: cs)) with (escape_char c ++ escape cs).
    destruct (high c) eqn:Hc.
    + rewrite (escape_char_high c Hc). cbn [app].
      destruct p as [q|].
      * cbn [utf8_decode].
        destruct (Nat.leb_spec (lower q) (nat_of_ascii c)) as [Hx|Hx]; cbn [andb].
        -- destruct (Nat.leb (nat_of_ascii c) (upper q)).
           ++ assert (Hs : Forall (fun c => high c = true) (seen q ++ [c])).
              { apply Forall_app. split; [apply Hp|]. repeat constructor. exact Hc. }
              destruct (needed q) as [|[|n]].
              ** rewrite escape_app, (escape_high _ Hs), IH by exact I. reflexivity.
              ** rewrite escape_app, (escape_high _ Hs), IH by exact I. reflexivity.
              ** apply IH. apply pending_ok_next; assumption.
           ++ pose proof (lead_ok c) as Hl. pose proof (lead_out c Hc) as Ho.
              destruct (lead c) as [out p']. cbn [fst snd] in *.
              rewrite !escape_app, IH by exact Hl.
              destruct Ho as [-> | ->]; reflexivity.
        -- pose proof (lead_ok c) as Hl. pose proof (lead_out c Hc) as Ho.
           destruct (lead c) as [out p']. cbn [fst snd] in *.
           rewrite !escape_app, IH by exact Hl.
           destruct Ho as [-> | ->]; reflexivity.
      * rewrite !utf8_decode_start. pose proof (lead_ok c) as Hl.
        pose proof (lead_out c Hc) as Ho.
        rewrite escape_app, IH by exact Hl.
        destruct Ho as [-> | ->]; reflexivity.
    + destruct (escape_char_low c Hc) as (e & es & He & Hlow).
      rewrite He. apply Forall_cons in Hlow as [Hlow_e Hlow_es].
      cbn [app]. rewrite (utf8_decode_low e _ p Hlow_e Hp).
      rewrite (utf8_decode_low_prefix es _ Hlow_es).
      rewrite (utf8_decode_low c cs p Hc Hp).
      rewrite escape_app, escape_flush.
      change (escape (c :: utf8_decode cs None))
        with (escape_char c ++ escape (utf8_decode cs None)).
      rewrite He, IH by exact I. reflexivity.
Qed.

Lemma strip_bom_low c r : high c = false -> strip_bom (c :: r) = c :: r.
Proof.
  unfold high. intros Hc. apply Nat.leb_gt in Hc.
  destruct r as [|b2 [|b3 r]]; try reflexivity. cbn [strip_bom].
  destruct (Nat.eqb_spec (nat_of_ascii c) 239); [lia|reflexivity].
Qed.

(** The decoder hands back what the encoder was given, for a well-formed
    message. *)
Lemma decode_wire message :
  well_formed message ->
  TextDecoder_decode (wire_payload message) = wire_payload message.
Proof.
  unfold well_formed, TextDecoder_decode, wire_payload. intros Hwf. f_equal.
  rewrite list_ascii_of_string_of_list_ascii.
  assert (Hshape : stringify_chat message
            = wire_prefix ++ escape (list_ascii_of_string message)
              ++ dquote :: list_ascii_of_string "}") by reflexivity.
  assert (Hpre : Forall (fun c => high c = false) wire_prefix)
    by (repeat constructor).
  rewrite Hshape.
  assert (Hbom : forall t, strip_bom (wire_prefix ++ t) = wire_prefix ++ t)
    by (intros t; apply strip_bom_low; reflexivity).
  rewrite Hbom, (utf8_decode_low_prefix _ _ Hpre).
  rewrite utf8_decode_app_low by (reflexivity || exact I).
  rewrite utf8_decode_escape by exact I. rewrite Hwf. reflexivity.
Qed.

(** X11.  What [sendMessage] puts on the wire reads back as the chat
    envelope for every message that is well-formed text, whatever
    characters it holds, quotes, backslashes and control characters
    included; and a controller that receives such a payload on its data
    channel ignores it: no handler is called and nothing is logged. *)
Theorem chat_message_loopback (m : AvatarSessionManager) (message p : string) :
  well_formed message ->
  JSON_parse (TextDecoder_decode (wire_payload message))
  = Some (chat_envelope message)
  /\ member (chat_envelope message) "text" = Some (JString message)
  /\ on_data_received (wire_payload message) p m = (Returned tt, m, []).
Proof.
  intros Hwf.
  split; [rewrite (decode_wire message Hwf); apply JSON_parse_wire|].
  split; [reflexivity|].
  unfold on_data_received, parse, try_catch, bind.
  rewrite (decode_wire message Hwf), JSON_parse_wire. reflexivity.
Qed.

Lemma chat_message_loopback_witness :
  well_formed sample_message
  /\ JSON_parse (TextDecoder_decode (wire_payload sample_message))
     = Some (chat_envelope sample_message).
Proof.
  assert (Hwf : well_formed sample_message) by (vm_compute; reflexivity).
  split; [exact Hwf|].
  destruct (chat_message_loopback (new_AvatarSessionManager sample_session)
              sample_message "agent" Hwf) as (Hback & _).
  exact Hback.
Defined.

End ControllerMore.

(** ** More on the registry *)

Module RegistryMore.
Import JSON Err Eff Session Vocabulary Extended.
Import SessionFacts ControllerFacts RegistryFacts.
Import SDK.

Lemma createSession_run reply this :
  createSession reply this
  = match reply with
    | Returned s =>
        (Returned (length (objects this)),
         {| apiClient := apiClient this;
            sessions := Map_set (id s) (length (objects this)) (sessions this);
            objects := objects this ++ [new_AvatarSessionManager s] |},
         [Gateway CreateSession])
    | Threw t => (Threw t, this, [Gateway CreateSession])
    end.
Proof. destruct reply; reflexivity. Qed.

Lemma getSession_hit sessionId reply ref this :
  Map_get sessionId (sessions this) = Some ref ->
  getSession sessionId reply this = (Returned (Some ref), this, []).
Proof. intros H. unfold getSession, bind, get. rewrite H. reflexivity. Qed.

Lemma getSession_miss sessionId reply this :
  Map_get sessionId (sessions this) = None ->
  getSession sessionId reply this
  = match reply with
    | Returned s =>
        (Returned (Some (length (objects this))),
         {| apiClient := apiClient this;
            sessions := Map_set (id s) (length (objects this)) (sessions this);
            objects := objects this ++ [new_AvatarSessionManager s] |},
         [Gateway (GetSession sessionId)])
    | Threw t => (Returned None, this, [Gateway (GetSession sessionId)])
    end.
Proof.
  intros H. unfold getSession, bind, get. rewrite H.
  destruct reply; destruct this; reflexivity.
Qed.

Lemma Map_get_set_ne k k' v m :
  k <> k' -> Map_get k' (Map_set k v m) = Map_get k' m.
Proof.
  intros Hne. induction m as [|[k0 v0] m IH]; simpl.
  - destruct (String.eqb_spec k k'); [congruence|reflexivity].
  - destruct (String.eqb_spec k0 k) as [->|Hk]; simpl.
    + destruct (String.eqb_spec k k'); [congruence|reflexivity].
    + destruct (String.eqb k0 k'); [reflexivity|exact IH].
Qed.

Lemma Map_get_delete_ne k k' m :
  k <> k' -> Map_get k' (Map_delete k m) = Map_get k' m.
Proof.
  intros Hne. induction m as [|[k0 v0] m IH]; [reflexivity|]. simpl.
  destruct (String.eqb_spec k0 k) as [->|Hk].
  - destruct (String.eqb_spec k k'); [congruence|exact IH].
  - simpl. destruct (String.eqb k0 k'); [reflexivity|exact IH].
Qed.

Lemma Map_get_elem k v m : Map_get k m = Some v -> v ∈ Map_values m.
Proof.
  induction m as [|[k' v'] m IH]; simpl; [discriminate|].
  destruct (String.eqb k' k).
  - intros [= ->]. apply elem_of_cons. left. reflexivity.
  - intros H. apply elem_of_cons. right. apply IH, H.
Qed.

Lemma Map_set_new k v m : Map_get k m = None -> Map_set k v m = m ++ [(k, v)].
Proof.
  induction m as [|[k' v'] m IH]; simpl; [reflexivity|].
  destruct (String.eqb k' k); [discriminate|]. intros H. rewrite IH by exact H.
  reflexivity.
Qed.

Lemma Map_set_length k v old m :
  Map_get k m = Some old -> length (Map_set k v m) = length m.
Proof.
  induction m as [|[k' v'] m IH]; simpl; [discriminate|].
  destruct (String.eqb k' k); simpl; [reflexivity|]. intros H. rewrite IH by exact H.
  reflexivity.
Qed.

Lemma Map_set_drops k v old m :
  Map_get k m = Some old -> NoDup (Map_values m) -> v <> old ->
  old ∉ Map_values (Map_set k v m).
Proof.
  induction m as [|[k' v'] m IH]; simpl; [discriminate|].
  intros Hget Hnd Hne. apply NoDup_cons in Hnd as [Hv' Hnd].
  destruct (String.eqb k' k); simpl.
  - injection Hget as ->. apply not_elem_of_cons. split; [congruence|exact Hv'].
  - apply not_elem_of_cons. split.
    + intros ->. apply Hv'. eapply Map_get_elem, Hget.
    + apply IH; assumption.
Qed.

(** X12.  [createSession] calls the gateway once and does not connect:
    when the gateway yields a session, a new controller without a room
    (status [disconnected]) is created and registered under the session's
    identifier, no controller method is called and the controllers that
    existed are untouched; when the gateway fails, the failure is passed
    on and nothing changes. *)
Theorem createSession_registers_unconnected (this : SoulCypherSDK)
  (reply : outcome AvatarSession) :
  let r := createSession reply this in
  trace r = [Gateway CreateSession]
  /\ match reply with
     | Returned s =>
         let fresh := length (objects this) in
         result r = Returned fresh
         /\ objects (final r) !! fresh = Some (new_AvatarSessionManager s)
         /\ getStatus (new_AvatarSessionManager s) = disconnected
         /\ Map_get (id s) (sessions (final r)) = Some fresh
         /\ (forall ref m, objects this !! ref = Some m ->
               objects (final r) !! ref = Some m)
     | Threw t => result r = Threw t /\ final r = this
     end.
Proof.
  cbv zeta. rewrite createSession_run.
  destruct reply as [s|t]; unfold trace, result, final; cbn [fst snd sessions objects].
  - split; [reflexivity|]. split; [reflexivity|].
    split; [rewrite lookup_app_r by lia; rewrite Nat.sub_diag; reflexivity|].
    split; [reflexivity|]. split; [apply Map_get_set_eq|].
    intros ref m Hm. apply lookup_app_l_Some, Hm.
  - repeat split; reflexivity.
Qed.

Lemma createSession_registers_unconnected_witness :
  objects three_sessions !! 1
  = Some (connected_manager (session_named "s2") ended_listeners)
  /\ objects (final (createSession (Returned (session_named "s9")) three_sessions))
     !! 1
     = Some (connected_manager (session_named "s2") ended_listeners).
Proof.
  split; [reflexivity|].
  destruct (createSession_registers_unconnected three_sessions
              (Returned (session_named "s9"))) as (_ & _ & _ & _ & _ & Hkept).
  apply Hkept. reflexivity.
Defined.

(** X13.  A session that was created is found again without the gateway:
    [getSession] with the identifier of a session that [createSession]
    just registered returns the very controller that [createSession]
    returned, makes no gateway call and changes nothing. *)
Theorem created_session_is_cached (this : SoulCypherSDK) (s : AvatarSession)
  (reply : outcome AvatarSession) :
  let created := createSession (Returned s) this in
  match result created with
  | Returned controller =>
      getSession (id s) reply (final created)
      = (Returned (Some controller), final created, [])
  | Threw _ => False
  end.
Proof.
  cbv zeta. rewrite createSession_run. unfold result, final; cbn [fst snd].
  apply getSession_hit. cbn [sessions]. apply Map_get_set_eq.
Qed.

(** X14.  Creating a session under an identifier that is already
    registered replaces the entry and keeps the size of the registry; the
    controller that was registered is not disconnected, it is no longer
    among the active sessions, and a later [cleanup()] does not reach it
    either: it keeps whatever room it holds. *)
Theorem duplicate_id_orphans_controller (this : SoulCypherSDK)
  (s : AvatarSession) (old : nat) (m : AvatarSessionManager)
  (transport : nat -> option thrown) :
  registry_ok this ->
  Map_get (id s) (sessions this) = Some old ->
  objects this !! old = Some m ->
  let after := final (createSession (Returned s) this) in
  length (sessions after) = length (sessions this)
  /\ Map_get (id s) (sessions after) = Some (length (objects this))
  /\ (old ∉ getActiveSessions after)
  /\ objects after !! old = Some m
  /\ objects (final (cleanup transport after)) !! old = Some m
  /\ of_controller old (trace (cleanup transport after)) = [].
Proof.
  intros Hok Hget Hobj. cbv zeta.
  pose proof (registry_ok_createSession this (Returned s) Hok) as Hok'.
  assert (Hafter : final (createSession (Returned s) this)
     = {| apiClient := apiClient this;
          sessions := Map_set (id s) (length (objects this)) (sessions this);
          objects := objects this ++ [new_AvatarSessionManager s] |})
    by (rewrite createSession_run; reflexivity).
  rewrite Hafter in *. cbn [sessions objects].
  assert (Hlt : old < length (objects this)) by (eapply lookup_lt_Some; eauto).
  assert (Hout : old ∉ Map_values
            (Map_set (id s) (length (objects this)) (sessions this))).
  { apply (Map_set_drops _ _ old); [exact Hget|apply Hok|lia]. }
  assert (Hkeep : (objects this ++ [new_AvatarSessionManager s]) !! old = Some m)
    by (apply lookup_app_l_Some, Hobj).
  split; [eapply Map_set_length; eauto|].
  split; [apply Map_get_set_eq|].
  split; [exact Hout|]. split; [exact Hkeep|].
  destruct (cleanup_run _ transport Hok')
    as (objs' & tr & Hrun & _ & _ & Hrest & _).
  rewrite Hrun. unfold final, trace; cbn [fst snd objects].
  destruct (Hrest old Hout) as [Ho Ht]. cbn [objects] in Ho.
  split; [rewrite Ho; exact Hkeep|exact Ht].
Qed.

Lemma registry_ok_three_sessions : registry_ok three_sessions.
Proof.
  split; [repeat constructor|].
  apply (bool_decide_unpack _). reflexivity.
Defined.

Lemma duplicate_id_orphans_controller_witness :
  registry_ok three_sessions
  /\ Map_get (id (session_named "s2")) (sessions three_sessions) = Some 1
  /\ getActiveSessions (final (createSession (Returned (session_named "s2"))
                                 three_sessions)) = [0; 3; 2]
  /\ option_map getStatus
       (objects (final (cleanup (fun _ => None)
          (final (createSession (Returned (session_named "s2")) three_sessions))))
        !! 1)
     = Some connected.
Proof.
  split; [exact registry_ok_three_sessions|]. split; [reflexivity|].
  split; [reflexivity|].
  destruct (duplicate_id_orphans_controller three_sessions (session_named "s2") 1
              (connected_manager (session_named "s2") ended_listeners)
              (fun _ => None) registry_ok_three_sessions eq_refl eq_refl)
    as (_ & _ & _ & _ & Hkept & _).
  rewrite Hkept. reflexivity.
Defined.

(** X15.  [getSession] stores what the gateway returned under the
    identifier that the returned session carries, not under the one that
    was asked for.  When the two differ, the asked identifier stays
    unregistered: asking again calls the gateway again and creates yet
    another controller. *)
Theorem lookup_under_other_id_is_not_cached (this : SoulCypherSDK)
  (sessionId : string) (s : AvatarSession) (again : outcome AvatarSession) :
  Map_get sessionId (sessions this) = None ->
  id s <> sessionId ->
  let first := getSession sessionId (Returned s) this in
  result first = Returned (Some (length (objects this)))
  /\ Map_get sessionId (sessions (final first)) = None
  /\ Map_get (id s) (sessions (final first)) = Some (length (objects this))
  /\ trace (getSession sessionId again (final first))
     = [Gateway (GetSession sessionId)]
  /\ length (objects (final (getSession sessionId (Returned s) (final first))))
     = length (objects this) + 2.
Proof.
  intros Hmiss Hne. cbv zeta.
  rewrite (getSession_miss sessionId (Returned s) this Hmiss).
  unfold result, final at 1 2 3 5; cbn [fst snd sessions].
  assert (Hstill : Map_get sessionId
            (Map_set (id s) (length (objects this)) (sessions this)) = None).
  { rewrite Map_get_set_ne by exact Hne. exact Hmiss. }
  split; [reflexivity|]. split; [exact Hstill|]. split; [apply Map_get_set_eq|].
  rewrite !getSession_miss by exact Hstill.
  split; [destruct again; reflexivity|].
  unfold final; cbn [fst snd objects]. rewrite !length_app. simpl. lia.
Qed.

Lemma lookup_under_other_id_is_not_cached_witness :
  Map_get "alias" (sessions three_sessions) = None
  /\ id (session_named "s9") <> "alias"
  /\ gateway_calls
       (trace (getSession "alias" (Returned (session_named "s9"))
          (final (getSession "alias" (Returned (session_named "s9")) three_sessions))))
     = [GetSession "alias"].
Proof.
  split; [reflexivity|]. split; [discriminate|].
  destruct (lookup_under_other_id_is_not_cached three_sessions "alias"
              (session_named "s9") (Returned (session_named "s9")) eq_refl)
    as (_ & _ & _ & Htr & _); [discriminate|].
  rewrite Htr. reflexivity.
Defined.

(** X16.  [endSession] with an identifier that is not registered touches
    no controller and leaves the registry as it is; the gateway is still
    asked to end the session, and what it answers is what the caller
    gets. *)
Theorem endSession_unknown_id (this : SoulCypherSDK) (sessionId : string)
  (transport : option thrown) (reply : outcome unit) :
  Map_get sessionId (sessions this) = None ->
  endSession sessionId transport reply this
  = (reply, this, [Gateway (EndSession sessionId)]).
Proof.
  intros Hmiss. unfold endSession, endSession_local, bind, get. rewrite Hmiss.
  destruct reply as [[]|t]; reflexivity.
Qed.

Lemma endSession_unknown_id_witness :
  Map_get "nobody" (sessions three_sessions) = None
  /\ endSession "nobody" None (Returned tt) three_sessions
     = (Returned tt, three_sessions, [Gateway (EndSession "nobody")]).
Proof.
  split; [reflexivity|].
  apply (endSession_unknown_id three_sessions "nobody" None (Returned tt)).
  reflexivity.
Defined.

Lemma Map_values_delete_drops k v m :
  Map_get k m = Some v -> NoDup (Map_values m) -> v ∉ Map_values (Map_delete k m).
Proof.
  induction m as [|[k' v'] m IH]; simpl; [discriminate|].
  intros Hget Hnd. apply NoDup_cons in Hnd as [Hv' Hnd].
  destruct (String.eqb k' k); simpl.
  - injection Hget as ->. intros H. apply Hv'. eapply Map_values_delete, H.
  - apply not_elem_of_cons. split.
    + intros ->. apply Hv'. eapply Map_get_elem, Hget.
    + apply IH; assumption.
Qed.

(** X17.  Ending one session leaves the others alone: every other
    identifier maps to the controller it mapped to, every other controller
    is as it was, and only the ended controller leaves the active
    sessions; this does not depend on what the gateway answers. *)
Theorem endSession_leaves_others (this : SoulCypherSDK) (sessionId : string)
  (ref : nat) (m : AvatarSessionManager) (transport : option thrown)
  (reply : outcome unit) :
  registry_ok this ->
  Map_get sessionId (sessions this) = Some ref ->
  objects this !! ref = Some m ->
  let after := final (endSession sessionId transport reply this) in
  (forall other, other <> sessionId ->
     Map_get other (sessions after) = Map_get other (sessions this))
  /\ (forall ref', ref' <> ref -> objects after !! ref' = objects this !! ref')
  /\ (ref ∉ getActiveSessions after)
  /\ (forall ref', ref' ∈ getActiveSessions after -> ref' ∈ getActiveSessions this)
  /\ apiClient after = apiClient this.
Proof.
  intros Hok Hget Hobj. cbv zeta.
  assert (Hafter : final (endSession sessionId transport reply this)
     = {| apiClient := apiClient this;
          sessions := Map_delete sessionId (sessions this);
          objects := <[ref := set_room None m]> (objects this) |}).
  { unfold endSession, bind.
    rewrite (endSession_local_run sessionId transport ref m this Hget Hobj).
    destruct reply as [[]|t]; reflexivity. }
  rewrite Hafter. unfold getActiveSessions. cbn [sessions objects apiClient].
  split; [intros other Hne; apply Map_get_delete_ne; congruence|].
  split; [intros ref' Hne; apply list_lookup_insert_ne; congruence|].
  split; [apply Map_values_delete_drops; [exact Hget|apply Hok]|].
  split; [intros ref' H; eapply Map_values_delete, H|reflexivity].
Qed.

Lemma endSession_leaves_others_witness :
  registry_ok three_sessions
  /\ Map_get "s2" (sessions three_sessions) = Some 1
  /\ getActiveSessions (final (endSession "s2" None (Returned tt) three_sessions))
     = [0; 2]
  /\ objects (final (endSession "s2" None (Returned tt) three_sessions)) !! 0
     = objects three_sessions !! 0.
Proof.
  split; [exact registry_ok_three_sessions|]. split; [reflexivity|].
  split; [reflexivity|].
  destruct (endSession_leaves_others three_sessions "s2" 1
              (connected_manager (session_named "s2") ended_listeners)
              None (Returned tt) registry_ok_three_sessions eq_refl eq_refl)
    as (_ & Hobjs & _).
  apply Hobjs. discriminate.
Defined.

(** X18.  [cleanup()] is idempotent: after one [cleanup()] there is no
    active session, and a second [cleanup()] returns normally without
    calling any controller or the gateway and without changing
    anything. *)
Theorem cleanup_twice (this : SoulCypherSDK) (first second : nat -> option thrown) :
  registry_ok this ->
  let after := final (cleanup first this) in
  getActiveSessions after = []
  /\ cleanup second after = (Returned tt, after, []).
Proof.
  intros Hok. cbv zeta.
  destruct (cleanup_run this first Hok) as (objs' & tr & -> & _).
  unfold final; cbn [fst snd]. split; reflexivity.
Qed.

Lemma cleanup_twice_witness :
  registry_ok three_sessions
  /\ trace (cleanup second_rejects (final (cleanup second_rejects three_sessions)))
     = [].
Proof.
  split; [exact registry_ok_three_sessions|].
  destruct (cleanup_twice three_sessions second_rejects second_rejects
              registry_ok_three_sessions) as (_ & ->).
  reflexivity.
Defined.

End RegistryMore.

(** ** More of the gateway client *)

Module GatewayMore.
Import JSON Err Eff Vocabulary Extended.
Import GatewayFacts.
Import Api.

Lemma response_json_run response c :
  response_json response c
  = (match body response with
     | Unreadable t => Threw t
     | Text text =>
         match JSON_parse text with
         | Some v => Returned v
         | None => Threw (JsError "SyntaxError" "Unexpected token in JSON")
         end
     end, c, []).
Proof.
  unfold response_json. destruct (body response) as [text|t]; [|reflexivity].
  destruct (JSON_parse text); reflexivity.
Qed.

Lemma request_ok endpoint method response c :
  ok response = true ->
  request endpoint method (Responds response) c
  = (result (response_json response c), c,
     [Fetch (String.append (baseUrl c) (String.append "/v1" endpoint))
        method (Some (apiKey c))]).
Proof.
  intros Hok. unfold request, bind, get, try_catch, log, throw, ret.
  cbn beta iota. rewrite Hok. cbn [negb]. cbn beta iota.
  rewrite response_json_run. reflexivity.
Qed.

Lemma ping_ok response c :
  ok response = true ->
  ping (Responds response) c
  = (result (response_json response c), c,
     [Fetch (String.append (baseUrl c) "/health") "GET" None]).
Proof.
  intros Hok. unfold ping, bind, get, try_catch, log, throw, ret.
  cbn beta iota. rewrite Hok. cbn [negb]. cbn beta iota.
  rewrite response_json_run. reflexivity.
Qed.

Lemma request_no_response endpoint method cause c :
  request endpoint method (NoResponse cause) c
  = (Threw (surfaced cause), c,
     [Fetch (String.append (baseUrl c) (String.append "/v1" endpoint))
        method (Some (apiKey c))]).
Proof.
  unfold request, bind, get, try_catch, log, throw, ret, surfaced.
  cbn beta iota. destruct (instanceof_SoulCypherError cause); reflexivity.
Qed.

Lemma ping_no_response cause c :
  ping (NoResponse cause) c
  = (Threw (network_error OpPing cause), c,
     [Fetch (String.append (baseUrl c) "/health") "GET" None]).
Proof.
  unfold ping, bind, get, try_catch, log, throw, ret, network_error.
  cbn beta iota. destruct (instanceof_SoulCypherError cause); reflexivity.
Qed.

Lemma surfaced_is_sdk_error t : exists e, surfaced t = SDKError e.
Proof.
  unfold surfaced. destruct t; cbn [instanceof_SoulCypherError]; eexists; reflexivity.
Qed.

(** X19.  A 2xx response settles every gateway operation by its body
    alone.  A body that decodes is handed back as decoded ([endSession]
    hands back nothing).  A body that does not decode rejects the call
    with the decoder's syntax error as it is: this error is not an SDK
    error and is not turned into the network error, because the decoding
    promise is returned without being awaited inside the [try]. *)
Theorem success_is_decided_by_body (op : operation) (c : APIClient)
  (response : Response) (text : string) :
  ok response = true ->
  body response = Text text ->
  (forall v, JSON_parse text = Some v ->
     call_result op (Responds response) c = Returned (handed_back op v))
  /\ (JSON_parse text = None ->
       exists msg,
         call_result op (Responds response) c = Threw (JsError "SyntaxError" msg)
         /\ instanceof_SoulCypherError (JsError "SyntaxError" msg) = false).
Proof.
  intros Hok Hb. split.
  - intros v Hv.
    destruct op; to_request;
      rewrite ?(request_ok _ _ _ _ Hok), ?(ping_ok _ _ Hok), response_json_run, Hb, Hv;
      reflexivity.
  - intros Hv. eexists. split; [|reflexivity].
    destruct op; to_request;
      rewrite ?(request_ok _ _ _ _ Hok), ?(ping_ok _ _ Hok), response_json_run, Hb, Hv;
      reflexivity.
Qed.

Lemma success_is_decided_by_body_witness :
  ok {| status := 204; body := Text EmptyString |} = true
  /\ exists msg,
       call_result (OpEndSession "s1")
         (Responds {| status := 204; body := Text EmptyString |}) sample_client
       = Threw (JsError "SyntaxError" msg).
Proof.
  split; [reflexivity|].
  destruct (success_is_decided_by_body (OpEndSession "s1") sample_client
              {| status := 204; body := Text EmptyString |} EmptyString
              eq_refl eq_refl) as (_ & Hbad).
  destruct (Hbad eq_refl) as (msg & Hmsg & _).
  exists msg. exact Hmsg.
Defined.

(** X20.  When [fetch] itself fails, every gateway operation rejects with
    an SDK error of code [NETWORK_ERROR] and no status code, whose message
    is the message of the cause after the prefix of the operation
    ([Request failed: ], for the health probe [Health check failed: ]),
    or [Unknown error] when the cause is not an error object.  Only a
    cause that already is an SDK error is passed on as it is. *)
Theorem no_response_is_network_error (op : operation) (c : APIClient)
  (cause : thrown) :
  call_result op (NoResponse cause) c = Threw (network_error op cause)
  /\ (instanceof_SoulCypherError cause = false ->
       exists e,
         network_error op cause = SDKError e
         /\ class e = SoulCypherErrorClass
         /\ code e = Some "NETWORK_ERROR"
         /\ statusCode e = None
         /\ message e
            = String.append
                (if through_request op then "Request failed: "
                 else "Health check failed: ")
                (match cause with
                 | JsError _ msg => msg
                 | _ => "Unknown error"
                 end)).
Proof.
  split.
  - destruct op; to_request;
      rewrite ?request_no_response, ?ping_no_response; reflexivity.
  - intros Hcause. unfold network_error. rewrite Hcause.
    eexists. repeat split. destruct cause; [discriminate Hcause|reflexivity..].
Qed.

Lemma no_response_is_network_error_witness :
  instanceof_SoulCypherError transport_down = false
  /\ call_result OpCreateSession (NoResponse transport_down) sample_client
     = Threw (SDKError (new_SoulCypherError
         "Request failed: could not reach the server" (Some "NETWORK_ERROR") None)).
Proof.
  split; [reflexivity|].
  destruct (no_response_is_network_error OpCreateSession sample_client transport_down)
    as (-> & _).
  reflexivity.
Defined.

(** X21.  A gateway operation that does not get a 2xx response never
    returns and never rejects with anything but an SDK error: this holds
    for every operation, whether [fetch] failed or answered with another
    status, and whatever the body is, unreadable bodies and bodies that
    decode to [null] included. *)
Theorem failed_call_rejects_with_sdk_error (op : operation) (c : APIClient)
  (reply : fetch_reply) :
  failed reply = true ->
  exists e : SoulCypherError, call_result op reply c = Threw (SDKError e).
Proof.
  intros Hfailed. destruct reply as [cause|response]; cbn [failed] in Hfailed.
  - destruct (surfaced_is_sdk_error cause) as (e & He).
    destruct op;
      try (exists e; to_request; rewrite request_no_response, He; reflexivity).
    to_request. rewrite ping_no_response. unfold network_error.
    destruct cause; cbn [instanceof_SoulCypherError]; eexists; reflexivity.
  - apply negb_true_iff in Hfailed.
    destruct (surfaced_is_sdk_error (handleErrorResponse response)) as (e & He).
    destruct op;
      try (exists e; to_request; rewrite (request_not_ok _ _ _ _ Hfailed), He;
           reflexivity).
    to_request. rewrite (ping_not_ok _ _ Hfailed). eexists. reflexivity.
Qed.

Lemma failed_call_rejects_with_sdk_error_witness :
  failed (Responds {| status := 503; body := Unreadable NonError |}) = true
  /\ exists e : SoulCypherError,
       call_result OpGetAvatars
         (Responds {| status := 503; body := Unreadable NonError |}) sample_client
       = Threw (SDKError e).
Proof.
  split; [reflexivity|].
  apply (failed_call_rejects_with_sdk_error OpGetAvatars sample_client
           (Responds {| status := 503; body := Unreadable NonError |})).
  reflexivity.
Defined.

(** X22.  The error of a non-2xx response carries the status of the
    response as its status code, and the code that the status selects:
    [AUTHENTICATION_ERROR] for 401, [RATE_LIMIT_ERROR] for 429,
    [VALIDATION_ERROR] for 400, [NOT_FOUND] for 404, [INTERNAL_ERROR] for
    500 and [API_ERROR] for every other status.  Only 401 and 429 have an
    error class of their own.  This is for the operations that go through
    [request], and for a body that can be read, does not decode to [null]
    and offers a message that can be turned into a string.  A message that
    cannot (an object with a member named [toString]) makes the error
    class's constructor throw, and the call then fails with the code
    [NETWORK_ERROR] and no status code, whatever the status. *)
Theorem status_selects_code (op : operation) (c : APIClient)
  (response : Response) (text : string) :
  through_request op = true ->
  ok response = false ->
  body response = Text text ->
  JSON_parse text <> Some JNull ->
  exists e : SoulCypherError,
    call_result op (Responds response) c = Threw (SDKError e)
    /\ (message_converts text = true ->
         statusCode e = Some (status response)
         /\ code e = Some (code_of_status (status response))
         /\ class e
            = (if (status response =? 401)%Z then AuthenticationErrorClass
               else if (status response =? 429)%Z then RateLimitErrorClass
               else SoulCypherErrorClass))
    /\ (message_converts text = false ->
         statusCode e = None
         /\ code e = Some "NETWORK_ERROR"
         /\ class e = SoulCypherErrorClass).
Proof.
  intros Hop Hok Hb Hnull.
  assert (Hcall : call_result op (Responds response) c
                  = Threw (surfaced (handleErrorResponse response))).
  { destruct op; try discriminate Hop; to_request;
      rewrite (request_not_ok _ _ _ _ Hok); reflexivity. }
  rewrite Hcall, (handleErrorResponse_text response text Hb Hnull).
  destruct (message_converts text) eqn:Hconv.
  - destruct (chosen_message_converts (status response) text Hconv) as (msg & ->).
    unfold surfaced; cbn [instanceof_SoulCypherError].
    eexists. split; [reflexivity|]. split; [|discriminate]. intros _.
    unfold error_for, code_of_status.
    destruct (status response =? 401)%Z eqn:E401;
      [apply Z.eqb_eq in E401; rewrite E401; repeat split; reflexivity|].
    destruct (status response =? 429)%Z eqn:E429;
      [apply Z.eqb_eq in E429; rewrite E429; repeat split; reflexivity|].
    destruct (status response =? 400)%Z eqn:E400;
      [apply Z.eqb_eq in E400; rewrite E400; repeat split; reflexivity|].
    destruct (status response =? 404)%Z eqn:E404;
      [apply Z.eqb_eq in E404; rewrite E404; repeat split; reflexivity|].
    destruct (status response =? 500)%Z eqn:E500;
      [apply Z.eqb_eq in E500; rewrite E500; repeat split; reflexivity|].
    repeat split; reflexivity.
  - assert (Hch : super_message (chosen_message (status response) text) = None).
    { unfold message_converts in Hconv. unfold chosen_message.
      destruct (picked_message text (JSON_parse text)) as [v|]; [|discriminate].
      cbn [super_message] in *.
      destruct (to_string v) eqn:Hv; [discriminate Hconv|].
      assert (Ht : truthy (Some v) = true).
      { destruct v as [|[]|l|t|items|ms]; try discriminate Hv; reflexivity. }
      rewrite Ht. exact Hv. }
    rewrite Hch. unfold surfaced; cbn [instanceof_SoulCypherError].
    eexists. split; [reflexivity|]. split; [discriminate|]. intros _.
    repeat split; reflexivity.
Qed.

Lemma status_selects_code_witness :
  through_request OpCreateSession = true
  /\ ok {| status := 404; body := Text "gone" |} = false
  /\ JSON_parse "gone" <> Some JNull
  /\ message_converts "gone" = true
  /\ exists e : SoulCypherError,
       call_result OpCreateSession
         (Responds {| status := 404; body := Text "gone" |}) sample_client
       = Threw (SDKError e)
       /\ statusCode e = Some 404%Z
       /\ code e = Some "NOT_FOUND".
Proof.
  assert (Hnull : JSON_parse "gone" <> Some JNull) by (vm_compute; discriminate).
  assert (Hconv : message_converts "gone" = true) by (vm_compute; reflexivity).
  split; [reflexivity|]. split; [reflexivity|]. split; [exact Hnull|].
  split; [exact Hconv|].
  destruct (status_selects_code OpCreateSession sample_client
              {| status := 404; body := Text "gone" |} "gone"
              eq_refl eq_refl eq_refl Hnull) as (e & He & Hyes & _).
  destruct (Hyes Hconv) as (Hs & Hc & _).
  exists e. split; [exact He|]. split; [exact Hs|exact Hc].
Defined.

Lemma call_trace_run op reply c : call_trace op reply c = [fetch_of op c].
Proof.
  destruct reply as [cause|response]; [|destruct (ok response) eqn:Hok].
  - destruct op; to_request;
      rewrite ?request_no_response, ?ping_no_response; reflexivity.
  - destruct op; to_request;
      rewrite ?(request_ok _ _ _ _ Hok), ?(ping_ok _ _ Hok), response_json_run;
      try reflexivity;
      unfold trace, result; cbn [fst snd];
      destruct (body response) as [text|t]; try reflexivity;
      destruct (JSON_parse text); reflexivity.
  - destruct op; to_request;
      rewrite ?(request_not_ok _ _ _ _ Hok), ?(ping_not_ok _ _ Hok); reflexivity.
Qed.

(** X23.  Every gateway operation makes exactly one HTTP request,
    whatever [fetch] answers: there is no retry and no second request
    after a failure.  The operations that go through [request] address
    their path below [/v1] of the base URL and send the API key; the
    health probe addresses [/health] at the root and does not send the
    key.  The client itself is never changed by a call. *)
Theorem one_request_per_operation (op : operation) (c : APIClient)
  (reply : fetch_reply) :
  call_trace op reply c = [fetch_of op c]
  /\ match op with
     | OpGetAvatars => final (getAvatars reply c)
     | OpGetAvatar a => final (getAvatar a reply c)
     | OpCreateAvatar => final (createAvatar reply c)
     | OpCreateSession => final (createSession reply c)
     | OpGetSession s => final (getSession s reply c)
     | OpGetSessionStatus s => final (getSessionStatus s reply c)
     | OpEndSession s => final (endSession s reply c)
     | OpPing => final (ping reply c)
     end = c.
Proof.
  split; [apply call_trace_run|].
  destruct reply as [cause|response]; [|destruct (ok response) eqn:Hok].
  - destruct op; to_request;
      rewrite ?request_no_response, ?ping_no_response; reflexivity.
  - destruct op; to_request;
      rewrite ?(request_ok _ _ _ _ Hok), ?(ping_ok _ _ Hok), response_json_run;
      try reflexivity;
      unfold final, result; cbn [fst snd];
      destruct (body response) as [text|t]; try reflexivity;
      destruct (JSON_parse text); reflexivity.
  - destruct op; to_request;
      rewrite ?(request_not_ok _ _ _ _ Hok), ?(ping_not_ok _ _ Hok); reflexivity.
Qed.

End GatewayMore.

(** ** The SDK object over its gateway client *)

Module FacadeMore.
Import JSON Err Eff Session Vocabulary Extended.
Import SessionFacts ControllerFacts RegistryFacts GatewayFacts GatewayMore RegistryMore.
Import SDK.

(** X24.  [ping()] of the SDK object never rejects.  It answers [true]
    exactly when the gateway answered the health probe with a 2xx response
    whose body can be read and decodes; a 2xx response with any other body
    counts as unhealthy, as does every other status and a failed [fetch].
    Either way, one request is made, to [/health] at the root of the base
    URL, without the API key. *)
Theorem ping_reports_health (reply : Api.fetch_reply) (this : SoulCypherSDK) :
  SDK_ping reply this
  = (healthy reply,
     [Api.Fetch (String.append (Api.baseUrl (apiClient this)) "/health") "GET" None]).
Proof.
  unfold SDK_ping, with_client, healthy.
  destruct reply as [cause|response].
  - rewrite ping_no_response. reflexivity.
  - destruct (Api.ok response) eqn:Hok.
    + rewrite (ping_ok _ _ Hok), response_json_run. unfold result; cbn [fst snd andb].
      destruct (Api.body response) as [text|t]; [|reflexivity].
      destruct (JSON_parse text); reflexivity.
    + rewrite (ping_not_ok _ _ Hok). reflexivity.
Qed.

(** X25.  When the gateway acknowledges the end of a session with a 2xx
    response whose body is not JSON (an empty body for one), [endSession]
    of the SDK object rejects with the decoder's syntax error, which is
    not an SDK error.  By then the session has been ended on this side:
    its controller was disconnected and it is no longer registered, and
    the gateway was asked once. *)
Theorem endSession_acknowledged_without_json (this : SoulCypherSDK)
  (sessionId : string) (ref : nat) (m : AvatarSessionManager)
  (transport : option thrown) (response : Api.Response) (text : string) :
  Map_get sessionId (sessions this) = Some ref ->
  objects this !! ref = Some m ->
  Api.ok response = true ->
  Api.body response = Api.Text text ->
  JSON_parse text = None ->
  let r := SDK_endSession sessionId transport (Api.Responds response) this in
  (exists msg, result r = Threw (JsError "SyntaxError" msg))
  /\ Map_get sessionId (sessions (final r)) = None
  /\ objects (final r) !! ref = Some (set_room None m)
  /\ of_controller ref (trace r) = trace (disconnect transport m)
  /\ gateway_calls (trace r) = [EndSession sessionId].
Proof.
  intros Hget Hobj Hok Hb Hparse. cbv zeta.
  assert (Hreply : result (Api.endSession sessionId (Api.Responds response)
                             (apiClient this))
                   = Threw (JsError "SyntaxError" "Unexpected token in JSON")).
  { unfold Api.endSession, bind.
    rewrite (request_ok _ _ _ _ Hok), response_json_run, Hb, Hparse. reflexivity. }
  unfold SDK_endSession. rewrite Hreply.
  unfold endSession, bind.
  rewrite (endSession_local_run sessionId transport ref m this Hget Hobj).
  unfold result, final, trace; cbn [fst snd await throw log sessions objects].
  split; [eexists; reflexivity|].
  split; [apply Map_get_delete|].
  split; [apply list_lookup_insert_eq; eapply lookup_lt_Some, Hobj|].
  rewrite !app_nil_r.
  split.
  - rewrite of_controller_app. cbn [of_controller]. rewrite app_nil_r.
    apply of_controller_same.
  - rewrite gateway_calls_app, gateway_calls_of_controller. reflexivity.
Qed.

Lemma endSession_acknowledged_without_json_witness :
  Map_get "s2" (sessions three_sessions) = Some 1
  /\ Api.ok {| Api.status := 204; Api.body := Api.Text EmptyString |} = true
  /\ JSON_parse EmptyString = None
  /\ Map_get "s2"
       (sessions (final (SDK_endSession "s2" None
          (Api.Responds {| Api.status := 204; Api.body := Api.Text EmptyString |})
          three_sessions))) = None.
Proof.
  split; [reflexivity|]. split; [reflexivity|]. split; [reflexivity|].
  destruct (endSession_acknowledged_without_json three_sessions "s2" 1
              (connected_manager (session_named "s2") ended_listeners) None
              {| Api.status := 204; Api.body := Api.Text EmptyString |} EmptyString
              eq_refl eq_refl eq_refl eq_refl eq_refl) as (_ & Hgone & _).
  exact Hgone.
Defined.

(** X26.  In every state that an SDK object can reach from its
    constructor (by its own operations, whatever the gateway and the
    transports answer, and by calls on the controllers it handed out), the
    active sessions are distinct controllers that exist; so [cleanup()]
    called in any such state returns normally, leaves no active session
    and does not call the gateway. *)
Theorem reachable_state_cleans_up (this : SoulCypherSDK)
  (transport : nat -> option thrown) :
  reachable this ->
  NoDup (getActiveSessions this)
  /\ (forall ref, ref ∈ getActiveSessions this -> is_Some (objects this !! ref))
  /\ result (cleanup transport this) = Returned tt
  /\ getActiveSessions (final (cleanup transport this)) = []
  /\ gateway_calls (trace (cleanup transport this)) = [].
Proof.
  intros Hreach. pose proof (reachable_registry_ok this Hreach) as Hok.
  split; [apply Hok|].
  split.
  - intros ref Hin. apply lookup_lt_is_Some.
    destruct Hok as [Hall _]. rewrite Forall_forall in Hall. apply Hall, Hin.
  - destruct (cleanup_run this transport Hok) as (objs' & tr & -> & _ & _ & _ & Hgw).
    unfold result, final, trace; cbn [fst snd].
    split; [reflexivity|]. split; [reflexivity|exact Hgw].
Qed.

Lemma reachable_created : reachable (final (createSession (Returned sample_session) fresh_sdk)).
Proof.
  eapply reachable_step; [|apply step_createSession].
  apply (reachable_new {| Api.cfg_apiKey := "key"; Api.cfg_baseUrl := None |}).
  reflexivity.
Defined.

Lemma reachable_state_cleans_up_witness :
  getActiveSessions (final (createSession (Returned sample_session) fresh_sdk)) = [0]
  /\ result (cleanup (fun _ => Some transport_down)
               (final (createSession (Returned sample_session) fresh_sdk)))
     = Returned tt.
Proof.
  split; [reflexivity|].
  destruct (reachable_state_cleans_up
              (final (createSession (Returned sample_session) fresh_sdk))
              (fun _ => Some transport_down) reachable_created)
    as (_ & _ & Hres & _).
  exact Hres.
Defined.

(** X27.  [new SoulCypherSDK(config)] succeeds exactly when the API key is
    not empty.  The object it gives has no active session, and its gateway
    client sends the configured key and addresses the configured base URL,
    or [https://api.soulcypher.ai] when none is configured or the
    configured one is empty; the key check of the client's own constructor
    never fires behind the check of the SDK object. *)
Theorem constructor_outcomes (config : Api.SDKConfig) :
  (Api.cfg_apiKey config = EmptyString ->
     new_SoulCypherSDK config
     = Threw (SDKError (new_AuthenticationError "API key is required")))
  /\ (Api.cfg_apiKey config <> EmptyString ->
       exists this,
         new_SoulCypherSDK config = Returned this
         /\ getActiveSessions this = []
         /\ (forall op reply,
               call_trace op reply (apiClient this)
               = [Api.Fetch
                    (String.append (base_url_of config)
                       (if Api.through_request op
                        then String.append "/v1" (endpoint op) else endpoint op))
                    (http_method op)
                    (if Api.through_request op then Some (Api.cfg_apiKey config)
                     else None)])).
Proof.
  unfold new_SoulCypherSDK, Api.new_APIClient. split.
  - intros ->. reflexivity.
  - intros Hkey. apply String.eqb_neq in Hkey. rewrite Hkey.
    eexists. split; [reflexivity|]. split; [reflexivity|].
    intros op reply. cbn [apiClient].
    exact (call_trace_run op reply
             {| Api.apiKey := Api.cfg_apiKey config;
                Api.baseUrl := base_url_of config |}).
Qed.

Lemma constructor_outcomes_witness :
  Api.cfg_apiKey {| Api.cfg_apiKey := "key"; Api.cfg_baseUrl := Some EmptyString |}
  <> EmptyString
  /\ exists this,
       new_SoulCypherSDK {| Api.cfg_apiKey := "key"; Api.cfg_baseUrl := Some EmptyString |}
       = Returned this
       /\ call_trace Api.OpPing (Api.NoResponse NonError) (apiClient this)
          = [Api.Fetch "https://api.soulcypher.ai/health" "GET" None].
Proof.
  split; [discriminate|].
  destruct (constructor_outcomes
              {| Api.cfg_apiKey := "key"; Api.cfg_baseUrl := Some EmptyString |})
    as (_ & Hnew).
  destruct Hnew as (this & Hthis & _ & Htr); [discriminate|].
  exists this. split; [exact Hthis|]. rewrite Htr. reflexivity.
Defined.

(** X28.  The active sessions are listed in the order in which their
    identifiers were first registered: a session created under an
    identifier that is not registered comes last, behind all the sessions
    that were active, which keep their order. *)
Theorem new_session_listed_last (this : SoulCypherSDK) (s : AvatarSession) :
  Map_get (id s) (sessions this) = None ->
  getActiveSessions (final (createSession (Returned s) this))
  = getActiveSessions this ++ [length (objects this)].
Proof.
  intros Hfresh. rewrite createSession_run. unfold final, getActiveSessions.
  cbn [fst snd sessions]. rewrite (Map_set_new _ _ _ Hfresh).
  unfold Map_values. rewrite map_app. reflexivity.
Qed.

Lemma new_session_listed_last_witness :
  Map_get (id (session_named "s9")) (sessions three_sessions) = None
  /\ getActiveSessions
       (final (createSession (Returned (session_named "s9")) three_sessions))
     = [0; 1; 2; 3].
Proof.
  split; [reflexivity|].
  rewrite (new_session_listed_last three_sessions (session_named "s9") eq_refl).
  reflexivity.
Defined.

End FacadeMore.
